(** * DriverDrowsiness: the two-level alert engine (modular/alerter.py)

    A shallow embedding of [AlertEngine] and of the constants of
    modular/config.py it reads, followed by the properties of the
    escalation state machine.

    Modelling conventions.
    - Timestamps and metrics ([perclos], [blink_rate], [ear]) are Python
      numbers; they are modelled as exact rationals [Q], compared with
      [Qle_bool]/[Qeq_bool] (Python's [<=] and [==]).  Rounding of binary
      floating point is outside the model.
    - [None]-able arguments and fields are [option]s.
    - The engine object is a record; every method takes the engine and
      returns the updated engine (explicit state passing).
    - [threading.Thread.is_alive()] is answered by the scheduler, not by the
      engine: each call of [process] receives the two answers it may ask
      for in a [ThreadEnv].
    - Console output ([print]) and [time.sleep] are not part of the state
      and are left out. *)

From Stdlib Require Import QArith Qminmax ZArith List String Bool Lia Lqa Arith.
From Stdlib Require Import SetoidList.
Import ListNotations.
Local Open Scope Q_scope.

(** ** Constants of modular/config.py used by the engine *)

Module Config.

Definition EAR_CLOSED_THRESHOLD : Q := 16 # 100.
Definition LEVEL1_DURATION_SECONDS : Q := 3.
Definition YAWN_ALERT_WINDOW_SECONDS : Q := 30.
Definition YAWN_ALERT_THRESHOLD : nat := 2.
Definition LEVEL2_DURATION_SECONDS : Q := 10.
Definition YAWN_RECENT_WINDOW_SECONDS : Q := 20.
Definition BLINK_RATE_LEVEL1_THRESHOLD : Q := 30.
Definition MICROSLEEP_LEVEL1_TRIGGER : bool := true.
Definition PERCLOS_LEVEL1_MIN : Q := 15.
Definition PERCLOS_LEVEL1_MAX : Q := 40.
Definition LEVEL1_FREQUENCY_WINDOW_SECONDS : Q := 300.
Definition LEVEL1_FREQUENCY_THRESHOLD : nat := 3.

End Config.
Import Config.

(** ** Data model *)

(** The target of the background thread held in [alert_thread]. *)
Inductive alert_loop : Type :=
| Level1Loop
| Level2Loop.

(** [last_alert_details]: the dictionary stored by [trigger_level1] and
    [trigger_level2].  Each constructor is one of the dictionary shapes the
    code builds, carrying the values it stores; [DetailsEmpty] is the [{}]
    both triggers assign before they fill the dictionary in.  The yawn
    frequency is [float] of a count, which [round(_, 1)] returns as it is:
    it is kept as the count. *)
Inductive alert_details : Type :=
| DetailsEmpty
| DetailsYawn (yawn_frequency : nat) (threshold : nat)
| DetailsBlink (rate : option Q) (threshold : Q)
| DetailsPerclos (value : option Q) (range_min range_max : Q)
| DetailsMicrosleep (count : option Z)
| DetailsMultiple
| DetailsFrequent (level1_alert_count : nat) (threshold : nat)
| DetailsPersistent.

(** The attributes set by [AlertEngine.__init__]. *)
Record AlertEngine : Type := mkAlertEngine {
  level1_start : option Q;
  level1_triggered_at : option Q;
  level2_triggered : bool;
  level1_active : bool;
  level2_active : bool;
  yawn_timestamps : list Q;
  yawns_since_level1 : nat;
  level1_trigger_history : list Q;
  last_alert_reason : option string;
  last_alert_details : option alert_details;
  audio_enabled : bool;
  alert_thread : option alert_loop;
  stop_alert : bool
}.

(** Answers of [alert_thread.is_alive()] during one call of [process]:
    one for [start_level1_alerts], one for [start_level2_alerts]. *)
Record ThreadEnv : Type := mkThreadEnv {
  alive_at_level1 : bool;
  alive_at_level2 : bool
}.

(** Attribute assignment, one setter per mutated attribute. *)
Definition set_level1_start (v : option Q) (s : AlertEngine) : AlertEngine :=
  mkAlertEngine v (level1_triggered_at s) (level2_triggered s) (level1_active s)
    (level2_active s) (yawn_timestamps s) (yawns_since_level1 s)
    (level1_trigger_history s) (last_alert_reason s) (last_alert_details s)
    (audio_enabled s) (alert_thread s) (stop_alert s).

Definition set_level1_triggered_at (v : option Q) (s : AlertEngine) : AlertEngine :=
  mkAlertEngine (level1_start s) v (level2_triggered s) (level1_active s)
    (level2_active s) (yawn_timestamps s) (yawns_since_level1 s)
    (level1_trigger_history s) (last_alert_reason s) (last_alert_details s)
    (audio_enabled s) (alert_thread s) (stop_alert s).

Definition set_level2_triggered (v : bool) (s : AlertEngine) : AlertEngine :=
  mkAlertEngine (level1_start s) (level1_triggered_at s) v (level1_active s)
    (level2_active s) (yawn_timestamps s) (yawns_since_level1 s)
    (level1_trigger_history s) (last_alert_reason s) (last_alert_details s)
    (audio_enabled s) (alert_thread s) (stop_alert s).

Definition set_level1_active (v : bool) (s : AlertEngine) : AlertEngine :=
  mkAlertEngine (level1_start s) (level1_triggered_at s) (level2_triggered s) v
    (level2_active s) (yawn_timestamps s) (yawns_since_level1 s)
    (level1_trigger_history s) (last_alert_reason s) (last_alert_details s)
    (audio_enabled s) (alert_thread s) (stop_alert s).

Definition set_level2_active (v : bool) (s : AlertEngine) : AlertEngine :=
  mkAlertEngine (level1_start s) (level1_triggered_at s) (level2_triggered s)
    (level1_active s) v (yawn_timestamps s) (yawns_since_level1 s)
    (level1_trigger_history s) (last_alert_reason s) (last_alert_details s)
    (audio_enabled s) (alert_thread s) (stop_alert s).

Definition set_yawn_timestamps (v : list Q) (s : AlertEngine) : AlertEngine :=
  mkAlertEngine (level1_start s) (level1_triggered_at s) (level2_triggered s)
    (level1_active s) (level2_active s) v (yawns_since_level1 s)
    (level1_trigger_history s) (last_alert_reason s) (last_alert_details s)
    (audio_enabled s) (alert_thread s) (stop_alert s).

Definition set_yawns_since_level1 (v : nat) (s : AlertEngine) : AlertEngine :=
  mkAlertEngine (level1_start s) (level1_triggered_at s) (level2_triggered s)
    (level1_active s) (level2_active s) (yawn_timestamps s) v
    (level1_trigger_history s) (last_alert_reason s) (last_alert_details s)
    (audio_enabled s) (alert_thread s) (stop_alert s).

Definition set_level1_trigger_history (v : list Q) (s : AlertEngine) : AlertEngine :=
  mkAlertEngine (level1_start s) (level1_triggered_at s) (level2_triggered s)
    (level1_active s) (level2_active s) (yawn_timestamps s) (yawns_since_level1 s)
    v (last_alert_reason s) (last_alert_details s)
    (audio_enabled s) (alert_thread s) (stop_alert s).

Definition set_last_alert (r : option string) (d : option alert_details)
    (s : AlertEngine) : AlertEngine :=
  mkAlertEngine (level1_start s) (level1_triggered_at s) (level2_triggered s)
    (level1_active s) (level2_active s) (yawn_timestamps s) (yawns_since_level1 s)
    (level1_trigger_history s) r d
    (audio_enabled s) (alert_thread s) (stop_alert s).

Definition set_alert_thread (v : option alert_loop) (s : AlertEngine) : AlertEngine :=
  mkAlertEngine (level1_start s) (level1_triggered_at s) (level2_triggered s)
    (level1_active s) (level2_active s) (yawn_timestamps s) (yawns_since_level1 s)
    (level1_trigger_history s) (last_alert_reason s) (last_alert_details s)
    (audio_enabled s) v (stop_alert s).

Definition set_stop_alert (v : bool) (s : AlertEngine) : AlertEngine :=
  mkAlertEngine (level1_start s) (level1_triggered_at s) (level2_triggered s)
    (level1_active s) (level2_active s) (yawn_timestamps s) (yawns_since_level1 s)
    (level1_trigger_history s) (last_alert_reason s) (last_alert_details s)
    (audio_enabled s) (alert_thread s) v.

(** ** Comparisons on numbers *)

(** Python's [a >= b]. *)
Definition Qge_bool (a b : Q) : bool := Qle_bool b a.
(** Python's [a < b]. *)
Definition Qlt_bool (a b : Q) : bool := negb (Qle_bool b a).
(** Python's [x in xs] on a list of numbers. *)
Definition Qmem (x : Q) (xs : list Q) : bool := existsb (Qeq_bool x) xs.
(** [sum(1 for ts in xs if ts >= start)]. *)
Definition count_since (start : Q) (xs : list Q) : nat :=
  List.length (filter (fun ts => Qge_bool ts start) xs).
(** [[ts for ts in xs if ts >= cutoff]]. *)
Definition keep_since (cutoff : Q) (xs : list Q) : list Q :=
  filter (fun ts => Qge_bool ts cutoff) xs.

(** ** The engine *)

Module AlertEngineImpl.

Definition DROWSY_STATES : list string :=
  ["SLIGHTLY_DROWSY"; "DROWSY"; "VERY_DROWSY"; "INATTENTIVE"]%string.

(** [__init__]; [audio] is whether the pygame mixer could be initialised. *)
Definition init (audio : bool) : AlertEngine :=
  mkAlertEngine None None false false false [] 0%nat [] None None audio None false.

(** [reset] *)
Definition reset (s : AlertEngine) : AlertEngine :=
  match level1_start s with
  | Some _ =>
      let s := set_level1_start None s in
      let s := set_level1_triggered_at None s in
      let s := set_level1_active false s in
      let s := set_level2_active false s in
      let s := set_stop_alert true s in
      let s := set_yawn_timestamps [] s in
      set_yawns_since_level1 0%nat s
  | None => s
  end.

(** [manual_reset] *)
Definition manual_reset (s : AlertEngine) : AlertEngine :=
  let s := reset s in
  set_level2_triggered false s.

(** [get_alert_level] *)
Definition get_alert_level (s : AlertEngine) : nat :=
  if level2_active s then 2%nat
  else if level1_active s then 1%nat
  else 0%nat.

(** [get_level1_elapsed] *)
Definition get_level1_elapsed (s : AlertEngine) (current_time : Q) : Q :=
  match level1_triggered_at s with
  | Some t1 => Qmax 0 (current_time - t1)
  | None => 0
  end.

(** [get_last_alert_info] *)
Definition get_last_alert_info (s : AlertEngine)
  : option string * option alert_details :=
  (last_alert_reason s, last_alert_details s).

(** [_check_yawn_trigger]: prunes [yawn_timestamps], then counts. *)
Definition _check_yawn_trigger (s : AlertEngine) (timestamp : Q)
  : AlertEngine * bool :=
  let cutoff_time := timestamp - YAWN_ALERT_WINDOW_SECONDS in
  let s := set_yawn_timestamps (keep_since cutoff_time (yawn_timestamps s)) s in
  let window_start := timestamp - YAWN_ALERT_WINDOW_SECONDS in
  let yawns_in_window := count_since window_start (yawn_timestamps s) in
  (s, (YAWN_ALERT_THRESHOLD <? yawns_in_window)%nat).

(** [_check_blink_rate_trigger] *)
Definition _check_blink_rate_trigger (blink_rate : option Q) : bool :=
  match blink_rate with
  | None => false
  | Some b => Qge_bool b BLINK_RATE_LEVEL1_THRESHOLD
  end.

(** [_check_microsleep_trigger] *)
Definition _check_microsleep_trigger (microsleep_count : option Z) : bool :=
  match microsleep_count with
  | None => false
  | Some n => MICROSLEEP_LEVEL1_TRIGGER && (0 <? n)%Z
  end.

(** [_check_perclos_trigger] *)
Definition _check_perclos_trigger (perclos : option Q) : bool :=
  match perclos with
  | None => false
  | Some p => Qle_bool PERCLOS_LEVEL1_MIN p && Qle_bool p PERCLOS_LEVEL1_MAX
  end.

(** [_check_frequent_level1_trigger]: prunes [level1_trigger_history],
    then counts. *)
Definition _check_frequent_level1_trigger (s : AlertEngine) (timestamp : Q)
  : AlertEngine * bool :=
  let cutoff_time := timestamp - LEVEL1_FREQUENCY_WINDOW_SECONDS in
  let s := set_level1_trigger_history
             (keep_since cutoff_time (level1_trigger_history s)) s in
  let window_start := timestamp - LEVEL1_FREQUENCY_WINDOW_SECONDS in
  let level1_count := count_since window_start (level1_trigger_history s) in
  (s, (LEVEL1_FREQUENCY_THRESHOLD <=? level1_count)%nat).

(** [_check_recent_yawns] *)
Definition _check_recent_yawns (s : AlertEngine) (timestamp : Q) : bool :=
  match yawn_timestamps s with
  | [] => false
  | _ =>
      let recent_cutoff := timestamp - YAWN_RECENT_WINDOW_SECONDS in
      let recent_yawns := keep_since recent_cutoff (yawn_timestamps s) in
      (0 <? List.length recent_yawns)%nat
  end.

(** [get_yawn_frequency]: prunes [yawn_timestamps] and returns the count. *)
Definition get_yawn_frequency (s : AlertEngine) (timestamp : Q)
  : AlertEngine * nat :=
  let cutoff_time := timestamp - YAWN_ALERT_WINDOW_SECONDS in
  let s := set_yawn_timestamps (keep_since cutoff_time (yawn_timestamps s)) s in
  let window_start := timestamp - YAWN_ALERT_WINDOW_SECONDS in
  let yawns_in_window := count_since window_start (yawn_timestamps s) in
  (s, yawns_in_window).

(** [start_level1_alerts]; [alive] answers [alert_thread.is_alive()]. *)
Definition start_level1_alerts (alive : bool) (s : AlertEngine) : AlertEngine :=
  match alert_thread s with
  | Some _ =>
      if alive then s
      else set_alert_thread (Some Level1Loop) (set_stop_alert false s)
  | None => set_alert_thread (Some Level1Loop) (set_stop_alert false s)
  end.

(** [start_level2_alerts]; [alive] answers [alert_thread.is_alive()]. *)
Definition start_level2_alerts (alive : bool) (s : AlertEngine) : AlertEngine :=
  let s := set_stop_alert false s in
  let s := match alert_thread s with
           | Some _ => if alive then set_stop_alert true s else s
           | None => s
           end in
  set_alert_thread (Some Level2Loop) s.

(** Python truthiness of an optional number: [x if x else None]. *)
Definition truthy (x : option Q) : option Q :=
  match x with
  | Some v => if Qeq_bool v 0 then None else Some v
  | None => None
  end.

(** [round(x, 1)] on an exact value: the nearest multiple of 1/10, a tie
    going to the even multiple. *)
Definition py_round1 (x : Q) : Q :=
  let n := (Qnum x * 10)%Z in
  let d := Zpos (Qden x) in
  let q := (n / d)%Z in
  let r := (n mod d)%Z in
  let k := if (2 * r <? d)%Z then q
           else if (d <? 2 * r)%Z then (q + 1)%Z
           else if Z.even q then q else (q + 1)%Z in
  k # 10.

(** [x is None] *)
Definition is_None {A : Type} (x : option A) : bool :=
  match x with
  | Some _ => false
  | None => true
  end.

(** The calls of [trigger_level1] that raise TypeError: the f-strings of the
    "excessive blink rate" and "high PERCLOS" branches format [blink_rate]
    and [perclos] with [:.1f], which [None] does not support.  ([reason]
    and [microsleep_count] are formatted without a format spec, and
    [timestamp] is a number.) *)
Definition trigger_level1_raises (s : AlertEngine) (reason : string)
    (perclos blink_rate : option Q) : bool :=
  negb (level1_active s)
  && ((String.eqb reason "excessive blink rate" && is_None blink_rate)
      || (String.eqb reason "high PERCLOS" && is_None perclos)).

(** [trigger_level1].  The result is the engine object as the call leaves
    it.  On the arguments of [trigger_level1_raises] the call ends at the
    f-string with a TypeError: the flags, the history entry and the reason
    are set by then, [last_alert_details] is still [{}], and
    [start_level1_alerts] is not reached. *)
Definition trigger_level1 (alive : bool) (s : AlertEngine) (timestamp : Q)
    (reason : string) (perclos blink_rate : option Q)
    (microsleep_count : option Z) : AlertEngine :=
  if level1_active s then s
  else
    let s := set_level1_active true s in
    let s := set_level1_triggered_at (Some timestamp) s in
    let s := set_yawns_since_level1 0%nat s in
    let s := set_level1_trigger_history
               (level1_trigger_history s ++ [timestamp]) s in
    let s := set_last_alert (Some reason) (Some DetailsEmpty) s in
    if String.eqb reason "yawn frequency" then
      let r := get_yawn_frequency s timestamp in
      start_level1_alerts alive
        (set_last_alert (Some reason)
           (Some (DetailsYawn (snd r) YAWN_ALERT_THRESHOLD)) (fst r))
    else if String.eqb reason "excessive blink rate" then
      match blink_rate with
      | None => s
      | Some _ =>
          start_level1_alerts alive
            (set_last_alert (Some reason)
               (Some (DetailsBlink (option_map py_round1 (truthy blink_rate))
                        BLINK_RATE_LEVEL1_THRESHOLD)) s)
      end
    else if String.eqb reason "high PERCLOS" then
      match perclos with
      | None => s
      | Some _ =>
          start_level1_alerts alive
            (set_last_alert (Some reason)
               (Some (DetailsPerclos (option_map py_round1 (truthy perclos))
                        PERCLOS_LEVEL1_MIN PERCLOS_LEVEL1_MAX)) s)
      end
    else if String.eqb reason "microsleep event" then
      start_level1_alerts alive
        (set_last_alert (Some reason)
           (Some (DetailsMicrosleep microsleep_count)) s)
    else
      start_level1_alerts alive
        (set_last_alert (Some reason) (Some DetailsMultiple) s).

(** [trigger_level2] *)
Definition trigger_level2 (alive : bool) (s : AlertEngine) (timestamp : Q)
    (reason : string) : AlertEngine :=
  if level2_active s then s
  else
    let s := set_level2_active true s in
    let s := set_level2_triggered true s in
    let s :=
      if String.eqb reason "frequent Level 1 alerts" then
        let cutoff_time := timestamp - LEVEL1_FREQUENCY_WINDOW_SECONDS in
        let recent_triggers := keep_since cutoff_time (level1_trigger_history s) in
        let alert_count := List.length recent_triggers in
        set_last_alert (Some reason)
          (Some (DetailsFrequent alert_count LEVEL1_FREQUENCY_THRESHOLD)) s
      else
        set_last_alert (Some reason) (Some DetailsPersistent) s in
    start_level2_alerts alive s.

(** The first loop of [process]: add the yawns that are not tracked yet. *)
Fixpoint ingest_yawns (s : AlertEngine) (yawns : list Q) : AlertEngine :=
  match yawns with
  | [] => s
  | ts :: rest =>
      let s :=
        if negb (Qmem ts (yawn_timestamps s)) then
          let s := set_yawn_timestamps (yawn_timestamps s ++ [ts]) s in
          match level1_triggered_at s with
          | Some t1 =>
              if Qge_bool ts t1
              then set_yawns_since_level1 (S (yawns_since_level1 s)) s
              else s
          | None => s
          end
        else s in
      ingest_yawns s rest
  end.

(** [if yawn_timestamps is not None: ...] *)
Definition update_yawns (s : AlertEngine) (yawns : option (list Q)) : AlertEngine :=
  match yawns with
  | Some l => ingest_yawns s l
  | None => s
  end.

(** The list [triggers] built when Level 1 fires, joined with [" + "]. *)
Definition trigger_reason (yawn_trigger blink_rate_trigger perclos_trigger
    has_drowsiness_symptoms : bool) : string :=
  let triggers :=
    (if yawn_trigger then ["yawn frequency"%string] else []) ++
    (if blink_rate_trigger then ["excessive blink rate"%string] else []) ++
    (if perclos_trigger then ["high PERCLOS"%string] else []) ++
    (if has_drowsiness_symptoms then ["drowsiness symptoms"%string] else []) in
  match triggers with
  | [] => "drowsiness symptoms"%string
  | _ => String.concat " + " triggers
  end.

(** [should_escalate] of the standard escalation block. *)
Definition should_escalate (s : AlertEngine)
    (has_drowsiness_symptoms yawn_trigger blink_rate_trigger perclos_trigger : bool)
    (perclos ear : option Q) : bool :=
  if has_drowsiness_symptoms then true
  else if yawn_trigger then
    if (0 <? yawns_since_level1 s)%nat then
      let has_perclos_issue :=
        match perclos with
        | Some p => Qge_bool p PERCLOS_LEVEL1_MIN
        | None => false
        end in
      let has_ear_issue :=
        match ear with
        | Some e => Qlt_bool e EAR_CLOSED_THRESHOLD
        | None => false
        end in
      has_perclos_issue || has_ear_issue
    else false
  else if blink_rate_trigger then true
  else if perclos_trigger then true
  else false.

(** [process].  Neither of its calls of [trigger_level1] raises
    ([microsleep_call_returns], [dwell_call_returns] below), so the engine
    each call returns is the engine the rest of the body goes on with. *)
Definition process (env : ThreadEnv) (s : AlertEngine) (state : string)
    (timestamp : Q) (yawns : option (list Q)) (perclos blink_rate : option Q)
    (microsleep_count : option Z) (ear : option Q) : AlertEngine :=
  let s := update_yawns s yawns in
  let has_drowsiness_symptoms := existsb (String.eqb state) DROWSY_STATES in
  let yawn_trigger := snd (_check_yawn_trigger s timestamp) in
  let s := fst (_check_yawn_trigger s timestamp) in
  let blink_rate_trigger := _check_blink_rate_trigger blink_rate in
  let microsleep_trigger := _check_microsleep_trigger microsleep_count in
  let perclos_trigger := _check_perclos_trigger perclos in
  if microsleep_trigger && negb (level1_active s) then
    trigger_level1 (alive_at_level1 env) s timestamp "microsleep event"
      None None microsleep_count
  else
    let should_trigger_level1 :=
      has_drowsiness_symptoms || yawn_trigger || blink_rate_trigger
      || perclos_trigger in
    if should_trigger_level1 then
      let s := match level1_start s with
               | None => set_level1_start (Some timestamp) s
               | Some _ => s
               end in
      let elapsed := match level1_start s with
                     | Some t0 => timestamp - t0
                     | None => 0
                     end in
      let s :=
        if Qge_bool elapsed LEVEL1_DURATION_SECONDS && negb (level1_active s)
        then trigger_level1 (alive_at_level1 env) s timestamp
               (trigger_reason yawn_trigger blink_rate_trigger perclos_trigger
                  has_drowsiness_symptoms)
               perclos blink_rate (Some 0%Z)
        else s in
      let reset_now :=
        match level1_triggered_at s with
        | Some t1 =>
            level1_active s
            && (negb has_drowsiness_symptoms && negb yawn_trigger
                && negb blink_rate_trigger && negb perclos_trigger
                && (yawns_since_level1 s =? 0)%nat)
            && Qge_bool (timestamp - t1) 5
        | None => false
        end in
      if reset_now then reset s
      else
        let frequent_level1_trigger :=
          snd (_check_frequent_level1_trigger s timestamp) in
        let s := fst (_check_frequent_level1_trigger s timestamp) in
        let s :=
          if frequent_level1_trigger && negb (level2_active s)
          then trigger_level2 (alive_at_level2 env) s timestamp
                 "frequent Level 1 alerts"
          else s in
        match level1_triggered_at s with
        | Some t1 =>
            if level1_active s then
              let level1_elapsed := timestamp - t1 in
              if Qge_bool level1_elapsed LEVEL2_DURATION_SECONDS
                 && negb (level2_active s)
              then
                if should_escalate s has_drowsiness_symptoms yawn_trigger
                     blink_rate_trigger perclos_trigger perclos ear
                then trigger_level2 (alive_at_level2 env) s timestamp
                       "persistent symptoms"
                else s
              else s
            else s
        | None => s
        end
    else
      if String.eqb state "ALERT" || String.eqb state "NO_FACE" then
        if negb yawn_trigger && negb blink_rate_trigger && negb perclos_trigger
        then reset s
        else s
      else if negb yawn_trigger && negb blink_rate_trigger
              && negb perclos_trigger then
        match level1_triggered_at s with
        | Some _ =>
            if level1_active s && negb has_drowsiness_symptoms
            then reset s
            else s
        | None => s
        end
      else s.

End AlertEngineImpl.
Import AlertEngineImpl.

(** ** Sequences of frames *)

(** The arguments of one call of [process], with the scheduler's answers. *)
Record Frame : Type := mkFrame {
  f_env : ThreadEnv;
  f_state : string;
  f_timestamp : Q;
  f_yawns : option (list Q);
  f_perclos : option Q;
  f_blink_rate : option Q;
  f_microsleep_count : option Z;
  f_ear : option Q
}.

Definition step (s : AlertEngine) (f : Frame) : AlertEngine :=
  process (f_env f) s (f_state f) (f_timestamp f) (f_yawns f) (f_perclos f)
    (f_blink_rate f) (f_microsleep_count f) (f_ear f).

(** The engine after the calls of [fs], in order. *)
Definition run (s : AlertEngine) (fs : list Frame) : AlertEngine :=
  fold_left step fs s.

(** The engines observed after each call of [fs]. *)
Fixpoint trace (s : AlertEngine) (fs : list Frame) : list AlertEngine :=
  match fs with
  | [] => []
  | f :: rest => step s f :: trace (step s f) rest
  end.

(** The alert level read by [get_alert_level] after each call. *)
Definition levels (s : AlertEngine) (fs : list Frame) : list nat :=
  map get_alert_level (trace s fs).

(** No alert thread is running when the engine asks. *)
Definition no_thread : ThreadEnv := mkThreadEnv false false.

(** The Level-1 alert thread is running when Level 2 is raised. *)
Definition level1_tone_running : ThreadEnv := mkThreadEnv false true.

(** [process(state, t)] with every optional argument at its default. *)
Definition plain (state : string) (t : Q) : Frame :=
  mkFrame no_thread state t None None None (Some 0%Z) None.

(** The same call, made while the Level-1 alert thread is running. *)
Definition plain_on_level1 (state : string) (t : Q) : Frame :=
  mkFrame level1_tone_running state t None None None (Some 0%Z) None.

(** ** The blocks of [process]

    [process] above is written as the source has it, in one piece.  The
    proofs work on its blocks, named here; [process_cases] below shows that
    [process] is their composition. *)

(** The engine as [process] sees it once the yawns of the call are ingested
    and the yawn window is pruned (lines 128-142). *)
Definition after_yawns (s : AlertEngine) (yawns : option (list Q)) (t : Q)
  : AlertEngine := fst (_check_yawn_trigger (update_yawns s yawns) t).

(** The value of [yawn_trigger] on that call. *)
Definition yawn_trigger_of (s : AlertEngine) (yawns : option (list Q)) (t : Q)
  : bool := snd (_check_yawn_trigger (update_yawns s yawns) t).

(** The engine with the dwell timer started if it was not running
    (lines 162-163). *)
Definition start_dwell (s : AlertEngine) (t : Q) : AlertEngine :=
  match level1_start s with
  | None => set_level1_start (Some t) s
  | Some _ => s
  end.

(** The dwell block: lines 161-182 of [process]. *)
Definition dwell_step (alive : bool) (s : AlertEngine) (t : Q)
    (has_drowsiness_symptoms yawn_trigger blink_rate_trigger perclos_trigger : bool)
    (perclos blink_rate : option Q) : AlertEngine :=
  let s := match level1_start s with
           | None => set_level1_start (Some t) s
           | Some _ => s
           end in
  let elapsed := match level1_start s with
                 | Some t0 => t - t0
                 | None => 0
                 end in
  if Qge_bool elapsed LEVEL1_DURATION_SECONDS && negb (level1_active s)
  then trigger_level1 alive s t
         (trigger_reason yawn_trigger blink_rate_trigger perclos_trigger
            has_drowsiness_symptoms)
         perclos blink_rate (Some 0%Z)
  else s.

(** The recurrence check and the Level 2 trigger it may cause:
    lines 199-206 of [process]. *)
Definition recurrence_step (alive : bool) (s : AlertEngine) (t : Q)
  : AlertEngine :=
  let s1 := fst (_check_frequent_level1_trigger s t) in
  if snd (_check_frequent_level1_trigger s t) && negb (level2_active s1)
  then trigger_level2 alive s1 t "frequent Level 1 alerts"
  else s1.

(** The standard escalation block: lines 208-237 of [process]. *)
Definition escalation_step (alive : bool) (s : AlertEngine) (t : Q)
    (has_drowsiness_symptoms yawn_trigger blink_rate_trigger perclos_trigger : bool)
    (perclos ear : option Q) : AlertEngine :=
  match level1_triggered_at s with
  | Some t1 =>
      if level1_active s then
        if Qge_bool (t - t1) LEVEL2_DURATION_SECONDS && negb (level2_active s)
        then
          if should_escalate s has_drowsiness_symptoms yawn_trigger
               blink_rate_trigger perclos_trigger perclos ear
          then trigger_level2 alive s t "persistent symptoms"
          else s
        else s
      else s
  | None => s
  end.

(** The [else] branch of [process] (lines 238-251), reached only when no
    trigger is active. *)
Definition quiet_step (s : AlertEngine) (state : string) : AlertEngine :=
  if String.eqb state "ALERT" || String.eqb state "NO_FACE" then reset s
  else match level1_triggered_at s with
       | Some _ => if level1_active s then reset s else s
       | None => s
       end.

(** ** Predicates of the statements *)

(** The symptom-tracking attributes are in their cleared state. *)
Definition symptoms_cleared (s : AlertEngine) : Prop :=
  level1_start s = None /\ level1_triggered_at s = None /\
  level1_active s = false /\ level2_active s = false /\
  yawn_timestamps s = [] /\ yawns_since_level1 s = 0%nat.

(** Level 1 is active while the dwell timer is unset. *)
Definition stuck (s : AlertEngine) : Prop :=
  level1_active s = true /\ level1_start s = None.

(** No two entries are equal as numbers (Python's [==]). *)
Definition distinct (l : list Q) : Prop := NoDupA Qeq l.

(** A call at time [t] with a trigger active raises Level 1 at the end of
    the dwell (line 168): Level 1 is not active and the dwell timer,
    started on an earlier call, has run for LEVEL1_DURATION_SECONDS.  (A
    timer started on the call itself has run for 0 s.) *)
Definition activates_on_call (s : AlertEngine) (t : Q) : bool :=
  negb (level1_active s)
  && match level1_start s with
     | Some t0 => Qge_bool (t - t0) LEVEL1_DURATION_SECONDS
     | None => false
     end.

(** [level1_trigger_history] as the recurrence check of that call (line
    202) reads it: the activation the call itself records (line 421) is
    in it. *)
Definition history_at_check (s : AlertEngine) (t : Q) : list Q :=
  level1_trigger_history s ++ (if activates_on_call s t then [t] else []).

(** PERCLOS is supplied and at least PERCLOS_LEVEL1_MIN. *)
Definition perclos_issue (perclos : option Q) : Prop :=
  exists p, perclos = Some p /\ PERCLOS_LEVEL1_MIN <= p.

(** EAR is supplied and below EAR_CLOSED_THRESHOLD. *)
Definition ear_issue (ear : option Q) : Prop :=
  exists e, ear = Some e /\ e < EAR_CLOSED_THRESHOLD.

(** The escalation condition in the words of the specification: the
    drowsy-state trigger; otherwise the yawn trigger with a yawn since
    Level 1 and a PERCLOS or EAR issue; otherwise the blink-rate or the
    PERCLOS trigger. *)
Definition original_trigger_persists (has yt bt pt : bool) (yawns_since : nat)
    (perclos ear : option Q) : Prop :=
  has = true \/
  (has = false /\ yt = true /\ (0 < yawns_since)%nat /\
   (perclos_issue perclos \/ ear_issue ear)) \/
  (has = false /\ yt = false /\ (bt = true \/ pt = true)).

(** A frame whose only trigger is the DROWSY state. *)
Definition drowsy_only (f : Frame) : Prop :=
  f_state f = "DROWSY"%string /\
  (f_yawns f = None \/ f_yawns f = Some []) /\
  _check_blink_rate_trigger (f_blink_rate f) = false /\
  _check_perclos_trigger (f_perclos f) = false /\
  _check_microsleep_trigger (f_microsleep_count f) = false.

(** The dwell timer runs since [t0]; no level is active. *)
Definition dwelling (t0 : Q) (s : AlertEngine) : Prop :=
  level1_start s = Some t0 /\ level1_active s = false /\
  level2_active s = false /\ level1_triggered_at s = None /\
  yawn_timestamps s = [] /\ level1_trigger_history s = [].

(** Level 1 is active since [t3]; Level 2 is not. *)
Definition at_level1 (t3 : Q) (s : AlertEngine) : Prop :=
  level1_active s = true /\ level2_active s = false /\
  level1_triggered_at s = Some t3 /\ yawn_timestamps s = [] /\
  (List.length (level1_trigger_history s) <= 1)%nat.

(** ** Scenarios *)

(** [process("ALERT", t, microsleep_count=1)]. *)
Definition microsleep_frame (t : Q) : Frame :=
  mkFrame no_thread "ALERT" t None None None (Some 1%Z) None.

(** [process("ALERT", t, yawn_timestamps=ys)]. *)
Definition yawning (t : Q) (ys : list Q) : Frame :=
  mkFrame no_thread "ALERT" t (Some ys) None None (Some 0%Z) None.

(** The engine after [process("ALERT", 0, microsleep_count=1)] on a fresh
    engine: Level 1 raised by the microsleep path. *)
Definition after_microsleep : AlertEngine :=
  run (init false) [microsleep_frame 0].

(** Level 1 raised three times by the drowsy state, each followed by a
    recovery; the last recovery also ends the Level 2 raised at t=203. *)
Definition three_activations : list Frame :=
  [plain "DROWSY" 0; plain "DROWSY" 3; plain "ALERT" 4;
   plain "DROWSY" 100; plain "DROWSY" 103; plain "ALERT" 104;
   plain "DROWSY" 200; plain_on_level1 "DROWSY" 203; plain "ALERT" 204].

(** Scenario E up to the call that raises Level 1 for the third time: two
    activations, each followed by a recovery, and the third dwell started
    at t=200. *)
Definition third_dwell : list Frame :=
  [plain "DROWSY" 0; plain "DROWSY" 3; plain "ALERT" 4;
   plain "DROWSY" 100; plain "DROWSY" 103; plain "ALERT" 104;
   plain "DROWSY" 200].

(** Two activations by the drowsy state, a third by a microsleep at t=200
    (which leaves [level1_start] unset), then quiet ALERT frames reporting
    yawns at t=203 and t=206. *)
Definition third_by_microsleep : list Frame :=
  [plain "DROWSY" 0; plain "DROWSY" 3; plain "ALERT" 4;
   plain "DROWSY" 100; plain "DROWSY" 103; plain "ALERT" 104;
   microsleep_frame 200; yawning 203 [203]; yawning 206 [203; 206]].

(** ** Further notions: the branch taken by [process], the alert loops *)

(** The value of [should_trigger_level1] on a call (lines 153-158). *)
Definition should_trigger_level1 (s : AlertEngine) (state : string) (t : Q)
    (yawns : option (list Q)) (perclos blink_rate : option Q) : bool :=
  existsb (String.eqb state) DROWSY_STATES || yawn_trigger_of s yawns t
  || _check_blink_rate_trigger blink_rate || _check_perclos_trigger perclos.

(** The test of line 148: the microsleep branch is taken. *)
Definition microsleep_branch (s : AlertEngine) (microsleep_count : option Z)
  : bool :=
  _check_microsleep_trigger microsleep_count && negb (level1_active s).

(** The loop condition of [_level1_alert_loop]:
    [while not self.stop_alert and self.level1_active]. *)
Definition level1_loop_continues (s : AlertEngine) : bool :=
  negb (stop_alert s) && level1_active s.

(** The loop condition of [_level2_alert_loop]:
    [while not self.stop_alert and self.level2_active]. *)
Definition level2_loop_continues (s : AlertEngine) : bool :=
  negb (stop_alert s) && level2_active s.

(** The first occurrence of every number of [l], in the order of [l]
    (numbers compared with [==]). *)
Fixpoint first_occurrences (l : list Q) : list Q :=
  match l with
  | [] => []
  | y :: rest =>
      y :: filter (fun x => negb (Qeq_bool x y)) (first_occurrences rest)
  end.

(** The yawns of an argument [l] that are not in the list [tracked], each
    once, in the order of their first occurrence in [l]. *)
Definition untracked_of (tracked l : list Q) : list Q :=
  first_occurrences (filter (fun y => negb (Qmem y tracked)) l).

(** On engines reached from [__init__]: Level 1 is active exactly when its
    activation time is recorded, and an active Level 2 has set the
    "ever triggered" flag. *)
Definition consistent (s : AlertEngine) : Prop :=
  (level1_active s = true <-> level1_triggered_at s <> None) /\
  (level2_active s = true -> level2_triggered s = true).

(** ** modular/main.py: the alert part of the frame loop (lines 123-235)

    The detection modules main.py imports (face detector, PERCLOS, blink
    and yawn analyzers, score calculator) are not part of this development:
    what they return for a frame is an input, [Capture].  Rendering, the
    periodic state log, printing and the keyboard are left out. *)

Module Main.

(** The values the analyzers return on a frame with a face and an EAR
    (lines 164-199): [state] is [classify_state(score)] after the
    "INATTENTIVE" override. *)
Record Analysis : Type := mkAnalysis {
  a_state : string;
  a_score : Q;
  a_perclos : Q;
  a_blink_rate : Q;
  a_micro_count : Z;
  a_recent_yawn_timestamps : list Q
}.

(** One iteration's inputs: whether [face_detector.detect] found a face,
    the EAR if both eyes were found, the analyzers' results (read only when
    the EAR is there), [now], and the scheduler's answers. *)
Record Capture : Type := mkCapture {
  face_landmarks : bool;
  c_ear : option Q;
  c_analysis : Analysis;
  c_now : Q;
  c_env : ThreadEnv
}.

(** The locals of [main] that live across iterations.  [micro_count] and
    [recent_yawn_timestamps] are assigned only inside [if ear is not None];
    [None] stands for a local that is still unbound. *)
Record Locals : Type := mkLocals {
  micro_count : option Z;
  recent_yawn_timestamps : option (list Q);
  prev_alert_level : nat;
  alert_count : nat;
  session_scores : list Q;
  max_score : Q
}.

(** The locals as [main] initialises them before the loop. *)
Definition initial_locals : Locals :=
  mkLocals None None 0%nat 0%nat [] 0.

(** Calls made on the [CloudSync] object. *)
Inductive cloud_call : Type :=
| log_alert (level : string) (timestamp : Q) (reason : option string)
    (details : option alert_details)
| send_emergency (timestamp : Q).

(** The values handed to [draw_overlay]:
    [alert_level], [level1_elapsed], [yawn_frequency]. *)
Record Overlay : Type := mkOverlay {
  o_alert_level : nat;
  o_level1_elapsed : Q;
  o_yawn_frequency : nat
}.

Inductive outcome : Type :=
| UnboundLocalError
| Next (alerter : AlertEngine) (locals : Locals) (calls : list cloud_call)
    (overlay : Overlay).

(** Lines 221-235: log an alert when the level changed. *)
Definition log_level_change (alerter : AlertEngine) (now : Q)
    (alert_level : nat) (loc : Locals) : Locals * list cloud_call :=
  if negb (alert_level =? prev_alert_level loc)%nat then
    let alert_reason := fst (get_last_alert_info alerter) in
    let alert_details := snd (get_last_alert_info alerter) in
    let '(count, calls) :=
      if (alert_level =? 1)%nat && (prev_alert_level loc =? 0)%nat then
        (S (alert_count loc),
         [log_alert "LEVEL1" now alert_reason alert_details])
      else if (alert_level =? 2)%nat then
        (if (prev_alert_level loc <? 2)%nat
         then S (alert_count loc) else alert_count loc,
         [log_alert "LEVEL2" now alert_reason alert_details;
          send_emergency now])
      else (alert_count loc, []) in
    (mkLocals (micro_count loc) (recent_yawn_timestamps loc) alert_level
       count (session_scores loc) (max_score loc),
     calls)
  else (loc, []).

(** Lines 123-235 of the loop body. *)
Definition frame (alerter : AlertEngine) (loc : Locals) (c : Capture)
  : outcome :=
  let now := c_now c in
  (* defaults, then the analyzers when there is a face and an EAR *)
  let ear := if face_landmarks c then c_ear c else None in
  let measured := match ear with Some _ => true | None => false end in
  let state := if measured then a_state (c_analysis c) else "NO_FACE"%string in
  let score := if measured then a_score (c_analysis c) else 0 in
  let perclos := if measured then a_perclos (c_analysis c) else 0 in
  let blink_rate := if measured then a_blink_rate (c_analysis c) else 0 in
  let micro := if measured then Some (a_micro_count (c_analysis c))
               else micro_count loc in
  let recent := if measured
                then Some (a_recent_yawn_timestamps (c_analysis c))
                else recent_yawn_timestamps loc in
  (* lines 201-209: the arguments of alerter.process *)
  let args :=
    if face_landmarks c then
      match recent, micro with
      | Some ys, Some n => Some (ys, Some perclos, Some blink_rate, n, ear)
      | _, _ => None
      end
    else Some ([], None, None, 0%Z, None) in
  match args with
  | None => UnboundLocalError
  | Some (yawn_ts, perclos_arg, blink_arg, micro_arg, ear_arg) =>
      let alerter :=
        process (c_env c) alerter state now (Some yawn_ts) perclos_arg
          blink_arg (Some micro_arg) ear_arg in
      let alert_level := get_alert_level alerter in
      let level1_elapsed := get_level1_elapsed alerter now in
      let freq := if face_landmarks c
                  then get_yawn_frequency alerter now
                  else (alerter, 0%nat) in
      let alerter := fst freq in
      let yawn_frequency := snd freq in
      (* lines 215-218: session metrics *)
      let scores := if measured then session_scores loc ++ [score]
                    else session_scores loc in
      let top := if measured && Qlt_bool (max_score loc) score
                 then score else max_score loc in
      let loc := mkLocals micro recent (prev_alert_level loc)
                   (alert_count loc) scores top in
      let logged := log_level_change alerter now alert_level loc in
      Next alerter (fst logged) (snd logged)
        (mkOverlay alert_level level1_elapsed yawn_frequency)
  end.

(** The end of an iteration that does not raise, from the engine [a'] left
    by [process]: read the level, log its change, hand the overlay values
    on. *)
Definition finish (a' : AlertEngine) (loc : Locals) (now : Q) (freq : nat)
  : outcome :=
  Next a' (fst (log_level_change a' now (get_alert_level a') loc))
    (snd (log_level_change a' now (get_alert_level a') loc))
    (mkOverlay (get_alert_level a') (get_level1_elapsed a' now) freq).

(** The two locals read by line 201 and line 207 are bound. *)
Definition bound (loc : Locals) : Prop :=
  micro_count loc <> None /\ recent_yawn_timestamps loc <> None.

(** A capture of a driver measured as DROWSY with closed eyes. *)
Definition drowsy_capture (now : Q) : Capture :=
  mkCapture true (Some (1 # 10))
    (mkAnalysis "DROWSY" 60 45 12 0%Z []) now no_thread.

(** A capture with a face but without eye landmarks. *)
Definition eyeless_capture (now : Q) : Capture :=
  mkCapture true None (mkAnalysis "ALERT" 0 0 0 0%Z []) now no_thread.

(** A capture without a face. *)
Definition empty_capture (now : Q) : Capture :=
  mkCapture false None (mkAnalysis "ALERT" 0 0 0 0%Z []) now no_thread.

End Main.

(** ** alerter._beep: the tone buffer of the pygame path (lines 53-60) *)

(** Python's [int(x)] on a number: truncation towards zero. *)
Definition py_int (x : Q) : Z := Z.quot (Qnum x) (Zpos (Qden x)).

(** [range(n)] as integers. *)
Definition py_range (n : Z) : list Z := map Z.of_nat (seq 0 (Z.to_nat n)).

(** [period = max(1, int(sample_rate / max(1, frequency_hz)))] *)
Definition beep_period (frequency_hz : Z) : Z :=
  Z.max 1 (py_int (inject_Z 22050 / inject_Z (Z.max 1 frequency_hz))).

(** The samples appended to [buf], an [array("h")] of signed 16-bit
    integers, before it is handed to [pygame.mixer.Sound]. *)
Definition beep_samples (frequency_hz : Z) (duration_s : Q) : list Z :=
  let sample_rate := 22050%Z in
  let n_samples := py_int (duration_s * inject_Z sample_rate) in
  let period := beep_period frequency_hz in
  let amp := 12000%Z in
  map (fun i => if (i mod period <? period / 2)%Z then amp else (- amp)%Z)
    (py_range n_samples).

(** ** Basic facts about the comparisons and the windows *)

Lemma Qge_bool_true (a b : Q) : Qge_bool a b = true <-> b <= a.
Proof. unfold Qge_bool. apply Qle_bool_iff. Qed.

Lemma Qge_bool_false (a b : Q) : Qge_bool a b = false <-> a < b.
Proof.
  unfold Qge_bool. split; intro H.
  - apply Qnot_le_lt. intro L. apply Qle_bool_iff in L. congruence.
  - destruct (Qle_bool b a) eqn:E; [|reflexivity].
    apply Qle_bool_iff in E. exfalso. apply (Qlt_not_le _ _ H E).
Qed.

Lemma Qlt_bool_true (a b : Q) : Qlt_bool a b = true <-> a < b.
Proof.
  unfold Qlt_bool. rewrite negb_true_iff. apply (Qge_bool_false a b).
Qed.

Lemma keep_since_In (c x : Q) (xs : list Q) :
  In x (keep_since c xs) <-> In x xs /\ c <= x.
Proof.
  unfold keep_since. rewrite filter_In, Qge_bool_true. tauto.
Qed.

Lemma keep_since_idem (c : Q) (xs : list Q) :
  keep_since c (keep_since c xs) = keep_since c xs.
Proof.
  unfold keep_since. induction xs as [|x xs IH]; simpl; [reflexivity|].
  destruct (Qge_bool x c) eqn:E; simpl; [rewrite E, IH|]; auto.
Qed.

Lemma count_since_keep (c : Q) (xs : list Q) :
  count_since c (keep_since c xs) = count_since c xs.
Proof. unfold count_since. fold (keep_since c (keep_since c xs)).
  now rewrite keep_since_idem. Qed.

Lemma count_since_app (c : Q) (xs ys : list Q) :
  count_since c (xs ++ ys) = (count_since c xs + count_since c ys)%nat.
Proof. unfold count_since. now rewrite filter_app, length_app. Qed.

(** ** Frame lemmas for the yawn bookkeeping at the head of [process] *)

Lemma ingest_yawns_frame (l : list Q) :
  forall s, exists ys n,
    ingest_yawns s l = set_yawns_since_level1 n (set_yawn_timestamps ys s).
Proof.
  induction l as [|ts l IH]; intros s; simpl.
  - exists (yawn_timestamps s), (yawns_since_level1 s). now destruct s.
  - match goal with |- context [ingest_yawns ?u l] =>
      destruct (IH u) as (ys & n & E); rewrite E end.
    exists ys, n.
    destruct (negb (Qmem ts (yawn_timestamps s))); [|reflexivity].
    simpl. destruct (level1_triggered_at s); [|reflexivity].
    destruct (Qge_bool ts q); reflexivity.
Qed.

Lemma update_yawns_frame (s : AlertEngine) (yawns : option (list Q)) :
  exists ys n,
    update_yawns s yawns = set_yawns_since_level1 n (set_yawn_timestamps ys s).
Proof.
  destruct yawns as [l|]; simpl.
  - apply ingest_yawns_frame.
  - exists (yawn_timestamps s), (yawns_since_level1 s). now destruct s.
Qed.

Lemma after_yawns_frame (s : AlertEngine) (yawns : option (list Q)) (t : Q) :
  exists ys n,
    after_yawns s yawns t = set_yawns_since_level1 n (set_yawn_timestamps ys s).
Proof.
  unfold after_yawns, _check_yawn_trigger. simpl.
  destruct (update_yawns_frame s yawns) as (ys & n & E). rewrite E.
  eexists _, n. reflexivity.
Qed.

(** ** reset *)

Lemma reset_None (s : AlertEngine) : level1_start s = None -> reset s = s.
Proof. unfold reset. now intros ->. Qed.

(** C9. [reset()] is idempotent: two calls in immediate succession leave the
    engine exactly as one call does, from every engine state. *)
Theorem reset_idempotent (s : AlertEngine) : reset (reset s) = reset s.
Proof.
  unfold reset at 2 3. destruct (level1_start s) eqn:E.
  - apply reset_None. reflexivity.
  - apply reset_None. exact E.
Qed.

(** C6, as stated, fails: [reset()] acts only when [level1_start] is set.
    On an idle engine tracking the yawns of t=10 and t=11 it leaves
    [yawn_timestamps] as it is, and on the engine left by a microsleep
    activation it leaves [level1_active] set. *)
Lemma reset_guarded_by_level1_start :
  ~ symptoms_cleared (reset (run (init false) [yawning 12 [10; 11]])) /\
  ~ symptoms_cleared (reset after_microsleep).
Proof.
  split.
  - intros (_ & _ & _ & _ & Y & _). vm_compute in Y. discriminate Y.
  - intros (_ & _ & A & _). vm_compute in A. discriminate A.
Qed.

(** C6 (amended). Neither [reset()] nor [manual_reset()] changes
    [level1_trigger_history]; [manual_reset()] always clears
    [level2_triggered]; and whenever [level1_start] is set, [reset()] (hence
    [manual_reset()]) clears [level1_start], [level1_triggered_at],
    [level1_active], [level2_active], [yawn_timestamps] and
    [yawns_since_level1]. *)
Theorem reset_frame_and_effect (s : AlertEngine) :
  level1_trigger_history (reset s) = level1_trigger_history s /\
  level1_trigger_history (manual_reset s) = level1_trigger_history s /\
  level2_triggered (manual_reset s) = false /\
  level2_triggered (reset s) = level2_triggered s /\
  (level1_start s <> None ->
   symptoms_cleared (reset s) /\ symptoms_cleared (manual_reset s)).
Proof.
  unfold manual_reset, symptoms_cleared, reset.
  destruct (level1_start s) eqn:E; simpl; repeat split; auto;
    try (exfalso; auto; congruence).
Qed.

Lemma reset_frame_and_effect_witness :
  let s := run (init false) [plain "DROWSY" 0; plain "DROWSY" 3] in
  level1_active s = true /\ level1_trigger_history s = [3] /\
  symptoms_cleared (reset s) /\ level1_trigger_history (reset s) = [3].
Proof.
  split; [reflexivity|]. split; [reflexivity|]. split.
  - apply (reset_frame_and_effect
             (run (init false) [plain "DROWSY" 0; plain "DROWSY" 3])).
    vm_compute. discriminate.
  - reflexivity.
Defined.

(** ** The microsleep path *)

Lemma microsleep_trigger_pos (n : Z) :
  (0 < n)%Z -> _check_microsleep_trigger (Some n) = true.
Proof. intros H. simpl. now apply Z.ltb_lt. Qed.

(** What the microsleep branch of [process] leaves behind. *)
Lemma process_microsleep (env : ThreadEnv) (s : AlertEngine) (state : string)
    (t : Q) (yawns : option (list Q)) (perclos blink_rate : option Q) (n : Z)
    (ear : option Q) :
  (0 < n)%Z -> level1_active s = false ->
  let s' := process env s state t yawns perclos blink_rate (Some n) ear in
  level1_active s' = true /\ level1_triggered_at s' = Some t /\
  last_alert_reason s' = Some "microsleep event"%string /\
  level1_start s' = level1_start s /\
  level2_active s' = level2_active s /\
  level1_trigger_history s' = level1_trigger_history s ++ [t].
Proof.
  intros Hn Hact s'. subst s'. unfold process.
  rewrite (microsleep_trigger_pos n Hn).
  fold (after_yawns s yawns t).
  destruct (after_yawns_frame s yawns t) as (ys & k & E). rewrite E.
  simpl. rewrite Hact. simpl.
  unfold trigger_level1. simpl. rewrite Hact. simpl.
  unfold start_level1_alerts. simpl.
  destruct (alert_thread s); [destruct (alive_at_level1 env)|];
    simpl; repeat split; reflexivity.
Qed.

(** C3. A call of [process] with [microsleep_count >= 1] while Level 1 is
    not active activates Level 1 on that very call, stamped with the call's
    timestamp and with reason "microsleep event"; the dwell timer
    [level1_start] plays no part (it is neither consulted nor changed), and
    the [state] argument is arbitrary. *)
Theorem microsleep_fires_level1_at_once (env : ThreadEnv) (s : AlertEngine)
    (state : string) (t : Q) (yawns : option (list Q))
    (perclos blink_rate : option Q) (n : Z) (ear : option Q) :
  (1 <= n)%Z -> level1_active s = false ->
  let s' := process env s state t yawns perclos blink_rate (Some n) ear in
  level1_active s' = true /\
  level1_triggered_at s' = Some t /\
  last_alert_reason s' = Some "microsleep event"%string /\
  level1_start s' = level1_start s /\
  (1 <= get_alert_level s')%nat.
Proof.
  intros Hn Hact s'.
  destruct (process_microsleep env s state t yawns perclos blink_rate n ear)
    as (A & B & C & D & _); [lia | exact Hact |].
  fold s' in A, B, C, D. repeat split; auto.
  unfold get_alert_level. rewrite A. destruct (level2_active s'); lia.
Qed.

Lemma microsleep_fires_level1_at_once_witness :
  let s' := process no_thread (init false) "ALERT" 7 None None None
              (Some 1%Z) None in
  level1_active s' = true /\
  level1_triggered_at s' = Some 7 /\
  last_alert_reason s' = Some "microsleep event"%string /\
  level1_start s' = level1_start (init false) /\
  (1 <= get_alert_level s')%nat.
Proof.
  apply (microsleep_fires_level1_at_once no_thread (init false) "ALERT" 7
           None None None 1 None).
  - lia.
  - reflexivity.
Defined.

(** ** Frame lemmas for the Level 2 trigger and the recurrence check *)

Ltac crush_trigger2 :=
  intros; unfold trigger_level2, start_level2_alerts; simpl;
  repeat match goal with
         | |- context [if ?b then _ else _] => destruct b; simpl
         | |- context [match alert_thread ?s with _ => _ end] =>
             destruct (alert_thread s); simpl
         end; auto.

Lemma trigger_level2_level1_active alive s t r :
  level1_active (trigger_level2 alive s t r) = level1_active s.
Proof. crush_trigger2. Qed.

Lemma trigger_level2_yawns alive s t r :
  yawn_timestamps (trigger_level2 alive s t r) = yawn_timestamps s.
Proof. crush_trigger2. Qed.

Lemma trigger_level2_fires alive s t r :
  level2_active (trigger_level2 alive s t r) = true.
Proof.
  unfold trigger_level2. destruct (level2_active s) eqn:E; [exact E|].
  unfold start_level2_alerts; simpl.
  destruct (String.eqb r "frequent Level 1 alerts"); simpl;
    destruct (alert_thread s); simpl; try destruct alive; reflexivity.
Qed.

Lemma trigger_level2_reason alive s t r :
  level2_active s = false ->
  last_alert_reason (trigger_level2 alive s t r) = Some r.
Proof.
  intros E. unfold trigger_level2. rewrite E.
  unfold start_level2_alerts; simpl.
  destruct (String.eqb r "frequent Level 1 alerts"); simpl;
    destruct (alert_thread s); simpl; try destruct alive; reflexivity.
Qed.

Lemma trigger_level2_sets_triggered alive s t r :
  level2_active s = false ->
  level2_triggered (trigger_level2 alive s t r) = true.
Proof.
  intros E. unfold trigger_level2. rewrite E.
  unfold start_level2_alerts; simpl.
  destruct (String.eqb r "frequent Level 1 alerts"); simpl;
    destruct (alert_thread s); simpl; try destruct alive; reflexivity.
Qed.

Lemma recurrence_step_level1_active alive s t :
  level1_active (recurrence_step alive s t) = level1_active s.
Proof.
  unfold recurrence_step.
  destruct (_ && _); [rewrite trigger_level2_level1_active|]; reflexivity.
Qed.

Lemma recurrence_step_yawns alive s t :
  yawn_timestamps (recurrence_step alive s t) = yawn_timestamps s.
Proof.
  unfold recurrence_step.
  destruct (_ && _); [rewrite trigger_level2_yawns|]; reflexivity.
Qed.

Lemma escalation_step_level1_active alive s t h y b p pc e :
  level1_active (escalation_step alive s t h y b p pc e) = level1_active s.
Proof.
  unfold escalation_step.
  destruct (level1_triggered_at s); [|reflexivity].
  destruct (level1_active s) eqn:A; [|auto].
  destruct (_ && _); [|auto].
  destruct (should_escalate _ _ _ _ _ _ _); [|auto].
  rewrite trigger_level2_level1_active; auto.
Qed.

Lemma escalation_step_yawns alive s t h y b p pc e :
  yawn_timestamps (escalation_step alive s t h y b p pc e) = yawn_timestamps s.
Proof.
  unfold escalation_step.
  destruct (level1_triggered_at s); [|reflexivity].
  destruct (level1_active s) eqn:A; [|auto].
  destruct (_ && _); [|auto].
  destruct (should_escalate _ _ _ _ _ _ _); [|auto].
  rewrite trigger_level2_yawns; auto.
Qed.

(** [process] by cases.  When some trigger is active the guard of the
    5-second reset (lines 184-197) asks for no trigger to be active, so that
    block never runs; when none is, the [else] branch runs. *)
Lemma process_cases (env : ThreadEnv) (s : AlertEngine) (state : string)
    (t : Q) (yawns : option (list Q)) (perclos blink_rate : option Q)
    (microsleep_count : option Z) (ear : option Q) :
  process env s state t yawns perclos blink_rate microsleep_count ear =
  let s1 := after_yawns s yawns t in
  let yt := yawn_trigger_of s yawns t in
  let has := existsb (String.eqb state) DROWSY_STATES in
  let bt := _check_blink_rate_trigger blink_rate in
  let pt := _check_perclos_trigger perclos in
  if _check_microsleep_trigger microsleep_count && negb (level1_active s1)
  then trigger_level1 (alive_at_level1 env) s1 t "microsleep event"
         None None microsleep_count
  else if has || yt || bt || pt then
    escalation_step (alive_at_level2 env)
      (recurrence_step (alive_at_level2 env)
         (dwell_step (alive_at_level1 env) s1 t has yt bt pt perclos blink_rate)
         t)
      t has yt bt pt perclos ear
  else quiet_step s1 state.
Proof.
  unfold process. fold (after_yawns s yawns t). fold (yawn_trigger_of s yawns t).
  cbv zeta.
  destruct (_check_microsleep_trigger microsleep_count
            && negb (level1_active (after_yawns s yawns t))); [reflexivity|].
  fold (dwell_step (alive_at_level1 env) (after_yawns s yawns t) t
          (existsb (String.eqb state) DROWSY_STATES)
          (yawn_trigger_of s yawns t)
          (_check_blink_rate_trigger blink_rate)
          (_check_perclos_trigger perclos) perclos blink_rate).
  generalize (dwell_step (alive_at_level1 env) (after_yawns s yawns t) t
          (existsb (String.eqb state) DROWSY_STATES)
          (yawn_trigger_of s yawns t)
          (_check_blink_rate_trigger blink_rate)
          (_check_perclos_trigger perclos) perclos blink_rate) as s2.
  intros s2.
  destruct (existsb (String.eqb state) DROWSY_STATES) eqn:Hh;
  destruct (yawn_trigger_of s yawns t);
  destruct (_check_blink_rate_trigger blink_rate);
  destruct (_check_perclos_trigger perclos); cbn [orb andb negb];
  try (unfold escalation_step, recurrence_step;
       destruct (level1_triggered_at s2);
       [rewrite ?andb_false_r; cbn [orb andb negb]; reflexivity | reflexivity]).
  unfold quiet_step.
  destruct (String.eqb state "ALERT" || String.eqb state "NO_FACE")%bool;
    [reflexivity|].
  destruct (level1_triggered_at (after_yawns s yawns t)); [|reflexivity].
  now rewrite andb_true_r.
Qed.

Lemma after_yawns_level1_active s yawns t :
  level1_active (after_yawns s yawns t) = level1_active s.
Proof. destruct (after_yawns_frame s yawns t) as (ys & n & ->). reflexivity. Qed.

Lemma after_yawns_level1_start s yawns t :
  level1_start (after_yawns s yawns t) = level1_start s.
Proof. destruct (after_yawns_frame s yawns t) as (ys & n & ->). reflexivity. Qed.

Lemma after_yawns_triggered_at s yawns t :
  level1_triggered_at (after_yawns s yawns t) = level1_triggered_at s.
Proof. destruct (after_yawns_frame s yawns t) as (ys & n & ->). reflexivity. Qed.

Lemma after_yawns_level2_active s yawns t :
  level2_active (after_yawns s yawns t) = level2_active s.
Proof. destruct (after_yawns_frame s yawns t) as (ys & n & ->). reflexivity. Qed.

Lemma after_yawns_history s yawns t :
  level1_trigger_history (after_yawns s yawns t) = level1_trigger_history s.
Proof. destruct (after_yawns_frame s yawns t) as (ys & n & ->). reflexivity. Qed.

(** ** Level 1 raised by the microsleep path is out of reach of [reset] *)

Lemma dwell_step_active_kept alive s t h y b p pc br :
  level1_active s = true ->
  level1_active (dwell_step alive s t h y b p pc br) = true.
Proof.
  intros A. unfold dwell_step.
  assert (E : level1_active
                match level1_start s with
                | Some _ => s
                | None => set_level1_start (Some t) s
                end = true) by (destruct (level1_start s); exact A).
  rewrite E, andb_false_r. exact E.
Qed.

Lemma quiet_step_start_None s state :
  level1_start s = None -> quiet_step s state = s.
Proof.
  intros H. unfold quiet_step. rewrite (reset_None s H).
  destruct (_ || _)%bool; [reflexivity|].
  destruct (level1_triggered_at s); [|reflexivity].
  destruct (level1_active s); reflexivity.
Qed.

Lemma stuck_keeps_level1 (s : AlertEngine) (f : Frame) :
  stuck s -> level1_active (step s f) = true.
Proof.
  intros [A N]. unfold step. rewrite process_cases. cbv zeta.
  rewrite after_yawns_level1_active, A, andb_false_r.
  destruct (_ || _)%bool.
  - rewrite escalation_step_level1_active, recurrence_step_level1_active.
    apply dwell_step_active_kept. now rewrite after_yawns_level1_active.
  - rewrite quiet_step_start_None.
    + now rewrite after_yawns_level1_active.
    + now rewrite after_yawns_level1_start.
Qed.

(** C10. With [level1_start = None], [reset()] changes no attribute.
    A Level 1 raised by the microsleep path leaves [level1_start] as it
    was, so on an engine whose dwell timer was unset Level 1 is then active
    with [level1_start = None]; in that situation [reset()] is the identity,
    [manual_reset()] only clears [level2_triggered], and Level 1 stays
    active across any further calls of [process] for as long as
    [level1_start] stays [None] (that is, until a non-microsleep trigger
    sets it). *)
Theorem microsleep_level1_survives_reset :
  (forall s, level1_start s = None -> reset s = s) /\
  (forall env s state t yawns perclos blink_rate n ear,
     (0 < n)%Z -> level1_active s = false -> level1_start s = None ->
     stuck (process env s state t yawns perclos blink_rate (Some n) ear)) /\
  (forall s, stuck s ->
     reset s = s /\
     manual_reset s = set_level2_triggered false s /\
     level1_active (manual_reset s) = true) /\
  (forall s fs, stuck s ->
     Forall (fun x => level1_start x = None) (trace s fs) ->
     Forall stuck (trace s fs)).
Proof.
  split; [exact reset_None|]. split; [|split].
  - intros env s state t yawns perclos blink_rate n ear Hn Ha Hs.
    destruct (process_microsleep env s state t yawns perclos blink_rate n ear
                Hn Ha) as (A & _ & _ & D & _).
    split; [exact A | now rewrite D].
  - intros s [A N]. unfold manual_reset. rewrite (reset_None s N).
    repeat split. exact A.
  - intros s fs. revert s. induction fs as [|f fs IH]; intros s St H; simpl.
    + constructor.
    + simpl in H. inversion H as [|x l Hx Hl]; subst.
      assert (St' : stuck (step s f))
        by (split; [now apply stuck_keeps_level1 | exact Hx]).
      constructor; [exact St' | now apply IH].
Qed.

Lemma microsleep_level1_survives_reset_witness :
  stuck after_microsleep /\
  reset after_microsleep = after_microsleep /\
  level1_active (manual_reset after_microsleep) = true /\
  Forall stuck
    (trace after_microsleep [plain "ALERT" 1; plain "NO_FACE" 2; plain "ALERT" 9]).
Proof.
  destruct microsleep_level1_survives_reset as (R & M & K & T).
  assert (St : stuck after_microsleep).
  { apply (M no_thread (init false) "ALERT"%string 0 None None None 1%Z None).
    - lia.
    - reflexivity.
    - reflexivity. }
  split; [exact St|]. split; [apply R; reflexivity|].
  split; [apply (K after_microsleep St)|].
  apply (T after_microsleep _ St).
  repeat constructor.
Defined.

(** ** Sliding windows *)

Section Window.

Variable cutoff : Q.

Lemma keep_since_Forall (xs : list Q) :
  Forall (fun ts => cutoff <= ts) (keep_since cutoff xs).
Proof.
  apply Forall_forall. intros x H. now apply keep_since_In in H.
Qed.



Lemma count_since_length_keep (xs : list Q) :
  count_since cutoff xs = List.length (keep_since cutoff xs).
Proof. reflexivity. Qed.

End Window.

(** The two window queries with their count exposed. *)
Lemma check_yawn_trigger_eq (s : AlertEngine) (now : Q) :
  _check_yawn_trigger s now =
  (set_yawn_timestamps
     (keep_since (now - YAWN_ALERT_WINDOW_SECONDS) (yawn_timestamps s)) s,
   (YAWN_ALERT_THRESHOLD
    <? List.length
         (keep_since (now - YAWN_ALERT_WINDOW_SECONDS) (yawn_timestamps s)))%nat).
Proof.
  unfold _check_yawn_trigger. cbn [yawn_timestamps set_yawn_timestamps].
  rewrite count_since_keep. reflexivity.
Qed.

Lemma check_frequent_eq (s : AlertEngine) (now : Q) :
  _check_frequent_level1_trigger s now =
  (set_level1_trigger_history
     (keep_since (now - LEVEL1_FREQUENCY_WINDOW_SECONDS)
        (level1_trigger_history s)) s,
   (LEVEL1_FREQUENCY_THRESHOLD
    <=? List.length
          (keep_since (now - LEVEL1_FREQUENCY_WINDOW_SECONDS)
             (level1_trigger_history s)))%nat).
Proof.
  unfold _check_frequent_level1_trigger.
  cbn [level1_trigger_history set_level1_trigger_history].
  rewrite count_since_keep. reflexivity.
Qed.



(** ** Yawn ingestion keeps [yawn_timestamps] free of duplicates *)

Lemma Qmem_InA (x : Q) (l : list Q) : Qmem x l = true <-> InA Qeq x l.
Proof.
  unfold Qmem. rewrite existsb_exists, InA_alt.
  split; intros (y & A & B); exists y.
  - split; [now apply Qeq_bool_iff | exact A].
  - split; [exact B | now apply Qeq_bool_iff].
Qed.

Lemma distinct_snoc (l : list Q) (x : Q) :
  distinct l -> Qmem x l = false -> distinct (l ++ [x]).
Proof.
  intros D M. unfold distinct. apply NoDupA_app; auto with typeclass_instances.
  - repeat constructor. intros H. inversion H.
  - intros y Hy Hx. inversion Hx as [? ? E | ? ? E]; subst; [|inversion E].
    assert (InA Qeq x l) by (rewrite <- E; exact Hy).
    apply Qmem_InA in H. congruence.
Qed.

Lemma distinct_keep_since (c : Q) (l : list Q) :
  distinct l -> distinct (keep_since c l).
Proof.
  unfold distinct, keep_since. induction 1 as [|x l N D IH]; simpl.
  - constructor.
  - destruct (Qge_bool x c); [|exact IH].
    constructor; [|exact IH]. intros H. apply N.
    apply InA_alt in H. destruct H as (y & E & I).
    apply filter_In in I. apply InA_alt. exists y. tauto.
Qed.

Lemma ingest_yawns_distinct (l : list Q) :
  forall s, distinct (yawn_timestamps s) ->
            distinct (yawn_timestamps (ingest_yawns s l)).
Proof.
  induction l as [|ts l IH]; intros s D; simpl; [exact D|].
  apply IH. destruct (Qmem ts (yawn_timestamps s)) eqn:M; simpl; [exact D|].
  assert (D' : distinct (yawn_timestamps s ++ [ts]))
    by now apply distinct_snoc.
  destruct (level1_triggered_at s); [destruct (Qge_bool ts q)|]; exact D'.
Qed.

Lemma ingest_yawns_present (l : list Q) (s : AlertEngine) :
  (forall ts, In ts l -> Qmem ts (yawn_timestamps s) = true) ->
  ingest_yawns s l = s.
Proof.
  induction l as [|ts l IH]; intros H; simpl; [reflexivity|].
  rewrite (H ts (or_introl eq_refl)). simpl.
  apply IH. intros x Hx. apply H. now right.
Qed.

Lemma after_yawns_distinct s yawns t :
  distinct (yawn_timestamps s) ->
  distinct (yawn_timestamps (after_yawns s yawns t)).
Proof.
  intros D. unfold after_yawns. rewrite check_yawn_trigger_eq.
  cbn [fst yawn_timestamps set_yawn_timestamps].
  apply distinct_keep_since.
  destruct yawns as [l|]; simpl; [now apply ingest_yawns_distinct | exact D].
Qed.

Lemma trigger_level1_yawns alive s t r p b m :
  yawn_timestamps (trigger_level1 alive s t r p b m) = yawn_timestamps s \/
  yawn_timestamps (trigger_level1 alive s t r p b m)
  = keep_since (t - YAWN_ALERT_WINDOW_SECONDS) (yawn_timestamps s).
Proof.
  unfold trigger_level1, start_level1_alerts, get_yawn_frequency.
  destruct (level1_active s); [now left|].
  destruct (String.eqb r "yawn frequency");
    [right | left;
       destruct (String.eqb r "excessive blink rate");
       [destruct b
       | destruct (String.eqb r "high PERCLOS");
         [destruct p | destruct (String.eqb r "microsleep event")]]];
    cbn; destruct (alert_thread s); try destruct alive; reflexivity.
Qed.

Lemma trigger_level1_distinct alive s t r p b m :
  distinct (yawn_timestamps s) ->
  distinct (yawn_timestamps (trigger_level1 alive s t r p b m)).
Proof.
  intros D.
  destruct (trigger_level1_yawns alive s t r p b m) as [-> | ->];
    [exact D | now apply distinct_keep_since].
Qed.

Lemma reset_distinct s :
  distinct (yawn_timestamps s) -> distinct (yawn_timestamps (reset s)).
Proof.
  intros D. unfold reset. destruct (level1_start s); [constructor | exact D].
Qed.

Lemma process_distinct env s state t yawns perclos blink_rate m ear :
  distinct (yawn_timestamps s) ->
  distinct (yawn_timestamps
              (process env s state t yawns perclos blink_rate m ear)).
Proof.
  intros D. apply (after_yawns_distinct s yawns t) in D.
  rewrite process_cases. cbv zeta.
  destruct (_ && _); [now apply trigger_level1_distinct|].
  destruct (_ || _)%bool.
  - rewrite escalation_step_yawns, recurrence_step_yawns.
    unfold dwell_step.
    destruct (_ && _); [apply trigger_level1_distinct|];
      destruct (level1_start (after_yawns s yawns t)); exact D.
  - unfold quiet_step. destruct (_ || _)%bool; [now apply reset_distinct|].
    destruct (level1_triggered_at _); [|exact D].
    destruct (level1_active _); [now apply reset_distinct | exact D].
Qed.

(** C8. Starting from a fresh engine, after any sequence of [process] calls
    [yawn_timestamps] holds no timestamp twice.  Ingesting an argument whose
    entries are all tracked already changes nothing at all, in any engine
    state: the list, the counter [yawns_since_level1] and every other
    attribute are as before, so the call behaves as one without the
    argument. *)
Theorem yawn_timestamps_never_duplicated :
  (forall audio fs, distinct (yawn_timestamps (run (init audio) fs))) /\
  (forall s l,
     (forall ts, In ts l -> Qmem ts (yawn_timestamps s) = true) ->
     update_yawns s (Some l) = s /\
     yawn_timestamps (update_yawns s (Some l)) = yawn_timestamps s /\
     yawns_since_level1 (update_yawns s (Some l)) = yawns_since_level1 s /\
     forall env state t perclos blink_rate m ear,
       process env s state t (Some l) perclos blink_rate m ear
       = process env s state t None perclos blink_rate m ear).
Proof.
  split.
  - intros audio fs. unfold run.
    assert (G : forall s, distinct (yawn_timestamps s) ->
                          distinct (yawn_timestamps (fold_left step fs s))).
    { induction fs as [|f fs IH]; intros s D; simpl; [exact D|].
      apply IH. unfold step. now apply process_distinct. }
    apply G. constructor.
  - intros s l H.
    assert (E : update_yawns s (Some l) = s)
      by (simpl; now apply ingest_yawns_present).
    rewrite E. repeat split.
    intros. unfold process. rewrite E. reflexivity.
Qed.

Lemma yawn_timestamps_never_duplicated_witness :
  let s := run (init false)
             [mkFrame no_thread "ALERT" 12 (Some [10; 11]) None None
                (Some 0%Z) None] in
  yawn_timestamps s = [10; 11] /\
  update_yawns s (Some [11; 10; 11]) = s.
Proof.
  split; [reflexivity|].
  destruct yawn_timestamps_never_duplicated as (_ & P).
  apply (P _ [11; 10; 11]).
  intros ts [<- | [<- | [<- | []]]]; reflexivity.
Defined.

(** ** Frame lemmas for the Level 1 trigger and the dwell block *)

Ltac crush_trigger1 :=
  intros; unfold trigger_level1, start_level1_alerts, get_yawn_frequency;
  repeat match goal with
         | H : level1_active ?s = _ |- _ => rewrite H
         end;
  repeat match goal with
         | |- context [if String.eqb ?r ?c then _ else _] =>
             destruct (String.eqb r c)
         | |- context [match ?x with Some _ => _ | None => _ end] =>
             is_var x; destruct x
         end;
  cbn;
  repeat match goal with
         | |- context [match alert_thread ?s with _ => _ end] =>
             destruct (alert_thread s); cbn
         | |- context [if ?b then _ else _] => destruct b; cbn
         end; auto.

(** [round(x, 1)] on ties and off ties: 30.25 -> 30.2, 30.35 -> 30.4,
    17.26 -> 17.3, -0.25 -> -0.2. *)
Lemma py_round1_examples :
  py_round1 (3025 # 100) = 302 # 10 /\ py_round1 (3035 # 100) = 304 # 10 /\
  py_round1 (1726 # 100) = 173 # 10 /\ py_round1 (-25 # 100) = -2 # 10.
Proof. repeat split; reflexivity. Qed.

(** The calls that raise, read off the arguments. *)
Lemma trigger_level1_raises_spec s r p b :
  trigger_level1_raises s r p b = true <->
  level1_active s = false /\
  ((r = "excessive blink rate"%string /\ b = None) \/
   (r = "high PERCLOS"%string /\ p = None)).
Proof.
  unfold trigger_level1_raises.
  rewrite andb_true_iff, orb_true_iff, !andb_true_iff, negb_true_iff,
    !String.eqb_eq.
  destruct b, p; cbn; intuition congruence.
Qed.

(** The call of [process] on the microsleep branch returns. *)
Lemma microsleep_call_returns (s : AlertEngine) :
  trigger_level1_raises s "microsleep event" None None = false.
Proof. unfold trigger_level1_raises. cbn. now rewrite andb_false_r. Qed.

(** The call of [process] at the end of the dwell returns: the reason is
    "excessive blink rate" (or "high PERCLOS") only when that trigger is
    the one active, and then the metric is there. *)
Lemma dwell_call_returns (s : AlertEngine) (y h : bool)
    (perclos blink_rate : option Q) :
  trigger_level1_raises s
    (trigger_reason y (_check_blink_rate_trigger blink_rate)
       (_check_perclos_trigger perclos) h) perclos blink_rate = false.
Proof.
  unfold trigger_level1_raises.
  destruct (level1_active s); [reflexivity|]. cbn [negb andb].
  destruct blink_rate as [b|], perclos as [p|]; cbn [is_None];
    change (_check_blink_rate_trigger None) with false;
    change (_check_perclos_trigger None) with false;
    rewrite ?andb_false_r, ?andb_true_r; cbn [orb]; try reflexivity;
    rewrite ?orb_false_r;
    try destruct (_check_blink_rate_trigger (Some b));
    try destruct (_check_perclos_trigger (Some p));
    destruct y, h; reflexivity.
Qed.

Lemma trigger_level1_level2_active alive s t r p b m :
  level2_active (trigger_level1 alive s t r p b m) = level2_active s.
Proof. destruct (level1_active s) eqn:A; crush_trigger1. Qed.

Lemma trigger_level1_fires alive s t r p b m :
  level1_active s = false ->
  let s' := trigger_level1 alive s t r p b m in
  level1_active s' = true /\ level1_triggered_at s' = Some t /\
  yawns_since_level1 s' = 0%nat /\
  level1_trigger_history s' = level1_trigger_history s ++ [t] /\
  last_alert_reason s' = Some r.
Proof. intros A s'. subst s'. repeat split; crush_trigger1. Qed.

Lemma trigger_level1_idle alive s t r p b m :
  level1_active s = true -> trigger_level1 alive s t r p b m = s.
Proof. intros A. unfold trigger_level1. now rewrite A. Qed.

Lemma start_dwell_frame (s : AlertEngine) (t : Q) :
  exists v, start_dwell s t = set_level1_start v s.
Proof.
  unfold start_dwell. destruct (level1_start s) as [t0|] eqn:E.
  - exists (Some t0). destruct s; simpl in *; now subst.
  - now exists (Some t).
Qed.

Lemma dwell_step_active alive s t h y b p pc br :
  level1_active s = true ->
  dwell_step alive s t h y b p pc br = start_dwell s t.
Proof.
  intros A. unfold dwell_step. fold (start_dwell s t).
  assert (E : level1_active (start_dwell s t) = true)
    by (unfold start_dwell; destruct (level1_start s); exact A).
  now rewrite E, andb_false_r.
Qed.

Lemma dwell_step_running alive s t t0 h y b p pc br :
  level1_start s = Some t0 ->
  dwell_step alive s t h y b p pc br =
  if Qge_bool (t - t0) LEVEL1_DURATION_SECONDS && negb (level1_active s)
  then trigger_level1 alive s t (trigger_reason y b p h) pc br (Some 0%Z)
  else s.
Proof. intros H. unfold dwell_step. now rewrite !H. Qed.

Lemma dwell_step_level2_active alive s t h y b p pc br :
  level2_active (dwell_step alive s t h y b p pc br) = level2_active s.
Proof.
  unfold dwell_step. fold (start_dwell s t).
  destruct (_ && _); [rewrite trigger_level1_level2_active|];
    unfold start_dwell; destruct (level1_start s); reflexivity.
Qed.

Lemma dwell_step_history alive s t h y b p pc br :
  level1_trigger_history (dwell_step alive s t h y b p pc br)
  = level1_trigger_history s \/
  level1_trigger_history (dwell_step alive s t h y b p pc br)
  = level1_trigger_history s ++ [t].
Proof.
  unfold dwell_step. fold (start_dwell s t).
  assert (H : level1_trigger_history (start_dwell s t)
              = level1_trigger_history s)
    by (unfold start_dwell; destruct (level1_start s); reflexivity).
  destruct (_ && _); [|now left].
  destruct (level1_active (start_dwell s t)) eqn:A.
  - rewrite trigger_level1_idle by exact A. now left.
  - right. rewrite <- H. now apply trigger_level1_fires.
Qed.

Lemma escalation_step_level2_on alive s t h y b p pc e :
  level2_active s = true -> escalation_step alive s t h y b p pc e = s.
Proof.
  intros A. unfold escalation_step. rewrite A. cbn [negb].
  destruct (level1_triggered_at s); [|reflexivity].
  rewrite andb_false_r.
  destruct (level1_active s); reflexivity.
Qed.

Lemma recurrence_step_fires alive s t :
  (LEVEL1_FREQUENCY_THRESHOLD
   <= count_since (t - LEVEL1_FREQUENCY_WINDOW_SECONDS)
        (level1_trigger_history s))%nat ->
  level2_active s = false ->
  let s' := recurrence_step alive s t in
  level2_active s' = true /\
  level2_triggered s' = true /\
  last_alert_reason s' = Some "frequent Level 1 alerts"%string.
Proof.
  intros C A s'. subst s'. unfold recurrence_step.
  rewrite check_frequent_eq. cbn [fst snd level2_active set_level1_trigger_history].
  rewrite A. rewrite <- count_since_length_keep.
  apply Nat.leb_le in C. rewrite C. cbn [andb negb]. split; [|split].
  - apply trigger_level2_fires.
  - apply trigger_level2_sets_triggered. exact A.
  - apply trigger_level2_reason. exact A.
Qed.

Lemma recurrence_step_quiet alive s t :
  (count_since (t - LEVEL1_FREQUENCY_WINDOW_SECONDS)
     (level1_trigger_history s) < LEVEL1_FREQUENCY_THRESHOLD)%nat ->
  recurrence_step alive s t
  = set_level1_trigger_history
      (keep_since (t - LEVEL1_FREQUENCY_WINDOW_SECONDS)
         (level1_trigger_history s)) s.
Proof.
  intros C. unfold recurrence_step. rewrite check_frequent_eq.
  cbn [fst snd]. rewrite <- count_since_length_keep.
  apply Nat.leb_gt in C. rewrite C. reflexivity.
Qed.

Lemma quiet_step_level2_off s state :
  level2_active s = false -> level2_active (quiet_step s state) = false.
Proof.
  intros A. unfold quiet_step, reset.
  destruct (_ || _)%bool; [destruct (level1_start s); auto|].
  destruct (level1_triggered_at s); [|exact A].
  destruct (level1_active s); [|exact A].
  destruct (level1_start s); auto.
Qed.

(** ** Recurrence escalation *)

(** C2, as stated, fails: after [three_activations] the history holds three
    entries within the 300 s window ending at t=205 and Level 2 is not
    active, yet [process("ALERT", 205)], a frame with no trigger active,
    leaves the engine at level 0. *)
Lemma recurrence_not_checked_without_trigger :
  let s := run (init false) three_activations in
  level1_trigger_history s = [3; 103; 203] /\
  (LEVEL1_FREQUENCY_THRESHOLD
   <= count_since (205 - LEVEL1_FREQUENCY_WINDOW_SECONDS)
        (level1_trigger_history s))%nat /\
  level2_active s = false /\
  level2_active (step s (plain "ALERT" 205)) = false /\
  get_alert_level (step s (plain "ALERT" 205)) = 0%nat.
Proof. vm_compute. repeat split; lia. Qed.

Lemma quiet_step_history s state :
  level1_trigger_history (quiet_step s state) = level1_trigger_history s.
Proof.
  unfold quiet_step, reset.
  destruct (_ || _)%bool; [destruct (level1_start s); reflexivity|].
  destruct (level1_triggered_at s); [|reflexivity].
  destruct (level1_active s); [|reflexivity].
  destruct (level1_start s); reflexivity.
Qed.

Lemma Qge_bool_dwell_zero (t : Q) :
  Qge_bool (t - t) LEVEL1_DURATION_SECONDS = false.
Proof. apply Qge_bool_false. unfold LEVEL1_DURATION_SECONDS. lra. Qed.

Lemma dwell_step_history_at_check alive s t h y b p pc br :
  level1_trigger_history (dwell_step alive s t h y b p pc br)
  = history_at_check s t.
Proof.
  unfold dwell_step, history_at_check, activates_on_call.
  destruct (level1_start s) as [t0|] eqn:E.
  - rewrite E.
    destruct (Qge_bool (t - t0) LEVEL1_DURATION_SECONDS);
      destruct (level1_active s) eqn:A; cbn [andb negb];
      rewrite ?app_nil_r; try reflexivity.
    now apply trigger_level1_fires.
  - cbn [level1_start set_level1_start level1_active].
    rewrite Qge_bool_dwell_zero. cbn [andb].
    now rewrite andb_false_r, app_nil_r.
Qed.

Lemma history_at_check_after_yawns s yawns t :
  history_at_check (after_yawns s yawns t) t = history_at_check s t.
Proof.
  unfold history_at_check, activates_on_call.
  now rewrite after_yawns_history, after_yawns_level1_active,
    after_yawns_level1_start.
Qed.

(** C2 (amended). Take a call of [process] at time [t] with Level 2 not
    active, and count the entries of [level1_trigger_history] within the
    trailing LEVEL1_FREQUENCY_WINDOW_SECONDS as the recurrence check finds
    the list, that is with the activation the call itself records when it
    raises Level 1 at the end of the dwell ([history_at_check]).
    - If the call does not take the microsleep branch and at least one of
      the state, yawn, blink-rate or PERCLOS triggers is active: with at
      least LEVEL1_FREQUENCY_THRESHOLD entries the engine is at Level 2
      after the call, with reason "frequent Level 1 alerts" -- whether or
      not Level 1 was active before the call, so also when the call brings
      the third activation and the escalation together; with fewer
      entries, a Level 2 raised on the call is the standard escalation,
      with reason "persistent symptoms".
    - If no trigger is active the recurrence check is not run: Level 2
      stays off and the history is as before.
    - On the microsleep branch the check is not run either: the call
      records its activation and Level 2 stays off. *)
Theorem recurrence_escalates_on_trigger_frames (env : ThreadEnv)
    (s : AlertEngine) (state : string) (t : Q) (yawns : option (list Q))
    (perclos blink_rate : option Q) (m : option Z) (ear : option Q) :
  level2_active s = false ->
  let s' := process env s state t yawns perclos blink_rate m ear in
  let in_window :=
    count_since (t - LEVEL1_FREQUENCY_WINDOW_SECONDS) (history_at_check s t) in
  (microsleep_branch s m = false ->
   should_trigger_level1 s state t yawns perclos blink_rate = true ->
   ((LEVEL1_FREQUENCY_THRESHOLD <= in_window)%nat ->
    level2_active s' = true /\
    level2_triggered s' = true /\
    last_alert_reason s' = Some "frequent Level 1 alerts"%string /\
    get_alert_level s' = 2%nat) /\
   ((in_window < LEVEL1_FREQUENCY_THRESHOLD)%nat ->
    level2_active s' = true ->
    last_alert_reason s' = Some "persistent symptoms"%string)) /\
  (microsleep_branch s m = false ->
   should_trigger_level1 s state t yawns perclos blink_rate = false ->
   level2_active s' = false /\
   level1_trigger_history s' = level1_trigger_history s) /\
  (microsleep_branch s m = true ->
   level2_active s' = false /\
   level1_trigger_history s' = level1_trigger_history s ++ [t]).
Proof.
  intros A s' in_window. subst s' in_window.
  unfold microsleep_branch, should_trigger_level1.
  rewrite process_cases. cbv zeta. rewrite after_yawns_level1_active.
  split; [|split].
  - intros M T. rewrite M, T. clear M T.
    match goal with |- context [dwell_step ?a ?x t ?h ?y ?b ?p ?pc ?br] =>
      set (s2 := dwell_step a x t h y b p pc br)
    end.
    assert (H2 : level1_trigger_history s2 = history_at_check s t)
      by (unfold s2; rewrite dwell_step_history_at_check;
          apply history_at_check_after_yawns).
    assert (A2 : level2_active s2 = false)
      by (unfold s2;
          now rewrite dwell_step_level2_active, after_yawns_level2_active).
    split.
    + intros C.
      destruct (recurrence_step_fires (alive_at_level2 env) s2 t)
        as (F & G & R); [now rewrite H2 | exact A2 |].
      rewrite escalation_step_level2_on by exact F.
      repeat split; auto. unfold get_alert_level. now rewrite F.
    + intros C. rewrite recurrence_step_quiet by now rewrite H2.
      match goal with |- context [set_level1_trigger_history ?l s2] =>
        set (s3 := set_level1_trigger_history l s2)
      end.
      assert (A3 : level2_active s3 = false) by exact A2.
      assert (N : level2_active s3 = true ->
                  last_alert_reason s3 = Some "persistent symptoms"%string)
        by (intros L; rewrite A3 in L; discriminate L).
      unfold escalation_step.
      destruct (level1_triggered_at s3); [|exact N].
      destruct (level1_active s3); [|exact N].
      destruct (Qge_bool _ _ && _); [|exact N].
      destruct (should_escalate _ _ _ _ _ _ _); [|exact N].
      intros _. now apply trigger_level2_reason.
  - intros M T. rewrite M, T. split.
    + apply quiet_step_level2_off. now rewrite after_yawns_level2_active.
    + now rewrite quiet_step_history, after_yawns_history.
  - intros M. rewrite M.
    rewrite trigger_level1_level2_active, after_yawns_level2_active.
    split; [exact A|].
    rewrite <- (after_yawns_history s yawns t).
    apply trigger_level1_fires. rewrite after_yawns_level1_active.
    apply andb_true_iff in M. destruct M as (_ & M).
    now apply negb_true_iff.
Qed.

Lemma recurrence_escalates_on_trigger_frames_witness :
  let s := run (init false) third_dwell in
  let s' := step s (plain_on_level1 "DROWSY" 203) in
  level1_trigger_history s = [3; 103] /\
  get_alert_level s = 0%nat /\
  history_at_check s 203 = [3; 103; 203] /\
  level2_active s' = true /\
  level2_triggered s' = true /\
  last_alert_reason s' = Some "frequent Level 1 alerts"%string /\
  get_alert_level s' = 2%nat.
Proof.
  split; [reflexivity|]. split; [reflexivity|]. split; [reflexivity|].
  destruct (recurrence_escalates_on_trigger_frames level1_tone_running
              (run (init false) third_dwell) "DROWSY" 203 None None None
              (Some 0%Z) None) as (H & _ & _).
  - reflexivity.
  - destruct H as (H & _).
    + reflexivity.
    + reflexivity.
    + apply H. vm_compute. lia.
Defined.

(** ** Standard escalation *)

Lemma should_escalate_iff (s : AlertEngine) (has yt bt pt : bool)
    (perclos ear : option Q) :
  should_escalate s has yt bt pt perclos ear = true <->
  original_trigger_persists has yt bt pt (yawns_since_level1 s) perclos ear.
Proof.
  unfold should_escalate, original_trigger_persists, perclos_issue, ear_issue.
  destruct has; [intuition|].
  destruct yt.
  - destruct (0 <? yawns_since_level1 s)%nat eqn:Y.
    + apply Nat.ltb_lt in Y. rewrite orb_true_iff. split.
      * intros [H | H]; right; left; repeat split; auto.
        -- destruct perclos as [p|]; [|discriminate].
           left. exists p. split; [reflexivity | now apply Qge_bool_true].
        -- destruct ear as [e|]; [|discriminate].
           right. exists e. split; [reflexivity | now apply Qlt_bool_true].
      * intros [H | [(_ & _ & _ & [(p & -> & H) | (e & -> & H)]) | (_ & H & _)]];
          try discriminate.
        -- left. now apply Qge_bool_true.
        -- right. now apply Qlt_bool_true.
    + apply Nat.ltb_ge in Y. split; [discriminate|].
      intros [H | [(_ & _ & H & _) | (_ & H & _)]]; try discriminate. lia.
  - destruct bt; [intuition|]. destruct pt; [intuition|].
    split; [discriminate|]. intuition discriminate.
Qed.

(** C5, as stated, fails: after [third_by_microsleep] Level 1 has been
    active since t=200 and Level 2 is not active; at t=210 the yawn trigger
    is active with neither a PERCLOS nor an EAR issue, so none of the
    listed conditions holds, yet the call escalates to Level 2 -- through
    the recurrence check, with reason "frequent Level 1 alerts". *)
Lemma escalation_without_persisting_trigger :
  let s := run (init false) third_by_microsleep in
  let f := mkFrame level1_tone_running "ALERT" 210 (Some [203; 206; 210])
             None None (Some 0%Z) None in
  level1_active s = true /\ level1_triggered_at s = Some 200 /\
  LEVEL2_DURATION_SECONDS <= f_timestamp f - 200 /\
  level2_active s = false /\
  ~ original_trigger_persists
      (existsb (String.eqb (f_state f)) DROWSY_STATES)
      (yawn_trigger_of s (f_yawns f) (f_timestamp f))
      (_check_blink_rate_trigger (f_blink_rate f))
      (_check_perclos_trigger (f_perclos f))
      (yawns_since_level1 (after_yawns s (f_yawns f) (f_timestamp f)))
      (f_perclos f) (f_ear f) /\
  level2_active (step s f) = true /\
  last_alert_reason (step s f) = Some "frequent Level 1 alerts"%string.
Proof.
  cbv zeta. repeat split; try reflexivity.
  - vm_compute. discriminate.
  - intros [H | [(_ & _ & _ & [(p & H & _) | (e & H & _)]) | (_ & H & _)]];
      vm_compute in H; discriminate H.
Qed.

(** C5 (amended). On a call of [process] at time [t] with Level 1 active
    since [t1], [t - t1 >= LEVEL2_DURATION_SECONDS], Level 2 not active, and
    fewer than LEVEL1_FREQUENCY_THRESHOLD activations in the trailing
    LEVEL1_FREQUENCY_WINDOW_SECONDS (so that the recurrence check does not
    fire), the engine is at Level 2 after the call exactly when the original
    trigger persists: the drowsy-state trigger; otherwise the yawn trigger
    with [yawns_since_level1 > 0] and ([perclos >= PERCLOS_LEVEL1_MIN] or
    [ear < EAR_CLOSED_THRESHOLD]); otherwise the blink-rate or the PERCLOS
    trigger.  When it escalates the reason is "persistent symptoms". *)
Theorem standard_escalation_exactly_when_trigger_persists (env : ThreadEnv)
    (s : AlertEngine) (state : string) (t t1 : Q) (yawns : option (list Q))
    (perclos blink_rate : option Q) (m : option Z) (ear : option Q) :
  level1_active s = true ->
  level1_triggered_at s = Some t1 ->
  LEVEL2_DURATION_SECONDS <= t - t1 ->
  level2_active s = false ->
  (count_since (t - LEVEL1_FREQUENCY_WINDOW_SECONDS)
     (level1_trigger_history s) < LEVEL1_FREQUENCY_THRESHOLD)%nat ->
  let s' := process env s state t yawns perclos blink_rate m ear in
  let persists :=
    original_trigger_persists
      (existsb (String.eqb state) DROWSY_STATES)
      (yawn_trigger_of s yawns t)
      (_check_blink_rate_trigger blink_rate)
      (_check_perclos_trigger perclos)
      (yawns_since_level1 (after_yawns s yawns t))
      perclos ear in
  (level2_active s' = true <-> persists) /\
  (persists -> last_alert_reason s' = Some "persistent symptoms"%string).
Proof.
  intros A T E L2 C s' persists. subst s' persists.
  rewrite process_cases. cbv zeta.
  rewrite after_yawns_level1_active, A, andb_false_r.
  set (s1 := after_yawns s yawns t).
  set (has := existsb (String.eqb state) DROWSY_STATES).
  set (yt := yawn_trigger_of s yawns t).
  set (bt := _check_blink_rate_trigger blink_rate).
  set (pt := _check_perclos_trigger perclos).
  assert (A1 : level1_active s1 = true)
    by (unfold s1; now rewrite after_yawns_level1_active).
  assert (L1 : level2_active s1 = false)
    by (unfold s1; now rewrite after_yawns_level2_active).
  destruct (has || yt || bt || pt) eqn:S.
  - rewrite dwell_step_active by exact A1.
    destruct (start_dwell_frame s1 t) as (v & ->).
    assert (H1 : level1_trigger_history (set_level1_start v s1)
                 = level1_trigger_history s)
      by apply after_yawns_history.
    rewrite recurrence_step_quiet by (rewrite H1; exact C).
    set (s3 := set_level1_trigger_history _ _).
    assert (T3 : level1_triggered_at s3 = Some t1)
      by (rewrite <- T; apply after_yawns_triggered_at).
    assert (A3 : level1_active s3 = true) by exact A1.
    assert (L3 : level2_active s3 = false) by exact L1.
    assert (Y3 : yawns_since_level1 s3 = yawns_since_level1 s1)
      by reflexivity.
    unfold escalation_step. rewrite T3, A3, L3.
    apply Qge_bool_true in E. rewrite E. cbn [andb negb].
    rewrite <- Y3, <- should_escalate_iff.
    destruct (should_escalate s3 has yt bt pt perclos ear).
    + split; [split; auto using trigger_level2_fires|].
      intros _. now apply trigger_level2_reason.
    + rewrite L3. split; [split|]; discriminate.
  - rewrite quiet_step_level2_off by exact L1.
    apply orb_false_iff in S. destruct S as [S Hp].
    apply orb_false_iff in S. destruct S as [S Hb].
    apply orb_false_iff in S. destruct S as [Hh Hy].
    assert (N : ~ original_trigger_persists has yt bt pt
                    (yawns_since_level1 s1) perclos ear).
    { unfold original_trigger_persists. rewrite Hh, Hy, Hb, Hp.
      intuition discriminate. }
    split; [split; [discriminate | tauto] | tauto].
Qed.

Lemma standard_escalation_exactly_when_trigger_persists_witness :
  let s := run (init false) [plain "DROWSY" 0; plain "DROWSY" 3] in
  let s' := step s (plain_on_level1 "DROWSY" 13) in
  level1_triggered_at s = Some 3 /\
  level2_active s' = true /\
  last_alert_reason s' = Some "persistent symptoms"%string.
Proof.
  split; [reflexivity|].
  destruct (standard_escalation_exactly_when_trigger_persists
              level1_tone_running
              (run (init false) [plain "DROWSY" 0; plain "DROWSY" 3])
              "DROWSY" 13 3 None None None (Some 0%Z) None) as (I & R).
  - reflexivity.
  - reflexivity.
  - vm_compute. discriminate.
  - reflexivity.
  - vm_compute. lia.
  - assert (P : original_trigger_persists
                  (existsb (String.eqb "DROWSY") DROWSY_STATES)
                  (yawn_trigger_of
                     (run (init false) [plain "DROWSY" 0; plain "DROWSY" 3])
                     None 13)
                  (_check_blink_rate_trigger None)
                  (_check_perclos_trigger None)
                  (yawns_since_level1
                     (after_yawns
                        (run (init false) [plain "DROWSY" 0; plain "DROWSY" 3])
                        None 13))
                  None None) by (left; reflexivity).
    split; [apply I, P | apply R, P].
Defined.

(** ** Scenario: the driver stays DROWSY *)

Lemma trace_app (fs gs : list Frame) :
  forall s, trace s (fs ++ gs) = trace s fs ++ trace (run s fs) gs.
Proof.
  induction fs as [|f fs IH]; intros s; simpl; [reflexivity|].
  now rewrite IH.
Qed.

Lemma levels_app (s : AlertEngine) (fs gs : list Frame) :
  levels s (fs ++ gs) = levels s fs ++ levels (run s fs) gs.
Proof. unfold levels. now rewrite trace_app, map_app. Qed.

Lemma run_app (s : AlertEngine) (fs gs : list Frame) :
  run s (fs ++ gs) = run (run s fs) gs.
Proof. unfold run. apply fold_left_app. Qed.

Lemma count_since_le_length (c : Q) (xs : list Q) :
  (count_since c xs <= List.length xs)%nat.
Proof. unfold count_since. apply filter_length_le. Qed.

Lemma keep_since_length (c : Q) (xs : list Q) :
  (List.length (keep_since c xs) <= List.length xs)%nat.
Proof. unfold keep_since. apply filter_length_le. Qed.

Lemma no_yawns_after (s : AlertEngine) (yawns : option (list Q)) (t : Q) :
  yawn_timestamps s = [] -> yawns = None \/ yawns = Some [] ->
  after_yawns s yawns t = set_yawn_timestamps [] s /\
  yawn_trigger_of s yawns t = false.
Proof.
  intros Y [-> | ->]; unfold after_yawns, yawn_trigger_of;
    rewrite check_yawn_trigger_eq; cbn; rewrite Y; split; reflexivity.
Qed.

(** On a DROWSY-only frame with no yawn tracked, [process] is the dwell
    block, the recurrence check and the escalation block in sequence. *)
Lemma step_drowsy_only (s : AlertEngine) (f : Frame) :
  drowsy_only f -> yawn_timestamps s = [] ->
  step s f =
  escalation_step (alive_at_level2 (f_env f))
    (recurrence_step (alive_at_level2 (f_env f))
       (dwell_step (alive_at_level1 (f_env f)) (set_yawn_timestamps [] s)
          (f_timestamp f) true false false false (f_perclos f)
          (f_blink_rate f))
       (f_timestamp f))
    (f_timestamp f) true false false false (f_perclos f) (f_ear f).
Proof.
  intros (St & Yw & B & P & M) Y. unfold step.
  rewrite process_cases. cbv zeta.
  destruct (no_yawns_after s (f_yawns f) (f_timestamp f) Y Yw) as (-> & ->).
  rewrite St, B, P, M. reflexivity.
Qed.

Lemma dwelling_begins (audio : bool) (f : Frame) :
  drowsy_only f ->
  dwelling (f_timestamp f) (step (init audio) f) /\
  get_alert_level (step (init audio) f) = 0%nat.
Proof.
  intros D. rewrite (step_drowsy_only (init audio) f D eq_refl).
  unfold dwell_step. cbn [init set_yawn_timestamps level1_start
    set_level1_start level1_active].
  assert (E : Qge_bool (f_timestamp f - f_timestamp f) LEVEL1_DURATION_SECONDS
              = false).
  { apply Qge_bool_false. unfold LEVEL1_DURATION_SECONDS. lra. }
  rewrite E. cbn [andb].
  rewrite recurrence_step_quiet
    by (unfold LEVEL1_FREQUENCY_THRESHOLD; cbn; lia).
  unfold escalation_step. cbn. repeat split.
Qed.

Lemma dwelling_continues (t0 : Q) (s : AlertEngine) (f : Frame) :
  dwelling t0 s -> drowsy_only f ->
  f_timestamp f - t0 < LEVEL1_DURATION_SECONDS ->
  dwelling t0 (step s f) /\ get_alert_level (step s f) = 0%nat.
Proof.
  intros (S0 & A & L2 & T & Y & H) D E.
  rewrite (step_drowsy_only _ _ D Y).
  rewrite dwell_step_running with (t0 := t0) by exact S0.
  apply Qge_bool_false in E. rewrite E. cbn [andb].
  rewrite recurrence_step_quiet
    by (cbn [level1_trigger_history set_yawn_timestamps]; rewrite H;
        unfold LEVEL1_FREQUENCY_THRESHOLD; cbn; lia).
  unfold escalation_step, dwelling, get_alert_level.
  destruct s; cbn in *; subst; cbn. repeat split.
Qed.

Lemma level1_fires_after_dwell (t0 : Q) (s : AlertEngine) (f : Frame) :
  dwelling t0 s -> drowsy_only f ->
  LEVEL1_DURATION_SECONDS <= f_timestamp f - t0 ->
  at_level1 (f_timestamp f) (step s f) /\
  get_alert_level (step s f) = 1%nat.
Proof.
  intros (S0 & A & L2 & T & Y & H) D E.
  rewrite (step_drowsy_only _ _ D Y).
  rewrite dwell_step_running with (t0 := t0) by exact S0.
  apply Qge_bool_true in E. rewrite E.
  change (level1_active (set_yawn_timestamps [] s)) with (level1_active s).
  rewrite A. cbn [andb negb].
  set (s0 := set_yawn_timestamps [] s).
  assert (A0 : level1_active s0 = false) by exact A.
  match goal with |- context [trigger_level1 ?a s0 ?t ?r ?p ?b ?m] =>
    set (s1 := trigger_level1 a s0 t r p b m);
    destruct (trigger_level1_fires a s0 t r p b m A0) as (A1 & T1 & _ & H1 & _);
    pose proof (trigger_level1_level2_active a s0 t r p b m) as L1;
    pose proof (trigger_level1_yawns a s0 t r p b m) as Y1
  end.
  fold s1 in A1, T1, H1, L1, Y1.
  change (level2_active s0) with (level2_active s) in L1.
  change (level1_trigger_history s0) with (level1_trigger_history s) in H1.
  change (yawn_timestamps s0) with (@nil Q) in Y1.
  rewrite H in H1. cbn [app] in H1.
  assert (Y1' : yawn_timestamps s1 = []) by (destruct Y1 as [-> | ->]; reflexivity).
  rewrite recurrence_step_quiet
    by (rewrite H1;
        pose proof (count_since_le_length
                      (f_timestamp f - LEVEL1_FREQUENCY_WINDOW_SECONDS)
                      [f_timestamp f]);
        unfold LEVEL1_FREQUENCY_THRESHOLD; cbn [List.length] in *; lia).
  set (s3 := set_level1_trigger_history _ _).
  assert (Q0 : Qge_bool (f_timestamp f - f_timestamp f) LEVEL2_DURATION_SECONDS
               = false).
  { apply Qge_bool_false. unfold LEVEL2_DURATION_SECONDS. lra. }
  unfold escalation_step.
  change (level1_triggered_at s3) with (level1_triggered_at s1).
  change (level1_active s3) with (level1_active s1).
  rewrite T1, A1, Q0. cbn [andb].
  unfold at_level1, get_alert_level.
  change (level1_active s3) with (level1_active s1).
  change (level2_active s3) with (level2_active s1).
  change (level1_triggered_at s3) with (level1_triggered_at s1).
  change (yawn_timestamps s3) with (yawn_timestamps s1).
  rewrite A1, L1, L2, T1, Y1'. repeat split.
  unfold s3. cbn [level1_trigger_history set_level1_trigger_history].
  rewrite H1. apply keep_since_length.
Qed.

Lemma level1_continues (t3 : Q) (s : AlertEngine) (f : Frame) :
  at_level1 t3 s -> drowsy_only f ->
  f_timestamp f - t3 < LEVEL2_DURATION_SECONDS ->
  at_level1 t3 (step s f) /\ get_alert_level (step s f) = 1%nat.
Proof.
  intros (A & L2 & T & Y & H) D E.
  rewrite (step_drowsy_only _ _ D Y).
  rewrite dwell_step_active by exact A.
  destruct (start_dwell_frame (set_yawn_timestamps [] s) (f_timestamp f))
    as (v & ->).
  rewrite recurrence_step_quiet
    by (apply Nat.le_lt_trans with (List.length (level1_trigger_history s));
        [apply (count_since_le_length _ (level1_trigger_history s))
        | unfold LEVEL1_FREQUENCY_THRESHOLD; lia]).
  unfold escalation_step. cbn. rewrite T, A.
  apply Qge_bool_false in E. rewrite E. cbn [andb].
  unfold at_level1, get_alert_level. cbn. rewrite A, L2, T.
  repeat split.
  apply Nat.le_trans with (List.length (level1_trigger_history s));
    [apply (keep_since_length _ (level1_trigger_history s)) | exact H].
Qed.

Lemma level2_fires_after_persistence (t3 : Q) (s : AlertEngine) (f : Frame) :
  at_level1 t3 s -> drowsy_only f ->
  LEVEL2_DURATION_SECONDS <= f_timestamp f - t3 ->
  get_alert_level (step s f) = 2%nat.
Proof.
  intros (A & L2 & T & Y & H) D E.
  rewrite (step_drowsy_only _ _ D Y).
  rewrite dwell_step_active by exact A.
  destruct (start_dwell_frame (set_yawn_timestamps [] s) (f_timestamp f))
    as (v & ->).
  rewrite recurrence_step_quiet
    by (apply Nat.le_lt_trans with (List.length (level1_trigger_history s));
        [apply (count_since_le_length _ (level1_trigger_history s))
        | unfold LEVEL1_FREQUENCY_THRESHOLD; lia]).
  unfold escalation_step. cbn. rewrite T, A, L2.
  apply Qge_bool_true in E. rewrite E. cbn [andb negb].
  unfold get_alert_level. now rewrite trigger_level2_fires.
Qed.

Lemma dwelling_phase (t0 : Q) (fs : list Frame) :
  forall s, dwelling t0 s -> Forall drowsy_only fs ->
    Forall (fun f => f_timestamp f - t0 < LEVEL1_DURATION_SECONDS) fs ->
    levels s fs = repeat 0%nat (List.length fs) /\ dwelling t0 (run s fs).
Proof.
  induction fs as [|f fs IH]; intros s Dw Dr Ti; [now split|].
  inversion Dr as [|? ? Df Dfs]; subst. inversion Ti as [|? ? Tf Tfs]; subst.
  destruct (dwelling_continues t0 s f Dw Df Tf) as (Dw' & L).
  destruct (IH (step s f) Dw' Dfs Tfs) as (Ls & Dw'').
  split; [|exact Dw''].
  unfold levels in *. simpl. now rewrite L, Ls.
Qed.

Lemma level1_phase (t3 : Q) (fs : list Frame) :
  forall s, at_level1 t3 s -> Forall drowsy_only fs ->
    Forall (fun f => f_timestamp f - t3 < LEVEL2_DURATION_SECONDS) fs ->
    levels s fs = repeat 1%nat (List.length fs) /\ at_level1 t3 (run s fs).
Proof.
  induction fs as [|f fs IH]; intros s Dw Dr Ti; [now split|].
  inversion Dr as [|? ? Df Dfs]; subst. inversion Ti as [|? ? Tf Tfs]; subst.
  destruct (level1_continues t3 s f Dw Df Tf) as (Dw' & L).
  destruct (IH (step s f) Dw' Dfs Tfs) as (Ls & Dw'').
  split; [|exact Dw''].
  unfold levels in *. simpl. now rewrite L, Ls.
Qed.

(** C4. On a fresh engine, let [process] be called on a sequence of frames
    whose only trigger is the DROWSY state, the first at t=0.  While the
    frames have [t < LEVEL1_DURATION_SECONDS] the level read after each call
    is 0; the first frame with [t >= LEVEL1_DURATION_SECONDS] raises
    Level 1 and stamps [level1_triggered_at] with its time; the level then
    stays 1 while [t - level1_triggered_at < LEVEL2_DURATION_SECONDS], and
    the first frame with [t - level1_triggered_at >=
    LEVEL2_DURATION_SECONDS] raises Level 2. *)
Theorem drowsy_escalation_timeline (audio : bool) (f0 : Frame)
    (pre : list Frame) (f3 : Frame) (mid : list Frame) (f13 : Frame) :
  Forall drowsy_only (f0 :: pre ++ f3 :: mid ++ [f13]) ->
  f_timestamp f0 == 0 ->
  Forall (fun f => f_timestamp f < LEVEL1_DURATION_SECONDS) pre ->
  LEVEL1_DURATION_SECONDS <= f_timestamp f3 ->
  Forall (fun f => f_timestamp f - f_timestamp f3 < LEVEL2_DURATION_SECONDS)
    mid ->
  LEVEL2_DURATION_SECONDS <= f_timestamp f13 - f_timestamp f3 ->
  levels (init audio) (f0 :: pre ++ f3 :: mid ++ [f13])
  = ((0 :: repeat 0 (List.length pre))
     ++ (1 :: repeat 1 (List.length mid)) ++ [2])%nat /\
  level1_triggered_at (run (init audio) (f0 :: pre ++ [f3]))
  = Some (f_timestamp f3).
Proof.
  intros Dr Z0 Tpre T3 Tmid T13.
  inversion Dr as [|? ? D0 Dr1]; subst.
  apply Forall_app in Dr1. destruct Dr1 as [Dpre Dr2].
  inversion Dr2 as [|? ? D3 Dr3]; subst.
  apply Forall_app in Dr3. destruct Dr3 as [Dmid Dr4].
  inversion Dr4 as [|? ? D13 _]; subst.
  destruct (dwelling_begins audio f0 D0) as (Dw0 & L0).
  assert (Tpre' : Forall (fun f => f_timestamp f - f_timestamp f0
                                   < LEVEL1_DURATION_SECONDS) pre).
  { eapply Forall_impl; [|exact Tpre]. cbv beta. intros f Hf.
    rewrite Z0. lra. }
  destruct (dwelling_phase _ pre _ Dw0 Dpre Tpre') as (Lpre & Dw1).
  assert (T3' : LEVEL1_DURATION_SECONDS <= f_timestamp f3 - f_timestamp f0)
    by (rewrite Z0; lra).
  destruct (level1_fires_after_dwell _ _ f3 Dw1 D3 T3') as (At3 & L3).
  destruct (level1_phase _ mid _ At3 Dmid Tmid) as (Lmid & At4).
  pose proof (level2_fires_after_persistence _ _ f13 At4 D13 T13) as L13.
  split.
  - change (f0 :: pre ++ f3 :: mid ++ [f13])
      with ([f0] ++ pre ++ [f3] ++ mid ++ [f13]).
    rewrite !levels_app.
    change (run (init audio) [f0]) with (step (init audio) f0).
    rewrite Lpre.
    change (run (run (step (init audio) f0) pre) [f3])
      with (step (run (step (init audio) f0) pre) f3).
    rewrite Lmid.
    unfold levels at 1 2 3. cbn [trace map]. rewrite L0, L3.
    change (run (step (run (step (init audio) f0) pre) f3) mid)
      with (run (step (run (step (init audio) f0) pre) f3) mid).
    rewrite L13. reflexivity.
  - change (f0 :: pre ++ [f3]) with ([f0] ++ pre ++ [f3]).
    rewrite !run_app.
    change (run (init audio) [f0]) with (step (init audio) f0).
    change (run (run (step (init audio) f0) pre) [f3])
      with (step (run (step (init audio) f0) pre) f3).
    now destruct At3 as (_ & _ & T & _).
Qed.

Lemma drowsy_escalation_timeline_witness :
  levels (init false)
    (map (plain "DROWSY") [0; 1; 2; 3; 4; 5; 6; 7; 8; 9; 10; 11; 12]
     ++ [plain_on_level1 "DROWSY" 13])
  = [0; 0; 0; 1; 1; 1; 1; 1; 1; 1; 1; 1; 1; 2]%nat /\
  level1_triggered_at
    (run (init false) (map (plain "DROWSY") [0; 1; 2; 3])) = Some 3.
Proof.
  apply (drowsy_escalation_timeline false (plain "DROWSY" 0)
           (map (plain "DROWSY") [1; 2]) (plain "DROWSY" 3)
           (map (plain "DROWSY") [4; 5; 6; 7; 8; 9; 10; 11; 12])
           (plain_on_level1 "DROWSY" 13)).
  - repeat constructor.
  - reflexivity.
  - repeat constructor.
  - vm_compute. discriminate.
  - repeat constructor.
  - vm_compute. discriminate.
Defined.

(** ** Recovery from Level 1 *)

(** C1. Level 1 raised at t=3 by the DROWSY state is dropped by the very
    next ALERT frame without triggers, whatever its timestamp [t] -- in
    particular at t=4, one second after Level 1 was raised.  The 5-second
    test of lines 184-197 sits under [if should_trigger_level1], where its
    guard (no trigger active) cannot hold (see [process_cases]); the [else]
    branch resets at once. *)
Theorem level1_dropped_by_first_alert_frame (t : Q) :
  levels (init false)
    [plain "DROWSY" 0; plain "DROWSY" 3; plain "ALERT" t]
  = [0; 1; 0]%nat /\
  level1_triggered_at (run (init false) [plain "DROWSY" 0; plain "DROWSY" 3])
  = Some 3.
Proof. split; reflexivity. Qed.

(** * Further properties of the engine *)

(** ** The three branches of [process] *)

Lemma process_microsleep_branch env s state t yawns perclos blink_rate m ear :
  microsleep_branch s m = true ->
  process env s state t yawns perclos blink_rate m ear
  = trigger_level1 (alive_at_level1 env) (after_yawns s yawns t) t
      "microsleep event" None None m.
Proof.
  unfold microsleep_branch. intros H. rewrite process_cases. cbv zeta.
  now rewrite after_yawns_level1_active, H.
Qed.

Lemma process_trigger_branch env s state t yawns perclos blink_rate m ear :
  microsleep_branch s m = false ->
  should_trigger_level1 s state t yawns perclos blink_rate = true ->
  process env s state t yawns perclos blink_rate m ear
  = escalation_step (alive_at_level2 env)
      (recurrence_step (alive_at_level2 env)
         (dwell_step (alive_at_level1 env) (after_yawns s yawns t) t
            (existsb (String.eqb state) DROWSY_STATES)
            (yawn_trigger_of s yawns t)
            (_check_blink_rate_trigger blink_rate)
            (_check_perclos_trigger perclos) perclos blink_rate)
         t)
      t (existsb (String.eqb state) DROWSY_STATES)
      (yawn_trigger_of s yawns t)
      (_check_blink_rate_trigger blink_rate)
      (_check_perclos_trigger perclos) perclos ear.
Proof.
  unfold microsleep_branch, should_trigger_level1. intros M S.
  rewrite process_cases. cbv zeta.
  now rewrite after_yawns_level1_active, M, S.
Qed.

Lemma process_quiet_branch env s state t yawns perclos blink_rate m ear :
  microsleep_branch s m = false ->
  should_trigger_level1 s state t yawns perclos blink_rate = false ->
  process env s state t yawns perclos blink_rate m ear
  = quiet_step (after_yawns s yawns t) state.
Proof.
  unfold microsleep_branch, should_trigger_level1. intros M S.
  rewrite process_cases. cbv zeta.
  now rewrite after_yawns_level1_active, M, S.
Qed.

Lemma reset_cases (s : AlertEngine) :
  (level1_start s = None /\ reset s = s) \/
  (level1_start s <> None /\ symptoms_cleared (reset s) /\
   level1_trigger_history (reset s) = level1_trigger_history s /\
   level2_triggered (reset s) = level2_triggered s).
Proof.
  unfold reset, symptoms_cleared. destruct (level1_start s) eqn:E.
  - right. repeat split; auto. discriminate.
  - left. auto.
Qed.

Lemma quiet_step_cases (s : AlertEngine) (state : string) :
  quiet_step s state = s \/ quiet_step s state = reset s.
Proof.
  unfold quiet_step. destruct (_ || _)%bool; [now right|].
  destruct (level1_triggered_at s); [|now left].
  destruct (level1_active s); [now right | now left].
Qed.

Lemma cleared_level0 (s : AlertEngine) :
  symptoms_cleared s -> get_alert_level s = 0%nat.
Proof.
  intros (_ & _ & A & B & _). unfold get_alert_level. now rewrite A, B.
Qed.

Lemma recurrence_step_level2_on alive s t :
  level2_active s = true -> level2_active (recurrence_step alive s t) = true.
Proof.
  intros A. unfold recurrence_step.
  destruct (_ && _); [apply trigger_level2_fires | exact A].
Qed.

(** X1. Level 2 is never downgraded to Level 1.  From an engine at Level 2,
    a call of [process] ends at Level 2, or -- only on a frame with no
    trigger active and with the dwell timer set -- at level 0 with the
    symptom-tracking attributes cleared. *)
Theorem level2_never_drops_to_level1 (env : ThreadEnv) (s : AlertEngine)
    (state : string) (t : Q) (yawns : option (list Q))
    (perclos blink_rate : option Q) (m : option Z) (ear : option Q) :
  level2_active s = true ->
  let s' := process env s state t yawns perclos blink_rate m ear in
  get_alert_level s' = 2%nat \/
  (get_alert_level s' = 0%nat /\ symptoms_cleared s' /\
   should_trigger_level1 s state t yawns perclos blink_rate = false /\
   level1_start s <> None).
Proof.
  intros A s'. subst s'.
  assert (A1 : level2_active (after_yawns s yawns t) = true)
    by now rewrite after_yawns_level2_active.
  assert (two : forall x, level2_active x = true -> get_alert_level x = 2%nat)
    by (intros x Hx; unfold get_alert_level; now rewrite Hx).
  destruct (microsleep_branch s m) eqn:M.
  - left. rewrite process_microsleep_branch by exact M.
    apply two. now rewrite trigger_level1_level2_active.
  - destruct (should_trigger_level1 s state t yawns perclos blink_rate) eqn:S.
    + left. rewrite process_trigger_branch by assumption.
      assert (R : forall d, level2_active d = true ->
                level2_active (recurrence_step (alive_at_level2 env) d t)
                = true) by (intros d Hd; now apply recurrence_step_level2_on).
      rewrite escalation_step_level2_on.
      * apply two, R. now rewrite dwell_step_level2_active.
      * apply R. now rewrite dwell_step_level2_active.
    + rewrite process_quiet_branch by assumption.
      destruct (quiet_step_cases (after_yawns s yawns t) state) as [-> | ->];
        [left; now apply two|].
      destruct (reset_cases (after_yawns s yawns t))
        as [(_ & ->) | (N & C & _)]; [left; now apply two|].
      right. rewrite after_yawns_level1_start in N.
      repeat split; auto using cleared_level0; apply C.
Qed.

Lemma level2_never_drops_to_level1_witness :
  let s := run (init false)
             [plain "DROWSY" 0; plain "DROWSY" 3;
              plain_on_level1 "DROWSY" 13] in
  get_alert_level s = 2%nat /\
  (get_alert_level (step s (plain "DROWSY" 14)) = 2%nat \/
   (get_alert_level (step s (plain "DROWSY" 14)) = 0%nat /\
    symptoms_cleared (step s (plain "DROWSY" 14)) /\
    should_trigger_level1 s "DROWSY" 14 None None None = false /\
    level1_start s <> None)).
Proof.
  split; [reflexivity|].
  apply (level2_never_drops_to_level1 no_thread
           (run (init false)
              [plain "DROWSY" 0; plain "DROWSY" 3;
               plain_on_level1 "DROWSY" 13])
           "DROWSY" 14 None None None (Some 0%Z) None).
  reflexivity.
Defined.

(** ** Frames without an active trigger *)

Lemma reset_level_le (s : AlertEngine) :
  (get_alert_level (reset s) <= get_alert_level s)%nat.
Proof.
  destruct (reset_cases s) as [(_ & ->) | (_ & C & _)]; [lia|].
  rewrite (cleared_level0 _ C). lia.
Qed.

Lemma after_yawns_level s yawns t :
  get_alert_level (after_yawns s yawns t) = get_alert_level s.
Proof.
  unfold get_alert_level.
  now rewrite after_yawns_level1_active, after_yawns_level2_active.
Qed.

(** X2. On a frame with no trigger active (and the microsleep branch not
    taken) whose state is "ALERT" or "NO_FACE", [process] is the yawn
    bookkeeping followed by [reset()].  So with the dwell timer set the
    engine is back at level 0 at once, with its symptom-tracking attributes
    cleared and [level1_trigger_history] and [level2_triggered] untouched;
    with the dwell timer unset nothing but the yawn bookkeeping happens. *)
Theorem quiet_alert_frame_is_a_reset (env : ThreadEnv) (s : AlertEngine)
    (state : string) (t : Q) (yawns : option (list Q))
    (perclos blink_rate : option Q) (m : option Z) (ear : option Q) :
  state = "ALERT"%string \/ state = "NO_FACE"%string ->
  microsleep_branch s m = false ->
  should_trigger_level1 s state t yawns perclos blink_rate = false ->
  let s' := process env s state t yawns perclos blink_rate m ear in
  s' = reset (after_yawns s yawns t) /\
  (level1_start s <> None ->
   symptoms_cleared s' /\ get_alert_level s' = 0%nat /\
   level1_trigger_history s' = level1_trigger_history s /\
   level2_triggered s' = level2_triggered s) /\
  (level1_start s = None -> s' = after_yawns s yawns t).
Proof.
  intros St M S s'. subst s'. rewrite process_quiet_branch by assumption.
  assert (E : quiet_step (after_yawns s yawns t) state
              = reset (after_yawns s yawns t))
    by (unfold quiet_step; destruct St as [-> | ->]; reflexivity).
  rewrite E. split; [reflexivity|]. split.
  - intros N.
    destruct (reset_cases (after_yawns s yawns t))
      as [(Z0 & _) | (_ & C & H & L)].
    + rewrite after_yawns_level1_start in Z0. contradiction.
    + rewrite after_yawns_history in H.
      destruct (after_yawns_frame s yawns t) as (ys & n & F).
      rewrite F in L at 2. cbn in L.
      repeat split; auto using cleared_level0; apply C.
  - intros N. apply reset_None. now rewrite after_yawns_level1_start.
Qed.

Lemma quiet_alert_frame_is_a_reset_witness :
  let s := run (init false)
             [plain "DROWSY" 0; plain "DROWSY" 3;
              plain_on_level1 "DROWSY" 13] in
  let s' := step s (plain "NO_FACE" 14) in
  get_alert_level s = 2%nat /\
  symptoms_cleared s' /\ get_alert_level s' = 0%nat /\
  level1_trigger_history s' = level1_trigger_history s /\
  level2_triggered s' = level2_triggered s.
Proof.
  split; [reflexivity|].
  destruct (quiet_alert_frame_is_a_reset no_thread
              (run (init false)
                 [plain "DROWSY" 0; plain "DROWSY" 3;
                  plain_on_level1 "DROWSY" 13])
              "NO_FACE" 14 None None None (Some 0%Z) None)
    as (_ & C & _).
  - now right.
  - reflexivity.
  - reflexivity.
  - apply C. vm_compute. discriminate.
Defined.

(** X3. A frame with no trigger active never raises the alert level,
    whatever its state string, and never touches
    [level1_trigger_history]. *)
Theorem quiet_frame_never_raises (env : ThreadEnv) (s : AlertEngine)
    (state : string) (t : Q) (yawns : option (list Q))
    (perclos blink_rate : option Q) (m : option Z) (ear : option Q) :
  microsleep_branch s m = false ->
  should_trigger_level1 s state t yawns perclos blink_rate = false ->
  let s' := process env s state t yawns perclos blink_rate m ear in
  (get_alert_level s' <= get_alert_level s)%nat /\
  level1_trigger_history s' = level1_trigger_history s.
Proof.
  intros M S s'. subst s'. rewrite process_quiet_branch by assumption.
  destruct (quiet_step_cases (after_yawns s yawns t) state) as [-> | ->].
  - rewrite after_yawns_level, after_yawns_history. split; [lia | reflexivity].
  - split.
    + rewrite <- (after_yawns_level s yawns t). apply reset_level_le.
    + unfold reset. destruct (level1_start _); apply after_yawns_history.
Qed.

Lemma quiet_frame_never_raises_witness :
  let s := run (init false) three_activations in
  let s' := step s (plain "UNKNOWN" 205) in
  (get_alert_level s' <= get_alert_level s)%nat /\
  level1_trigger_history s' = level1_trigger_history s.
Proof.
  apply (quiet_frame_never_raises no_thread
           (run (init false) three_activations) "UNKNOWN" 205
           None None None (Some 0%Z) None); reflexivity.
Defined.

(** ** The dwell timer *)

Lemma dwell_step_level1_active_false alive s t h y b p pc br :
  level1_active s = false ->
  match level1_start s with
  | Some t0 => t - t0 < LEVEL1_DURATION_SECONDS
  | None => True
  end ->
  level1_active (dwell_step alive s t h y b p pc br) = false.
Proof.
  intros A D. unfold dwell_step.
  destruct (level1_start s) as [t0|] eqn:E.
  - rewrite E. apply Qge_bool_false in D. now rewrite D.
  - cbn [level1_start set_level1_start].
    assert (Z0 : Qge_bool (t - t) LEVEL1_DURATION_SECONDS = false)
      by (apply Qge_bool_false; unfold LEVEL1_DURATION_SECONDS; lra).
    now rewrite Z0.
Qed.

(** X4. Level 1 is never raised before the dwell has run its course,
    unless by a microsleep.  If Level 1 is not active, the microsleep
    trigger is off, and the dwell timer is unset or has run for less than
    LEVEL1_DURATION_SECONDS at the call's timestamp, then Level 1 is not
    active after the call -- whichever triggers are active. *)
Theorem level1_needs_dwell_or_microsleep (env : ThreadEnv) (s : AlertEngine)
    (state : string) (t : Q) (yawns : option (list Q))
    (perclos blink_rate : option Q) (m : option Z) (ear : option Q) :
  level1_active s = false ->
  _check_microsleep_trigger m = false ->
  match level1_start s with
  | Some t0 => t - t0 < LEVEL1_DURATION_SECONDS
  | None => True
  end ->
  level1_active (process env s state t yawns perclos blink_rate m ear) = false.
Proof.
  intros A M D.
  assert (MB : microsleep_branch s m = false)
    by (unfold microsleep_branch; now rewrite M).
  destruct (should_trigger_level1 s state t yawns perclos blink_rate) eqn:S.
  - rewrite process_trigger_branch by assumption.
    rewrite escalation_step_level1_active, recurrence_step_level1_active.
    apply dwell_step_level1_active_false.
    + now rewrite after_yawns_level1_active.
    + now rewrite after_yawns_level1_start.
  - rewrite process_quiet_branch by assumption.
    destruct (quiet_step_cases (after_yawns s yawns t) state) as [-> | ->].
    + now rewrite after_yawns_level1_active.
    + destruct (reset_cases (after_yawns s yawns t))
        as [(_ & ->) | (_ & C & _)]; [|apply C].
      now rewrite after_yawns_level1_active.
Qed.

Lemma level1_needs_dwell_or_microsleep_witness :
  let s := run (init false) [plain "VERY_DROWSY" 10] in
  level1_start s = Some 10 /\
  level1_active
    (process no_thread s "VERY_DROWSY" (129 # 10) None (Some 35) (Some 40)
       (Some 0%Z) (Some (1 # 10))) = false.
Proof.
  split; [reflexivity|].
  apply (level1_needs_dwell_or_microsleep no_thread
           (run (init false) [plain "VERY_DROWSY" 10]) "VERY_DROWSY"
           (129 # 10) None (Some 35) (Some 40) (Some 0%Z) (Some (1 # 10))).
  - reflexivity.
  - reflexivity.
  - vm_compute. reflexivity.
Defined.

(** ** The shape of the engine after each trigger *)

Lemma trigger_level2_shape alive s t r :
  (level2_active s = true /\ trigger_level2 alive s t r = s) \/
  (level2_active s = false /\
   exists d th sa,
     trigger_level2 alive s t r
     = set_alert_thread th
         (set_stop_alert sa
            (set_last_alert (Some r) d
               (set_level2_triggered true (set_level2_active true s))))).
Proof.
  unfold trigger_level2. destruct (level2_active s) eqn:A; [now left|].
  right. split; [reflexivity|].
  unfold start_level2_alerts.
  destruct (String.eqb r "frequent Level 1 alerts"); cbn;
    (destruct (alert_thread s); [destruct alive|]);
    do 3 eexists; reflexivity.
Qed.

Lemma trigger_level1_shape alive s t r p b m :
  (level1_active s = true /\ trigger_level1 alive s t r p b m = s) \/
  (level1_active s = false /\
   exists ys d th sa,
     (ys = yawn_timestamps s \/
      ys = keep_since (t - YAWN_ALERT_WINDOW_SECONDS) (yawn_timestamps s)) /\
     trigger_level1 alive s t r p b m
     = set_alert_thread th
         (set_stop_alert sa
            (set_last_alert (Some r) d
               (set_yawn_timestamps ys
                  (set_level1_trigger_history (level1_trigger_history s ++ [t])
                     (set_yawns_since_level1 0%nat
                        (set_level1_triggered_at (Some t)
                           (set_level1_active true s)))))))).
Proof.
  unfold trigger_level1. destruct (level1_active s) eqn:A; [now left|].
  right. split; [reflexivity|].
  unfold start_level1_alerts, get_yawn_frequency.
  destruct s as [ls lt l2t l1a l2a ys n hs lr ld au th sa].
  cbn in A. subst l1a.
  destruct (String.eqb r "yawn frequency");
    [| destruct (String.eqb r "excessive blink rate");
       [destruct b
       | destruct (String.eqb r "high PERCLOS");
         [destruct p | destruct (String.eqb r "microsleep event")]]];
    cbn; (destruct th; [destruct alive|]);
    do 4 eexists;
    (split;
     [|cbv [set_alert_thread set_stop_alert set_last_alert
            set_yawn_timestamps set_level1_trigger_history
            set_yawns_since_level1 set_level1_triggered_at
            set_level1_active level1_start level1_triggered_at
            level2_triggered level1_active level2_active yawn_timestamps
            yawns_since_level1 level1_trigger_history last_alert_reason
            last_alert_details audio_enabled alert_thread stop_alert];
       reflexivity]);
    ((left; reflexivity) || (right; reflexivity)).
Qed.

Lemma recurrence_step_shape alive s t :
  let s1 := set_level1_trigger_history
              (keep_since (t - LEVEL1_FREQUENCY_WINDOW_SECONDS)
                 (level1_trigger_history s)) s in
  recurrence_step alive s t = s1 \/
  (level2_active s = false /\
   recurrence_step alive s t
   = trigger_level2 alive s1 t "frequent Level 1 alerts").
Proof.
  cbv zeta. unfold recurrence_step. rewrite check_frequent_eq. cbn [fst snd].
  destruct (_ <=? _)%nat; cbn [andb]; [|now left].
  cbn [level2_active set_level1_trigger_history].
  destruct (level2_active s); cbn [negb]; [now left | now right].
Qed.

Lemma escalation_step_shape alive s t h y b p pc e :
  escalation_step alive s t h y b p pc e = s \/
  (level2_active s = false /\ level1_active s = true /\
   (exists t1, level1_triggered_at s = Some t1 /\
               LEVEL2_DURATION_SECONDS <= t - t1) /\
   escalation_step alive s t h y b p pc e
   = trigger_level2 alive s t "persistent symptoms").
Proof.
  unfold escalation_step. destruct (level1_triggered_at s) as [t1|]; [|now left].
  destruct (level1_active s); [|now left].
  destruct (Qge_bool (t - t1) LEVEL2_DURATION_SECONDS) eqn:G; [|now left].
  destruct (level2_active s); [now left|]. cbn [andb negb].
  destruct (should_escalate _ _ _ _ _ _ _); [|now left].
  right. repeat split; auto. exists t1. split; [reflexivity|].
  now apply Qge_bool_true.
Qed.

Lemma dwell_step_shape alive s t h y b p pc br :
  dwell_step alive s t h y b p pc br = start_dwell s t \/
  (level1_active s = false /\
   (exists t0, level1_start (start_dwell s t) = Some t0 /\
               LEVEL1_DURATION_SECONDS <= t - t0) /\
   dwell_step alive s t h y b p pc br
   = trigger_level1 alive (start_dwell s t) t (trigger_reason y b p h)
       pc br (Some 0%Z)).
Proof.
  unfold dwell_step. fold (start_dwell s t).
  assert (A : level1_active (start_dwell s t) = level1_active s)
    by (destruct (start_dwell_frame s t) as (v & ->); reflexivity).
  rewrite A.
  destruct (level1_start (start_dwell s t)) as [t0|] eqn:E.
  - destruct (Qge_bool (t - t0) LEVEL1_DURATION_SECONDS) eqn:G; [|now left].
    destruct (level1_active s); [now left|]. right.
    repeat split; auto. exists t0. split; [reflexivity|].
    now apply Qge_bool_true.
  - exfalso. unfold start_dwell in E.
    destruct (level1_start s) eqn:F; [congruence | discriminate].
Qed.

Lemma start_dwell_start (s : AlertEngine) (t : Q) :
  level1_start (start_dwell s t)
  = match level1_start s with Some t0 => Some t0 | None => Some t end.
Proof. unfold start_dwell. now destruct (level1_start s) eqn:E. Qed.


Lemma In_history_now (t : Q) (hs : list Q) :
  In t (keep_since (t - LEVEL1_FREQUENCY_WINDOW_SECONDS) (hs ++ [t])).
Proof.
  apply keep_since_In. split.
  - apply in_or_app. right. now left.
  - unfold LEVEL1_FREQUENCY_WINDOW_SECONDS. lra.
Qed.



(** ** What [process] does to [level1_trigger_history] *)

Lemma trigger_level2_history alive s t r :
  level1_trigger_history (trigger_level2 alive s t r)
  = level1_trigger_history s.
Proof.
  destruct (trigger_level2_shape alive s t r)
    as [(_ & ->) | (_ & d & th & sa & ->)]; reflexivity.
Qed.

Lemma recurrence_step_history alive s t :
  level1_trigger_history (recurrence_step alive s t)
  = keep_since (t - LEVEL1_FREQUENCY_WINDOW_SECONDS)
      (level1_trigger_history s).
Proof.
  destruct (recurrence_step_shape alive s t) as [-> | (_ & ->)];
    [|rewrite trigger_level2_history]; reflexivity.
Qed.

Lemma escalation_step_history alive s t h y b p pc e :
  level1_trigger_history (escalation_step alive s t h y b p pc e)
  = level1_trigger_history s.
Proof.
  destruct (escalation_step_shape alive s t h y b p pc e)
    as [-> | (_ & _ & _ & ->)]; [|rewrite trigger_level2_history];
    reflexivity.
Qed.

Lemma process_history_cases env s state t yawns perclos blink_rate m ear :
  let s' := process env s state t yawns perclos blink_rate m ear in
  let w := t - LEVEL1_FREQUENCY_WINDOW_SECONDS in
  (level1_trigger_history s' = level1_trigger_history s /\
   (level1_active s' = true -> level1_active s = true)) \/
  (level1_trigger_history s' = keep_since w (level1_trigger_history s) /\
   level1_active s' = level1_active s) \/
  (level1_active s = false /\ level1_active s' = true /\
   (level1_trigger_history s' = level1_trigger_history s ++ [t] \/
    level1_trigger_history s'
    = keep_since w (level1_trigger_history s ++ [t]))).
Proof.
  cbv zeta.
  destruct (microsleep_branch s m) eqn:M.
  - right. right. rewrite process_microsleep_branch by exact M.
    unfold microsleep_branch in M. apply andb_true_iff in M.
    destruct M as [_ A]. apply negb_true_iff in A.
    match goal with |- context [trigger_level1 ?a ?x t ?r ?p ?b ?k] =>
      destruct (trigger_level1_shape a x t r p b k)
        as [(X & _) | (_ & ys & d & th & sa & _ & ->)]
    end.
    + rewrite after_yawns_level1_active in X. congruence.
    + cbn [level1_active level1_trigger_history set_alert_thread
           set_stop_alert set_last_alert set_yawn_timestamps
           set_level1_trigger_history].
      rewrite after_yawns_history. repeat split; auto.
  - destruct (should_trigger_level1 s state t yawns perclos blink_rate) eqn:S.
    + rewrite process_trigger_branch by assumption.
      rewrite escalation_step_history, recurrence_step_history,
        escalation_step_level1_active, recurrence_step_level1_active.
      match goal with |- context [dwell_step ?a ?x t ?h ?y ?b ?p ?pc ?br] =>
        destruct (dwell_step_shape a x t h y b p pc br)
          as [-> | (A & _ & ->)]
      end.
      * right. left.
        destruct (start_dwell_frame (after_yawns s yawns t) t) as (v & ->).
        cbn [level1_trigger_history level1_active set_level1_start].
        now rewrite after_yawns_history, after_yawns_level1_active.
      * right. right. rewrite after_yawns_level1_active in A.
        destruct (start_dwell_frame (after_yawns s yawns t) t) as (v & ->).
        match goal with |- context [trigger_level1 ?a ?x t ?r ?p ?b ?k] =>
          destruct (trigger_level1_shape a x t r p b k)
            as [(X & _) | (_ & ys & d & th & sa & _ & ->)]
        end.
        -- change (level1_active (after_yawns s yawns t) = true) in X.
           rewrite after_yawns_level1_active in X. congruence.
        -- cbn [level1_active level1_trigger_history set_alert_thread
                set_stop_alert set_last_alert set_yawn_timestamps
                set_level1_trigger_history set_level1_start].
           rewrite after_yawns_history. repeat split; auto.
    + left. rewrite process_quiet_branch by assumption.
      destruct (quiet_step_cases (after_yawns s yawns t) state) as [-> | ->].
      * now rewrite after_yawns_history, after_yawns_level1_active.
      * destruct (reset_cases (after_yawns s yawns t))
          as [(_ & ->) | (_ & C & H & _)].
        -- now rewrite after_yawns_history, after_yawns_level1_active.
        -- rewrite H, after_yawns_history. split; [reflexivity|].
           destruct C as (_ & _ & C & _). congruence.
Qed.

(** X6. [level1_trigger_history] records activations and nothing else.
    After a call of [process] at time [t]: every entry was there before or
    is [t] itself, and [t] is new only when Level 1 turned on during the
    call; whenever Level 1 turns on, [t] is recorded; and no entry within
    the trailing LEVEL1_FREQUENCY_WINDOW_SECONDS is ever dropped. *)
Theorem history_records_activations (env : ThreadEnv) (s : AlertEngine)
    (state : string) (t : Q) (yawns : option (list Q))
    (perclos blink_rate : option Q) (m : option Z) (ear : option Q) :
  let s' := process env s state t yawns perclos blink_rate m ear in
  (forall ts, In ts (level1_trigger_history s') ->
     In ts (level1_trigger_history s) \/
     (ts = t /\ level1_active s = false /\ level1_active s' = true)) /\
  (level1_active s = false -> level1_active s' = true ->
   In t (level1_trigger_history s')) /\
  (forall ts, In ts (level1_trigger_history s) ->
     t - LEVEL1_FREQUENCY_WINDOW_SECONDS <= ts ->
     In ts (level1_trigger_history s')).
Proof.
  cbv zeta.
  destruct (process_history_cases env s state t yawns perclos blink_rate m ear)
    as [(H & A) | [(H & A) | (A & A' & [H | H])]]; rewrite H.
  - repeat split; auto. intros. rewrite A in *; auto; congruence.
  - repeat split.
    + intros ts I. apply keep_since_In in I. tauto.
    + congruence.
    + intros ts I W. apply keep_since_In. tauto.
  - repeat split.
    + intros ts I. apply in_app_or in I. destruct I as [I | [<- | []]]; auto.
    + intros. apply in_or_app. right. now left.
    + intros. apply in_or_app. now left.
  - repeat split.
    + intros ts I. apply keep_since_In in I. destruct I as [I _].
      apply in_app_or in I. destruct I as [I | [<- | []]]; auto.
    + intros. apply In_history_now.
    + intros ts I W. apply keep_since_In. split; [|exact W].
      apply in_or_app. now left.
Qed.

Lemma history_records_activations_witness :
  let s := run (init false) [plain "DROWSY" 0; plain "DROWSY" 3;
                             plain "ALERT" 4; plain "DROWSY" 400] in
  let s' := step s (plain "DROWSY" 403) in
  level1_trigger_history s = [] /\
  In 403 (level1_trigger_history s').
Proof.
  split; [reflexivity|].
  destruct (history_records_activations no_thread
              (run (init false) [plain "DROWSY" 0; plain "DROWSY" 3;
                                 plain "ALERT" 4; plain "DROWSY" 400])
              "DROWSY" 403 None None None (Some 0%Z) None) as (_ & F & _).
  apply F; reflexivity.
Defined.

(** ** The reason reported at a Level 1 activation *)

(** X7. The reason built when Level 1 fires after the dwell names one
    trigger exactly when that trigger is the only one active: it is
    "yawn frequency", "excessive blink rate" or "high PERCLOS" only for the
    yawn, blink-rate or PERCLOS trigger alone, it is "drowsiness symptoms"
    exactly when none of these three is active, it always ends in
    "drowsiness symptoms" when the drowsy state is among the triggers, and
    it is never "microsleep event" nor empty. *)
Theorem trigger_reason_names_single_trigger (y b p h : bool) :
  let r := trigger_reason y b p h in
  (r = "yawn frequency"%string
   <-> y = true /\ b = false /\ p = false /\ h = false) /\
  (r = "excessive blink rate"%string
   <-> y = false /\ b = true /\ p = false /\ h = false) /\
  (r = "high PERCLOS"%string
   <-> y = false /\ b = false /\ p = true /\ h = false) /\
  (r = "drowsiness symptoms"%string
   <-> y = false /\ b = false /\ p = false) /\
  (h = true -> exists pre, r = (pre ++ "drowsiness symptoms")%string) /\
  r <> "microsleep event"%string /\ r <> ""%string.
Proof.
  destruct y, b, p, h; cbv zeta; vm_compute trigger_reason;
    repeat split; try discriminate; try tauto;
    try (intros (? & ? & ? & ?); discriminate);
    try (intros (? & ? & ?); discriminate);
    intros _;
    first [ now exists ""%string
          | now exists "high PERCLOS + "%string
          | now exists "excessive blink rate + "%string
          | now exists "excessive blink rate + high PERCLOS + "%string
          | now exists "yawn frequency + "%string
          | now exists "yawn frequency + high PERCLOS + "%string
          | now exists "yawn frequency + excessive blink rate + "%string
          | now exists
              "yawn frequency + excessive blink rate + high PERCLOS + "%string ].
Qed.

Lemma trigger_reason_names_single_trigger_witness :
  exists pre,
    trigger_reason true false true true
    = (pre ++ "drowsiness symptoms")%string.
Proof.
  destruct (trigger_reason_names_single_trigger true false true true)
    as (_ & _ & _ & _ & H & _).
  apply H. reflexivity.
Defined.

(** ** The yawn queries *)

Lemma keep_since_all (c : Q) (l : list Q) :
  Forall (fun ts => c <= ts) l -> keep_since c l = l.
Proof.
  unfold keep_since. induction 1 as [|x l H F IH]; simpl; [reflexivity|].
  apply Qge_bool_true in H. now rewrite H, IH.
Qed.

Lemma set_yawn_timestamps_same (s : AlertEngine) :
  set_yawn_timestamps (yawn_timestamps s) s = s.
Proof. now destruct s. Qed.

Lemma get_yawn_frequency_fresh (s : AlertEngine) (t : Q) :
  Forall (fun ts => t - YAWN_ALERT_WINDOW_SECONDS <= ts) (yawn_timestamps s) ->
  get_yawn_frequency s t = (s, List.length (yawn_timestamps s)).
Proof.
  intros F. unfold get_yawn_frequency.
  cbn [yawn_timestamps set_yawn_timestamps].
  rewrite count_since_keep, count_since_length_keep.
  rewrite (keep_since_all _ _ F). now rewrite set_yawn_timestamps_same.
Qed.

Lemma after_yawns_fresh s yawns t :
  Forall (fun ts => t - YAWN_ALERT_WINDOW_SECONDS <= ts)
    (yawn_timestamps (after_yawns s yawns t)).
Proof.
  unfold after_yawns. rewrite check_yawn_trigger_eq.
  cbn [fst yawn_timestamps set_yawn_timestamps]. apply keep_since_Forall.
Qed.

Lemma trigger_level1_fresh alive s t r p b m :
  Forall (fun ts => t - YAWN_ALERT_WINDOW_SECONDS <= ts) (yawn_timestamps s) ->
  Forall (fun ts => t - YAWN_ALERT_WINDOW_SECONDS <= ts)
    (yawn_timestamps (trigger_level1 alive s t r p b m)).
Proof.
  intros F. destruct (trigger_level1_yawns alive s t r p b m) as [-> | ->];
    [exact F | apply keep_since_Forall].
Qed.

Lemma process_fresh env s state t yawns perclos blink_rate m ear :
  Forall (fun ts => t - YAWN_ALERT_WINDOW_SECONDS <= ts)
    (yawn_timestamps (process env s state t yawns perclos blink_rate m ear)).
Proof.
  pose proof (after_yawns_fresh s yawns t) as F.
  rewrite process_cases. cbv zeta.
  destruct (_ && _); [now apply trigger_level1_fresh|].
  destruct (_ || _)%bool.
  - rewrite escalation_step_yawns, recurrence_step_yawns.
    match goal with |- context [dwell_step ?a ?x t ?h ?y ?b ?p ?pc ?br] =>
      destruct (dwell_step_shape a x t h y b p pc br) as [-> | (_ & _ & ->)]
    end.
    + now destruct (start_dwell_frame (after_yawns s yawns t) t) as (v & ->).
    + apply trigger_level1_fresh.
      now destruct (start_dwell_frame (after_yawns s yawns t) t) as (v & ->).
  - destruct (quiet_step_cases (after_yawns s yawns t) state) as [-> | ->];
      [exact F|].
    destruct (reset_cases (after_yawns s yawns t))
      as [(_ & ->) | (_ & C & _)]; [exact F|].
    destruct C as (_ & _ & _ & _ & -> & _). constructor.
Qed.

(** X8. The display query that follows [process] is read-only.  After a
    call of [process] at time [t], every tracked yawn lies within the
    trailing YAWN_ALERT_WINDOW_SECONDS, so [get_yawn_frequency] at the same
    [t] leaves the engine as it is and returns the number of tracked yawns;
    the yawn trigger is that number exceeding YAWN_ALERT_THRESHOLD. *)
Theorem yawn_frequency_after_process_is_read_only (env : ThreadEnv)
    (s : AlertEngine) (state : string) (t : Q) (yawns : option (list Q))
    (perclos blink_rate : option Q) (m : option Z) (ear : option Q) :
  let s' := process env s state t yawns perclos blink_rate m ear in
  Forall (fun ts => t - YAWN_ALERT_WINDOW_SECONDS <= ts) (yawn_timestamps s') /\
  get_yawn_frequency s' t = (s', List.length (yawn_timestamps s')) /\
  _check_yawn_trigger s' t
  = (s', (YAWN_ALERT_THRESHOLD <? List.length (yawn_timestamps s'))%nat).
Proof.
  cbv zeta.
  pose proof (process_fresh env s state t yawns perclos blink_rate m ear) as F.
  split; [exact F|]. split; [now apply get_yawn_frequency_fresh|].
  rewrite check_yawn_trigger_eq, (keep_since_all _ _ F).
  now rewrite set_yawn_timestamps_same.
Qed.

(** X9. [_check_recent_yawns] answers whether some tracked yawn lies within
    the trailing YAWN_RECENT_WINDOW_SECONDS; it is false on an engine
    tracking no yawn, and a recent yawn is always counted by
    [get_yawn_frequency] at the same time. *)
Theorem recent_yawns_iff (s : AlertEngine) (t : Q) :
  (_check_recent_yawns s t = true <->
   exists ts, In ts (yawn_timestamps s) /\
              t - YAWN_RECENT_WINDOW_SECONDS <= ts) /\
  (yawn_timestamps s = [] -> _check_recent_yawns s t = false) /\
  (_check_recent_yawns s t = true ->
   (1 <= snd (get_yawn_frequency s t))%nat).
Proof.
  assert (E : _check_recent_yawns s t = true <->
              exists ts, In ts (yawn_timestamps s) /\
                         t - YAWN_RECENT_WINDOW_SECONDS <= ts).
  { unfold _check_recent_yawns.
    destruct (yawn_timestamps s) as [|y ys] eqn:Y.
    - split; [discriminate | intros (ts & [] & _)].
    - rewrite Nat.ltb_lt. split.
      + intros H.
        destruct (keep_since (t - YAWN_RECENT_WINDOW_SECONDS) (y :: ys))
          as [|x l] eqn:K; [simpl in H; lia|].
        exists x. apply keep_since_In. rewrite K. now left.
      + intros (ts & I & W).
        assert (I' : In ts (keep_since (t - YAWN_RECENT_WINDOW_SECONDS)
                              (y :: ys))) by (apply keep_since_In; tauto).
        destruct (keep_since _ _); [destruct I' | simpl; lia]. }
  split; [exact E|]. split.
  - intros Y. unfold _check_recent_yawns. now rewrite Y.
  - intros H. apply E in H. destruct H as (ts & I & W).
    unfold get_yawn_frequency. cbn [snd yawn_timestamps set_yawn_timestamps].
    rewrite count_since_keep, count_since_length_keep.
    assert (I' : In ts (keep_since (t - YAWN_ALERT_WINDOW_SECONDS)
                          (yawn_timestamps s))).
    { apply keep_since_In. split; [exact I|].
      unfold YAWN_ALERT_WINDOW_SECONDS, YAWN_RECENT_WINDOW_SECONDS in *. lra. }
    destruct (keep_since _ _); [destruct I' | simpl; lia].
Qed.

Lemma recent_yawns_iff_witness :
  let s := run (init false) [yawning 12 [10; 11]] in
  _check_recent_yawns s 31 = true /\
  _check_recent_yawns s 32 = false /\
  (1 <= snd (get_yawn_frequency s 31))%nat.
Proof.
  split; [reflexivity|]. split; [reflexivity|].
  destruct (recent_yawns_iff (run (init false) [yawning 12 [10; 11]]) 31)
    as (_ & _ & H).
  apply H. reflexivity.
Defined.

(** ** Elapsed time, resets, repeated triggers *)

(** X10. [get_level1_elapsed] is never negative: it is 0 while no Level 1
    activation is recorded, the time since [level1_triggered_at] from then
    on, and 0 again for a time before the activation. *)
Theorem level1_elapsed_clamped (s : AlertEngine) (now : Q) :
  0 <= get_level1_elapsed s now /\
  (level1_triggered_at s = None -> get_level1_elapsed s now == 0) /\
  (forall t1, level1_triggered_at s = Some t1 ->
     (t1 <= now -> get_level1_elapsed s now == now - t1) /\
     (now <= t1 -> get_level1_elapsed s now == 0)).
Proof.
  unfold get_level1_elapsed. destruct (level1_triggered_at s) as [t1|].
  - split; [apply Q.le_max_l|]. split; [discriminate|].
    intros t1' E. injection E as <-. split; intros H.
    + apply Q.max_r. lra.
    + apply Q.max_l. lra.
  - split; [apply Qle_refl|]. split; [reflexivity | discriminate].
Qed.

Lemma level1_elapsed_clamped_witness :
  let s := run (init false) [plain "DROWSY" 0; plain "DROWSY" 3] in
  get_level1_elapsed s 7 == 4 /\ get_level1_elapsed s 2 == 0.
Proof.
  destruct (level1_elapsed_clamped
              (run (init false) [plain "DROWSY" 0; plain "DROWSY" 3]) 7)
    as (_ & _ & H7).
  destruct (level1_elapsed_clamped
              (run (init false) [plain "DROWSY" 0; plain "DROWSY" 3]) 2)
    as (_ & _ & H2).
  split.
  - apply (H7 3); [reflexivity | vm_compute; discriminate].
  - apply (H2 3); [reflexivity | vm_compute; discriminate].
Defined.

(** X11. [manual_reset()] absorbs [reset()] and is idempotent: a reset
    before or after a manual reset, or a second manual reset, changes
    nothing more. *)
Theorem manual_reset_absorbs_reset (s : AlertEngine) :
  manual_reset (manual_reset s) = manual_reset s /\
  manual_reset (reset s) = manual_reset s /\
  reset (manual_reset s) = manual_reset s.
Proof.
  unfold manual_reset.
  assert (N : level1_start (reset s) = None).
  { destruct (reset_cases s) as [(Z0 & ->) | (_ & C & _)];
      [exact Z0 | apply C]. }
  assert (N' : level1_start (set_level2_triggered false (reset s)) = None)
    by exact N.
  rewrite (reset_None _ N), (reset_None _ N').
  split; [now destruct (reset s) | split; reflexivity].
Qed.

(** X12. A trigger does nothing while its level is active: calling
    [trigger_level1] (or [trigger_level2]) a second time, with any
    arguments, neither restamps [level1_triggered_at], nor adds a history
    entry, nor replaces the reason. *)
Theorem triggers_fire_once (a a' : bool) (s : AlertEngine) (t t' : Q)
    (r r' : string) (p p' b b' : option Q) (k k' : option Z) :
  trigger_level1 a' (trigger_level1 a s t r p b k) t' r' p' b' k'
  = trigger_level1 a s t r p b k /\
  trigger_level2 a' (trigger_level2 a s t r) t' r' = trigger_level2 a s t r.
Proof.
  split.
  - apply trigger_level1_idle.
    destruct (trigger_level1_shape a s t r p b k)
      as [(A & ->) | (_ & ys & d & th & sa & _ & ->)]; [exact A | reflexivity].
  - unfold trigger_level2 at 1. now rewrite trigger_level2_fires.
Qed.

(** ** The alert threads *)

(** X13. Handing over to the Level 2 alarm.  When [trigger_level2] fires
    while the previous alert thread is still alive, the engine is left with
    [stop_alert] set, so the condition of [_level2_alert_loop] is false
    although Level 2 is active; when no thread is alive the condition
    holds.  Either way [alert_thread] is the Level 2 loop. *)
Theorem level2_handoff_leaves_stop_flag (alive : bool) (s : AlertEngine)
    (t : Q) (r : string) :
  level2_active s = false ->
  let s' := trigger_level2 alive s t r in
  alert_thread s' = Some Level2Loop /\
  level2_loop_continues s'
  = negb (alive && match alert_thread s with Some _ => true | None => false end).
Proof.
  intros A s'. subst s'. unfold trigger_level2, level2_loop_continues.
  rewrite A. unfold start_level2_alerts.
  destruct (String.eqb r "frequent Level 1 alerts"); cbn;
    destruct (alert_thread s); destruct alive; split; reflexivity.
Qed.

Lemma level2_handoff_leaves_stop_flag_witness :
  let s := run (init false) [plain "DROWSY" 0; plain "DROWSY" 3] in
  level1_loop_continues s = true /\
  level2_loop_continues (trigger_level2 true s 13 "persistent symptoms")
  = false.
Proof.
  split; [reflexivity|].
  destruct (level2_handoff_leaves_stop_flag true
              (run (init false) [plain "DROWSY" 0; plain "DROWSY" 3])
              13 "persistent symptoms") as (_ & H).
  - reflexivity.
  - rewrite H. reflexivity.
Defined.

(** X14. Starting the Level 1 tone.  A call of [trigger_level1] that
    fires raises TypeError exactly for the reason "excessive blink rate"
    without a blink rate and for the reason "high PERCLOS" without a
    PERCLOS value.  When the call returns and no alert thread is alive,
    [stop_alert] is cleared and a Level 1 loop is stored, so the condition
    of [_level1_alert_loop] holds.  When it returns and a thread is still
    alive, neither [stop_alert] nor [alert_thread] is touched: a Level 1
    raised right after a [reset()], whose [stop_alert] is still set, has a
    false loop condition.  When the call raises, Level 1 is active with its
    time, history entry and reason recorded, but no tone is started:
    [stop_alert] and [alert_thread] are as before and
    [last_alert_details] is the empty dictionary.  After a [reset()] that
    acts, both loop conditions are false. *)
Theorem level1_tone_start (alive : bool) (s : AlertEngine) (t : Q)
    (r : string) (p b : option Q) (k : option Z) :
  level1_active s = false ->
  let s' := trigger_level1 alive s t r p b k in
  (trigger_level1_raises s r p b = true <->
   (r = "excessive blink rate"%string /\ b = None) \/
   (r = "high PERCLOS"%string /\ p = None)) /\
  (trigger_level1_raises s r p b = false ->
   (alive = false \/ alert_thread s = None ->
    alert_thread s' = Some Level1Loop /\ level1_loop_continues s' = true) /\
   (alive = true -> alert_thread s <> None ->
    alert_thread s' = alert_thread s /\ stop_alert s' = stop_alert s /\
    level1_loop_continues s' = negb (stop_alert s))) /\
  (trigger_level1_raises s r p b = true ->
   level1_active s' = true /\ level1_triggered_at s' = Some t /\
   level1_trigger_history s' = level1_trigger_history s ++ [t] /\
   last_alert_reason s' = Some r /\
   last_alert_details s' = Some DetailsEmpty /\
   alert_thread s' = alert_thread s /\ stop_alert s' = stop_alert s) /\
  (level1_start s' <> None ->
   level1_loop_continues (reset s') = false /\
   level2_loop_continues (reset s') = false).
Proof.
  intros A s'. subst s'. split.
  { rewrite trigger_level1_raises_spec. intuition. }
  unfold trigger_level1_raises, trigger_level1, level1_loop_continues,
    level2_loop_continues, start_level1_alerts, get_yawn_frequency, reset.
  rewrite A.
  destruct s as [ls lt l2t l1a l2a ys n hs lr ld au th sa]. cbn in A. subst.
  destruct (String.eqb_spec r "yawn frequency") as [-> | _];
    [| destruct (String.eqb_spec r "excessive blink rate") as [-> | _];
       [destruct b
       | destruct (String.eqb_spec r "high PERCLOS") as [-> | _];
         [destruct p | destruct (String.eqb r "microsleep event")]]];
    cbn; destruct th, alive, ls; cbn; repeat split; intros;
    repeat match goal with
           | H : _ \/ _ |- _ => destruct H
           end;
    try reflexivity; try congruence; try (now rewrite andb_true_r).
Qed.

Lemma level1_tone_start_witness :
  let s := run (init false) [plain "DROWSY" 0; plain "DROWSY" 3;
                             plain "ALERT" 4] in
  let s' := trigger_level1 true s (9 # 2) "microsleep event" None None
              (Some 1%Z) in
  stop_alert s = true /\ level1_active s' = true /\
  level1_loop_continues s' = false.
Proof.
  split; [reflexivity|]. split; [reflexivity|].
  destruct (level1_tone_start true
              (run (init false) [plain "DROWSY" 0; plain "DROWSY" 3;
                                 plain "ALERT" 4])
              (9 # 2) "microsleep event" None None (Some 1%Z))
    as (_ & H & _).
  - reflexivity.
  - destruct H as (_ & _ & _ & H).
    + reflexivity.
    + reflexivity.
    + vm_compute. discriminate.
    + rewrite H. reflexivity.
Defined.

(** ** Metrics below their thresholds *)

Lemma trigger_level1_unread_args a s t r p b k p' b' k' :
  String.eqb r "excessive blink rate" = false ->
  String.eqb r "high PERCLOS" = false ->
  String.eqb r "microsleep event" = false ->
  trigger_level1 a s t r p b k = trigger_level1 a s t r p' b' k'.
Proof. intros B P M. unfold trigger_level1. now rewrite B, P, M. Qed.

Lemma trigger_level1_display_args a s t (y h : bool) p b k p' b' k' :
  trigger_level1 a s t (trigger_reason y false false h) p b k
  = trigger_level1 a s t (trigger_reason y false false h) p' b' k'.
Proof.
  apply trigger_level1_unread_args; destruct y, h; vm_compute; reflexivity.
Qed.

(** X15. A metric on the safe side of its threshold counts as absent.  A
    call of [process] with PERCLOS below PERCLOS_LEVEL1_MIN, a blink rate
    below BLINK_RATE_LEVEL1_THRESHOLD, an EAR of at least
    EAR_CLOSED_THRESHOLD and a microsleep count of at most 0 leaves the
    engine exactly as the same call with all four arguments [None]. *)
Theorem safe_metrics_count_as_absent (env : ThreadEnv) (s : AlertEngine)
    (state : string) (t : Q) (yawns : option (list Q)) (p b e : Q) (n : Z) :
  p < PERCLOS_LEVEL1_MIN ->
  b < BLINK_RATE_LEVEL1_THRESHOLD ->
  EAR_CLOSED_THRESHOLD <= e ->
  (n <= 0)%Z ->
  process env s state t yawns (Some p) (Some b) (Some n) (Some e)
  = process env s state t yawns None None None None.
Proof.
  intros P B E N. rewrite !process_cases. cbv zeta.
  assert (Pt : _check_perclos_trigger (Some p) = false).
  { cbn. apply Qge_bool_false in P. unfold Qge_bool in P. now rewrite P. }
  assert (Bt : _check_blink_rate_trigger (Some b) = false)
    by (cbn; now apply Qge_bool_false).
  assert (Mt : _check_microsleep_trigger (Some n) = false)
    by (cbn; apply Z.ltb_ge; exact N).
  rewrite Pt, Bt, Mt.
  change (_check_perclos_trigger None) with false.
  change (_check_blink_rate_trigger None) with false.
  change (_check_microsleep_trigger None) with false.
  cbn [andb]. destruct (_ || _)%bool; [|reflexivity].
  assert (D : forall a x h y,
             dwell_step a x t h y false false (Some p) (Some b)
             = dwell_step a x t h y false false None None).
  { intros. unfold dwell_step. destruct (_ && _); [|reflexivity].
    apply trigger_level1_display_args. }
  rewrite D. unfold escalation_step.
  assert (Sh : forall x h y,
             should_escalate x h y false false (Some p) (Some e)
             = should_escalate x h y false false None None).
  { intros. unfold should_escalate.
    apply Qge_bool_false in P. rewrite P.
    assert (El : Qlt_bool e EAR_CLOSED_THRESHOLD = false).
    { unfold Qlt_bool. apply negb_false_iff. now apply Qle_bool_iff. }
    rewrite El. reflexivity. }
  now rewrite Sh.
Qed.

Lemma safe_metrics_count_as_absent_witness :
  let s := run (init false) [plain "DROWSY" 0; plain "DROWSY" 3] in
  process no_thread s "ALERT" 5 None (Some 12) (Some 18) (Some 0%Z)
    (Some (3 # 10))
  = process no_thread s "ALERT" 5 None None None None None.
Proof.
  apply (safe_metrics_count_as_absent no_thread
           (run (init false) [plain "DROWSY" 0; plain "DROWSY" 3])
           "ALERT" 5 None 12 18 (3 # 10) 0%Z).
  - reflexivity.
  - reflexivity.
  - vm_compute. discriminate.
  - lia.
Defined.

(** ** Invariants of the engines reached from [__init__] *)

Lemma consistent_frame (s s' : AlertEngine) :
  level1_active s' = level1_active s ->
  level1_triggered_at s' = level1_triggered_at s ->
  level2_active s' = level2_active s ->
  level2_triggered s' = level2_triggered s ->
  consistent s -> consistent s'.
Proof. unfold consistent. intros -> -> -> ->. auto. Qed.

Lemma consistent_trigger_level1 alive s t r p b k :
  consistent s -> consistent (trigger_level1 alive s t r p b k).
Proof.
  intros C. destruct (trigger_level1_shape alive s t r p b k)
    as [(_ & ->) | (_ & ys & d & th & sa & _ & ->)]; [exact C|].
  destruct C as (_ & C2). split; [|exact C2].
  cbn. split; [discriminate | reflexivity].
Qed.

Lemma consistent_trigger_level2 alive s t r :
  consistent s -> consistent (trigger_level2 alive s t r).
Proof.
  intros C. destruct (trigger_level2_shape alive s t r)
    as [(_ & ->) | (_ & d & th & sa & ->)]; [exact C|].
  destruct C as (C1 & _). split; [exact C1 | reflexivity].
Qed.

Lemma consistent_reset s : consistent s -> consistent (reset s).
Proof.
  intros C. destruct (reset_cases s) as [(_ & ->) | (_ & Cl & _)]; [exact C|].
  destruct Cl as (_ & T & A & L & _). unfold consistent.
  rewrite T, A, L. split; [split|]; congruence.
Qed.

Lemma consistent_process env s state t yawns perclos blink_rate m ear :
  consistent s ->
  consistent (process env s state t yawns perclos blink_rate m ear).
Proof.
  intros C.
  assert (C1 : consistent (after_yawns s yawns t)).
  { destruct (after_yawns_frame s yawns t) as (ys & n & ->).
    revert C. now apply consistent_frame. }
  rewrite process_cases. cbv zeta.
  destruct (_ && _); [now apply consistent_trigger_level1|].
  destruct (_ || _)%bool.
  - assert (C2 : consistent (start_dwell (after_yawns s yawns t) t)).
    { destruct (start_dwell_frame (after_yawns s yawns t) t) as (v & ->).
      revert C1. now apply consistent_frame. }
    match goal with |- context [dwell_step ?a ?x t ?h ?y ?b ?p ?pc ?br] =>
      assert (C3 : consistent (dwell_step a x t h y b p pc br))
        by (destruct (dwell_step_shape a x t h y b p pc br)
              as [-> | (_ & _ & ->)];
            [exact C2 | now apply consistent_trigger_level1]);
      generalize dependent (dwell_step a x t h y b p pc br)
    end.
    intros d C3.
    assert (C4 : consistent (recurrence_step (alive_at_level2 env) d t)).
    { destruct (recurrence_step_shape (alive_at_level2 env) d t)
        as [-> | (_ & ->)];
        [| apply consistent_trigger_level2];
        revert C3; now apply consistent_frame. }
    destruct (escalation_step_shape (alive_at_level2 env)
                (recurrence_step (alive_at_level2 env) d t) t
                (existsb (String.eqb state) DROWSY_STATES)
                (yawn_trigger_of s yawns t)
                (_check_blink_rate_trigger blink_rate)
                (_check_perclos_trigger perclos) perclos ear)
      as [-> | (_ & _ & _ & ->)];
      [exact C4 | now apply consistent_trigger_level2].
  - destruct (quiet_step_cases (after_yawns s yawns t) state) as [-> | ->];
      [exact C1 | now apply consistent_reset].
Qed.

Lemma audio_process env s state t yawns perclos blink_rate m ear :
  audio_enabled (process env s state t yawns perclos blink_rate m ear)
  = audio_enabled s.
Proof.
  assert (T1 : forall a x r p b k,
             audio_enabled (trigger_level1 a x t r p b k) = audio_enabled x).
  { intros. destruct (trigger_level1_shape a x t r p b k)
      as [(_ & ->) | (_ & ys & d & th & sa & _ & ->)]; reflexivity. }
  assert (T2 : forall a x r,
             audio_enabled (trigger_level2 a x t r) = audio_enabled x).
  { intros. destruct (trigger_level2_shape a x t r)
      as [(_ & ->) | (_ & d & th & sa & ->)]; reflexivity. }
  assert (A0 : audio_enabled (after_yawns s yawns t) = audio_enabled s)
    by (destruct (after_yawns_frame s yawns t) as (ys & n & ->); reflexivity).
  rewrite process_cases. cbv zeta.
  destruct (_ && _); [now rewrite T1|].
  destruct (_ || _)%bool.
  - match goal with |- context [escalation_step ?a ?x t ?h ?y ?b ?p ?pc ?e] =>
      destruct (escalation_step_shape a x t h y b p pc e)
        as [-> | (_ & _ & _ & ->)]
    end; rewrite ?T2;
    match goal with |- context [recurrence_step ?a ?x t] =>
      destruct (recurrence_step_shape a x t) as [-> | (_ & ->)]
    end; rewrite ?T2; cbn [audio_enabled set_level1_trigger_history];
    match goal with |- context [dwell_step ?a ?x t ?h ?y ?b ?p ?pc ?br] =>
      destruct (dwell_step_shape a x t h y b p pc br) as [-> | (_ & _ & ->)]
    end; rewrite ?T1;
    destruct (start_dwell_frame (after_yawns s yawns t) t) as (v & ->);
    exact A0.
  - destruct (quiet_step_cases (after_yawns s yawns t) state) as [-> | ->];
      [exact A0|].
    unfold reset. destruct (level1_start _); exact A0.
Qed.

Lemma ingest_yawns_In (l : list Q) :
  forall s ts, In ts (yawn_timestamps (ingest_yawns s l)) ->
               In ts (yawn_timestamps s) \/ In ts l.
Proof.
  induction l as [|y l IH]; intros s ts I; simpl in *; [now left|].
  apply IH in I. destruct I as [I | I]; [|now right; right].
  destruct (negb (Qmem y (yawn_timestamps s))); [|now left].
  assert (J : In ts (yawn_timestamps s ++ [y])).
  { destruct (level1_triggered_at _); [destruct (Qge_bool _ _)|]; exact I. }
  apply in_app_or in J. destruct J as [J | [<- | []]]; auto.
Qed.

Lemma process_yawns_from env s state t yawns perclos blink_rate m ear ts :
  In ts (yawn_timestamps
           (process env s state t yawns perclos blink_rate m ear)) ->
  In ts (yawn_timestamps s) \/ exists l, yawns = Some l /\ In ts l.
Proof.
  assert (A0 : forall x, In x (yawn_timestamps (after_yawns s yawns t)) ->
                 In x (yawn_timestamps s) \/
                 exists l, yawns = Some l /\ In x l).
  { intros x I. unfold after_yawns in I. rewrite check_yawn_trigger_eq in I.
    cbn [fst yawn_timestamps set_yawn_timestamps] in I.
    apply keep_since_In in I. destruct I as [I _].
    destruct yawns as [l|]; [|now left]. cbn in I.
    apply ingest_yawns_In in I. destruct I; [now left | right; eauto]. }
  assert (T1 : forall a x r p b k y,
             In y (yawn_timestamps (trigger_level1 a x t r p b k)) ->
             In y (yawn_timestamps x)).
  { intros a x r p b k y I.
    destruct (trigger_level1_yawns a x t r p b k) as [E | E];
      rewrite E in I; [exact I | now apply keep_since_In in I]. }
  rewrite process_cases. cbv zeta.
  destruct (_ && _); [intros I; apply T1 in I; auto|].
  destruct (_ || _)%bool.
  - rewrite escalation_step_yawns, recurrence_step_yawns.
    match goal with |- context [dwell_step ?a ?x t ?h ?y ?b ?p ?pc ?br] =>
      destruct (dwell_step_shape a x t h y b p pc br) as [-> | (_ & _ & ->)]
    end; intros I; [|apply T1 in I];
    destruct (start_dwell_frame (after_yawns s yawns t) t) as (v & E);
    rewrite E in I; auto.
  - destruct (quiet_step_cases (after_yawns s yawns t) state) as [-> | ->];
      [auto|].
    destruct (reset_cases (after_yawns s yawns t))
      as [(_ & ->) | (_ & C & _)]; [auto|].
    destruct C as (_ & _ & _ & _ & -> & _). intros [].
Qed.

(** X16. Invariants of every engine reached from a fresh one by calls of
    [process]: Level 1 is active exactly when [level1_triggered_at] is set;
    an active Level 2 has [level2_triggered] set; [audio_enabled] keeps the
    value given at construction; every entry of [level1_trigger_history] is
    the timestamp of one of the calls; and every tracked yawn was supplied
    in the [yawn_timestamps] argument of one of the calls. *)
Theorem reachable_engine_invariants (audio : bool) (fs : list Frame) :
  let s := run (init audio) fs in
  consistent s /\
  audio_enabled s = audio /\
  (forall ts, In ts (level1_trigger_history s) ->
     exists f, In f fs /\ ts = f_timestamp f) /\
  (forall ts, In ts (yawn_timestamps s) ->
     exists f l, In f fs /\ f_yawns f = Some l /\ In ts l).
Proof.
  cbv zeta. induction fs as [|f fs IH] using rev_ind.
  - split; [|split; [reflexivity | split; intros ts []]].
    split; [split; [discriminate | intros N; now elim N] | discriminate].
  - rewrite run_app. change (run (run (init audio) fs) [f])
      with (step (run (init audio) fs) f).
    destruct IH as (C & A & H & Y). unfold step.
    split; [apply consistent_process, C|].
    split; [now rewrite audio_process|]. split.
    + intros ts I.
      destruct (process_history_cases (f_env f) (run (init audio) fs)
                  (f_state f) (f_timestamp f) (f_yawns f) (f_perclos f)
                  (f_blink_rate f) (f_microsleep_count f) (f_ear f))
        as [(E & _) | [(E & _) | (_ & _ & [E | E])]]; rewrite E in I.
      * destruct (H ts I) as (g & G & ->). exists g.
        split; [apply in_or_app; now left | reflexivity].
      * apply keep_since_In in I. destruct (H ts (proj1 I)) as (g & G & ->).
        exists g. split; [apply in_or_app; now left | reflexivity].
      * apply in_app_or in I. destruct I as [I | [<- | []]].
        -- destruct (H ts I) as (g & G & ->). exists g.
           split; [apply in_or_app; now left | reflexivity].
        -- exists f. split; [apply in_or_app; right; now left | reflexivity].
      * apply keep_since_In in I. destruct I as [I _].
        apply in_app_or in I. destruct I as [I | [<- | []]].
        -- destruct (H ts I) as (g & G & ->). exists g.
           split; [apply in_or_app; now left | reflexivity].
        -- exists f. split; [apply in_or_app; right; now left | reflexivity].
    + intros ts I. apply process_yawns_from in I.
      destruct I as [I | (l & E & I)].
      * destruct (Y ts I) as (g & l & G & E & J). exists g, l.
        repeat split; auto. apply in_or_app. now left.
      * exists f, l. repeat split; auto. apply in_or_app. right. now left.
Qed.

Lemma reachable_engine_invariants_witness :
  let s := run (init true) third_by_microsleep in
  level1_trigger_history s = [3; 103; 200] /\
  audio_enabled s = true /\
  exists f, In f third_by_microsleep /\ 200 = f_timestamp f.
Proof.
  split; [reflexivity|].
  destruct (reachable_engine_invariants true third_by_microsleep)
    as (_ & A & H & _).
  split; [exact A|]. apply H. vm_compute. auto.
Defined.

(** ** Where Level 2 comes from *)

Lemma recurrence_step_fired alive s t :
  level2_active s = false ->
  level2_active (recurrence_step alive s t) = true ->
  (LEVEL1_FREQUENCY_THRESHOLD
   <= List.length (level1_trigger_history (recurrence_step alive s t)))%nat /\
  last_alert_reason (recurrence_step alive s t)
  = Some "frequent Level 1 alerts"%string.
Proof.
  intros A F. rewrite recurrence_step_history.
  unfold recurrence_step in *. rewrite check_frequent_eq in *.
  cbn [fst snd level2_active set_level1_trigger_history] in *.
  rewrite A in *. cbn [negb] in *. rewrite andb_true_r in *.
  destruct (_ <=? _)%nat eqn:C.
  - split; [now apply Nat.leb_le in C|].
    now apply trigger_level2_reason.
  - cbn in F. congruence.
Qed.

Lemma recurrence_step_triggered_at alive s t :
  level1_triggered_at (recurrence_step alive s t) = level1_triggered_at s.
Proof.
  destruct (recurrence_step_shape alive s t) as [-> | (_ & ->)];
    [reflexivity|].
  match goal with |- context [trigger_level2 ?a ?x t ?r] =>
    destruct (trigger_level2_shape a x t r)
      as [(_ & ->) | (_ & d & th & sa & ->)]
  end; reflexivity.
Qed.

Lemma dwell_step_kinds alive s t h y b p pc br :
  let d := dwell_step alive s t h y b p pc br in
  (level1_active d = level1_active s /\
   level1_triggered_at d = level1_triggered_at s) \/
  (level1_active s = false /\ level1_triggered_at d = Some t).
Proof.
  cbv zeta.
  destruct (dwell_step_shape alive s t h y b p pc br) as [-> | (A & _ & ->)].
  - left. now destruct (start_dwell_frame s t) as (v & ->).
  - right. split; [exact A|].
    destruct (start_dwell_frame s t) as (v & ->).
    apply trigger_level1_fires. exact A.
Qed.

(** X17. Level 2 has two sources only.  If Level 2 is not active before a
    call of [process] and is active after it, then either the recurrence
    check fired -- the pruned [level1_trigger_history] holds at least
    LEVEL1_FREQUENCY_THRESHOLD entries and the reason is
    "frequent Level 1 alerts" -- or Level 1 was already active, for at
    least LEVEL2_DURATION_SECONDS at the call's timestamp, and the reason
    is "persistent symptoms".  In both cases some trigger is active on the
    frame and the "ever triggered" flag is set. *)
Theorem level2_has_two_sources (env : ThreadEnv) (s : AlertEngine)
    (state : string) (t : Q) (yawns : option (list Q))
    (perclos blink_rate : option Q) (m : option Z) (ear : option Q) :
  level2_active s = false ->
  let s' := process env s state t yawns perclos blink_rate m ear in
  level2_active s' = true ->
  should_trigger_level1 s state t yawns perclos blink_rate = true /\
  level2_triggered s' = true /\
  (((LEVEL1_FREQUENCY_THRESHOLD
     <= List.length (level1_trigger_history s'))%nat /\
    last_alert_reason s' = Some "frequent Level 1 alerts"%string) \/
   (level1_active s = true /\
    (exists t1, level1_triggered_at s = Some t1 /\
                LEVEL2_DURATION_SECONDS <= t - t1) /\
    last_alert_reason s' = Some "persistent symptoms"%string)).
Proof.
  intros A s'. subst s'.
  assert (A1 : level2_active (after_yawns s yawns t) = false)
    by now rewrite after_yawns_level2_active.
  destruct (microsleep_branch s m) eqn:M.
  { rewrite process_microsleep_branch by exact M.
    rewrite trigger_level1_level2_active. congruence. }
  destruct (should_trigger_level1 s state t yawns perclos blink_rate) eqn:S.
  2:{ rewrite process_quiet_branch by assumption.
      rewrite (quiet_step_level2_off _ _ A1). discriminate. }
  rewrite process_trigger_branch by assumption.
  match goal with |- context [dwell_step ?a ?x t ?h ?y ?b ?p ?pc ?br] =>
    pose proof (dwell_step_kinds a x t h y b p pc br) as K;
    pose proof (dwell_step_level2_active a x t h y b p pc br) as Ad;
    cbv zeta in K;
    generalize dependent (dwell_step a x t h y b p pc br)
  end.
  intros d K Ad. rewrite A1 in Ad.
  rewrite after_yawns_level1_active, after_yawns_triggered_at in K.
  pose proof (recurrence_step_triggered_at (alive_at_level2 env) d t) as Tr.
  pose proof (recurrence_step_level1_active (alive_at_level2 env) d t) as Ar.
  pose proof (recurrence_step_fired (alive_at_level2 env) d t Ad) as Fr.
  assert (Gr : level2_active (recurrence_step (alive_at_level2 env) d t) = true
               -> level2_triggered
                    (recurrence_step (alive_at_level2 env) d t) = true).
  { destruct (recurrence_step_shape (alive_at_level2 env) d t)
      as [-> | (_ & ->)].
    - cbn. congruence.
    - intros _. now apply trigger_level2_sets_triggered. }
  generalize dependent (recurrence_step (alive_at_level2 env) d t).
  intros r Tr Ar Fr Gr F. split; [reflexivity|].
  destruct (level2_active r) eqn:R.
  - rewrite (escalation_step_level2_on _ r) in * by exact R.
    split; [now apply Gr | left; now apply Fr].
  - match type of F with
    | context [escalation_step ?a r t ?h ?y ?b ?p ?pc ?e] =>
        destruct (escalation_step_shape a r t h y b p pc e)
          as [E | (_ & Ae & (t1 & T & D) & E)]; rewrite E in *
    end; [congruence|].
    split; [now apply trigger_level2_sets_triggered|]. right.
    rewrite Tr in T. rewrite Ar in Ae.
    destruct K as [(Ka & Kt) | (_ & Kt)].
    + rewrite Ka in Ae. rewrite Kt in T.
      repeat split; eauto. now apply trigger_level2_reason.
    + exfalso. rewrite Kt in T. injection T as <-.
      unfold LEVEL2_DURATION_SECONDS in D. lra.
Qed.

Lemma level2_has_two_sources_witness :
  let s := run (init false) [plain "DROWSY" 0; plain "DROWSY" 3] in
  let s' := process level1_tone_running s "DROWSY" 13 None None None
              (Some 0%Z) None in
  level2_triggered s' = true /\
  (List.length (level1_trigger_history s') < LEVEL1_FREQUENCY_THRESHOLD)%nat /\
  last_alert_reason s' = Some "persistent symptoms"%string.
Proof.
  destruct (level2_has_two_sources level1_tone_running
              (run (init false) [plain "DROWSY" 0; plain "DROWSY" 3])
              "DROWSY" 13 None None None (Some 0%Z) None)
    as (_ & G & [(C & _) | (_ & _ & R)]).
  - reflexivity.
  - reflexivity.
  - exfalso. vm_compute in C. lia.
  - split; [exact G|]. split; [vm_compute; lia | exact R].
Defined.

(** ** The counter of yawns since Level 1 *)

Lemma ingest_yawns_added (l : list Q) :
  forall s, exists added,
    yawn_timestamps (ingest_yawns s l) = yawn_timestamps s ++ added /\
    yawns_since_level1 (ingest_yawns s l)
    = (yawns_since_level1 s
       + match level1_triggered_at s with
         | Some t1 => count_since t1 added
         | None => 0
         end)%nat /\
    (forall x, In x added -> In x l /\ Qmem x (yawn_timestamps s) = false) /\
    level1_triggered_at (ingest_yawns s l) = level1_triggered_at s.
Proof.
  induction l as [|y l IH]; intros s.
  - exists []. cbn. rewrite app_nil_r.
    split; [reflexivity|]. split; [destruct (level1_triggered_at s); cbn; lia|].
    split; [intros x []|reflexivity].
  - cbn [ingest_yawns]. destruct (Qmem y (yawn_timestamps s)) eqn:M;
      cbn [negb].
    + destruct (IH s) as (added & Y & C & I & T). exists added.
      split; [exact Y|]. split; [exact C|]. split; [|exact T].
      intros x Hx. apply I in Hx. split; [right|]; tauto.
    + match goal with |- context [ingest_yawns ?u l] =>
        destruct (IH u) as (added & Y & C & I & T);
        assert (U : yawn_timestamps u = yawn_timestamps s ++ [y] /\
                    level1_triggered_at u = level1_triggered_at s /\
                    yawns_since_level1 u
                    = (yawns_since_level1 s
                       + match level1_triggered_at s with
                         | Some t1 => count_since t1 [y]
                         | None => 0
                         end)%nat)
      end.
      { cbn. destruct (level1_triggered_at s) as [t1|] eqn:T1; cbn.
        - unfold count_since. cbn.
          destruct (Qge_bool y t1); cbn; rewrite ?T1;
            (split; [reflexivity|]; split; [reflexivity|]; lia).
        - rewrite T1. split; [reflexivity|]. split; [reflexivity|]. lia. }
      destruct U as (U1 & U2 & U3).
      exists (y :: added). rewrite Y, C, T, U1, U2, U3, <- app_assoc.
      split; [reflexivity|]. split; [|split; [|reflexivity]].
      * destruct (level1_triggered_at s) as [t1|]; [|lia].
        change (y :: added) with ([y] ++ added).
        rewrite count_since_app. lia.
      * intros x Hx. destruct Hx as [<- | Hx].
        -- split; [now left | exact M].
        -- apply I in Hx. destruct Hx as (Hl & Hm). split; [now right|].
           rewrite U1 in Hm. unfold Qmem in *.
           rewrite existsb_app in Hm. now apply orb_false_iff in Hm.
Qed.

Lemma filter_comm (f g : Q -> bool) (l : list Q) :
  filter f (filter g l) = filter g (filter f l).
Proof.
  induction l as [|x l IH]; [reflexivity|]. cbn.
  destruct (g x) eqn:G, (f x) eqn:F; cbn; rewrite ?G, ?F, IH; reflexivity.
Qed.

Lemma filter_twice (f : Q -> bool) (l : list Q) :
  filter f (filter f l) = filter f l.
Proof.
  induction l as [|x l IH]; [reflexivity|]. cbn.
  destruct (f x) eqn:F; cbn; rewrite ?F, IH; reflexivity.
Qed.

Lemma Qeq_bool_congr (x y z : Q) :
  Qeq_bool z y = true -> Qeq_bool x z = Qeq_bool x y.
Proof.
  intros E. apply Qeq_bool_iff in E.
  destruct (Qeq_bool x z) eqn:A, (Qeq_bool x y) eqn:B; try reflexivity.
  - apply Qeq_bool_iff in A. apply Qeq_bool_neq in B. exfalso. apply B.
    now rewrite A.
  - apply Qeq_bool_iff in B. apply Qeq_bool_neq in A. exfalso. apply A.
    now rewrite B.
Qed.

Lemma first_occurrences_filter (y : Q) (l : list Q) :
  filter (fun x => negb (Qeq_bool x y)) (first_occurrences l)
  = first_occurrences (filter (fun x => negb (Qeq_bool x y)) l).
Proof.
  induction l as [|z l IH]; [reflexivity|].
  cbn [first_occurrences filter].
  destruct (Qeq_bool z y) eqn:E; cbn [negb].
  - rewrite <- IH.
    rewrite (filter_ext (fun x => negb (Qeq_bool x z))
               (fun x => negb (Qeq_bool x y)))
      by (intros x; now rewrite (Qeq_bool_congr x y z E)).
    apply filter_twice.
  - cbn [first_occurrences]. rewrite <- IH. f_equal. apply filter_comm.
Qed.

Lemma Qmem_snoc (x y : Q) (l : list Q) :
  Qmem x (l ++ [y]) = Qmem x l || Qeq_bool x y.
Proof. unfold Qmem. rewrite existsb_app. cbn. now rewrite orb_false_r. Qed.

Lemma untracked_of_tracked (tracked l : list Q) (y : Q) :
  Qmem y tracked = true ->
  untracked_of tracked (y :: l) = untracked_of tracked l.
Proof. intros M. unfold untracked_of. cbn [filter]. now rewrite M. Qed.

Lemma untracked_of_new (tracked l : list Q) (y : Q) :
  Qmem y tracked = false ->
  untracked_of tracked (y :: l) = y :: untracked_of (tracked ++ [y]) l.
Proof.
  intros M. unfold untracked_of. cbn [filter]. rewrite M.
  cbn [negb first_occurrences]. f_equal.
  rewrite first_occurrences_filter. f_equal.
  rewrite (filter_ext (fun x => negb (Qmem x (tracked ++ [y])))
             (fun x => negb (Qmem x tracked) && negb (Qeq_bool x y)))
    by (intros x; now rewrite Qmem_snoc, negb_orb).
  induction l as [|x l IH]; [reflexivity|]. cbn [filter].
  destruct (negb (Qmem x tracked)); cbn [andb filter];
    [destruct (negb (Qeq_bool x y))|]; now rewrite IH.
Qed.

Lemma ingest_yawns_untracked (l : list Q) :
  forall s, yawn_timestamps (ingest_yawns s l)
            = yawn_timestamps s ++ untracked_of (yawn_timestamps s) l.
Proof.
  induction l as [|y l IH]; intros s.
  - cbn. now rewrite app_nil_r.
  - cbn [ingest_yawns]. destruct (Qmem y (yawn_timestamps s)) eqn:M;
      cbn [negb].
    + now rewrite IH, untracked_of_tracked.
    + rewrite IH, (untracked_of_new _ _ _ M).
      assert (U : forall u : AlertEngine,
                 yawn_timestamps
                   match level1_triggered_at u with
                   | Some t1 =>
                       if Qge_bool y t1
                       then set_yawns_since_level1 (S (yawns_since_level1 u)) u
                       else u
                   | None => u
                   end = yawn_timestamps u).
      { intros u. destruct (level1_triggered_at u);
          [destruct (Qge_bool _ _)|]; reflexivity. }
      rewrite U. cbn [yawn_timestamps set_yawn_timestamps].
      now rewrite <- app_assoc.
Qed.

Lemma first_occurrences_mem (x : Q) (l : list Q) :
  In x l -> Qmem x (first_occurrences l) = true.
Proof.
  induction l as [|z l IH]; intros I; [destruct I|].
  cbn [first_occurrences]. unfold Qmem. cbn [existsb].
  destruct (Qeq_bool x z) eqn:E; [reflexivity|]. cbn [orb].
  destruct I as [<- | I].
  - apply Qeq_bool_neq in E. exfalso. apply E. reflexivity.
  - apply IH in I. unfold Qmem in I. apply existsb_exists in I.
    destruct I as (w & Iw & Ew). apply existsb_exists. exists w.
    split; [|exact Ew]. apply filter_In. split; [exact Iw|].
    apply negb_true_iff.
    destruct (Qeq_bool w z) eqn:F; [|reflexivity].
    rewrite <- (Qeq_bool_congr x z w F), Ew in E. discriminate.
Qed.

(** X18. What yawn ingestion adds.  Ingesting a [yawn_timestamps] argument
    [l] appends to the tracked list exactly the yawns of [l] that were not
    tracked, each once, in the order of their first occurrence in [l]
    ([untracked_of]): every appended yawn is an untracked yawn of [l], and
    every yawn of [l] is tracked afterwards.  [yawns_since_level1] rises
    by the number of appended yawns that are not earlier than
    [level1_triggered_at]; while no Level 1 activation is recorded the
    counter does not move. *)
Theorem yawns_since_level1_counts_new_yawns (s : AlertEngine) (l : list Q) :
  let added := untracked_of (yawn_timestamps s) l in
  yawn_timestamps (update_yawns s (Some l)) = yawn_timestamps s ++ added /\
  (forall x, In x added -> In x l /\ Qmem x (yawn_timestamps s) = false) /\
  (forall x, In x l ->
             Qmem x (yawn_timestamps (update_yawns s (Some l))) = true) /\
  yawns_since_level1 (update_yawns s (Some l))
  = (yawns_since_level1 s
     + match level1_triggered_at s with
       | Some t1 => count_since t1 added
       | None => 0
       end)%nat /\
  (level1_triggered_at s = None ->
   yawns_since_level1 (update_yawns s (Some l)) = yawns_since_level1 s).
Proof.
  intros added. subst added.
  destruct (ingest_yawns_added l s) as (added & Y & C & I & _).
  rewrite ingest_yawns_untracked in Y. apply app_inv_head in Y. subst added.
  cbn [update_yawns].
  split; [apply ingest_yawns_untracked|]. split; [exact I|].
  split; [|split; [exact C|]].
  - intros x Hx. rewrite ingest_yawns_untracked.
    unfold Qmem. rewrite existsb_app.
    destruct (existsb (Qeq_bool x) (yawn_timestamps s)) eqn:M;
      [reflexivity|]. cbn [orb].
    apply first_occurrences_mem, filter_In. split; [exact Hx|].
    unfold Qmem. now rewrite M.
  - intros N. rewrite C, N. lia.
Qed.

Lemma yawns_since_level1_counts_new_yawns_witness :
  let s := run (init false) [yawning 2 [1]; plain "DROWSY" 2;
                             plain "DROWSY" 5] in
  level1_triggered_at s = Some 5 /\
  yawn_timestamps s = [1] /\
  untracked_of (yawn_timestamps s) [1; 7; 4; 6; 6; 7] = [7; 4; 6] /\
  yawn_timestamps (update_yawns s (Some [1; 7; 4; 6; 6; 7]))
  = [1; 7; 4; 6] /\
  yawns_since_level1 (update_yawns s (Some [1; 7; 4; 6; 6; 7])) = 2%nat.
Proof.
  destruct (yawns_since_level1_counts_new_yawns
              (run (init false) [yawning 2 [1]; plain "DROWSY" 2;
                                 plain "DROWSY" 5])
              [1; 7; 4; 6; 6; 7]) as (Y & _ & _ & C & _).
  cbv zeta. rewrite Y, C.
  split; [reflexivity|]. split; [reflexivity|]. split; [reflexivity|].
  split; reflexivity.
Defined.

(** * modular/main.py: the alert part of the frame loop *)

Module MainFacts.
Import Main.

Lemma yawn_frequency_after (env : ThreadEnv) (s : AlertEngine) (state : string)
    (t : Q) (yawns : option (list Q)) (p b : option Q) (m : option Z)
    (e : option Q) :
  get_yawn_frequency (process env s state t yawns p b m e) t
  = (process env s state t yawns p b m e,
     List.length (yawn_timestamps (process env s state t yawns p b m e))).
Proof. apply get_yawn_frequency_fresh, process_fresh. Qed.

Lemma frame_no_face (alerter : AlertEngine) (loc : Locals) (c : Capture) :
  face_landmarks c = false ->
  frame alerter loc c
  = finish (process (c_env c) alerter "NO_FACE" (c_now c) (Some []) None None
              (Some 0%Z) None) loc (c_now c) 0%nat.
Proof.
  intros F. unfold frame, finish. rewrite F. cbn. now destruct loc.
Qed.

Lemma frame_stale (alerter : AlertEngine) (loc : Locals) (c : Capture)
    (n : Z) (ys : list Q) :
  face_landmarks c = true -> c_ear c = None ->
  micro_count loc = Some n -> recent_yawn_timestamps loc = Some ys ->
  let a' := process (c_env c) alerter "NO_FACE" (c_now c) (Some ys) (Some 0)
              (Some 0) (Some n) None in
  frame alerter loc c
  = finish a' loc (c_now c) (List.length (yawn_timestamps a')).
Proof.
  intros F E M R a'. subst a'. unfold frame, finish. rewrite F, E, M, R.
  cbv iota beta zeta. rewrite yawn_frequency_after. cbn [fst snd andb].
  destruct loc; cbn in *; subst; reflexivity.
Qed.

Lemma frame_measured (alerter : AlertEngine) (loc : Locals) (c : Capture)
    (e : Q) :
  face_landmarks c = true -> c_ear c = Some e ->
  let an := c_analysis c in
  let a' := process (c_env c) alerter (a_state an) (c_now c)
              (Some (a_recent_yawn_timestamps an)) (Some (a_perclos an))
              (Some (a_blink_rate an)) (Some (a_micro_count an)) (Some e) in
  frame alerter loc c
  = finish a'
      (mkLocals (Some (a_micro_count an))
         (Some (a_recent_yawn_timestamps an)) (prev_alert_level loc)
         (alert_count loc) (session_scores loc ++ [a_score an])
         (if Qlt_bool (max_score loc) (a_score an)
          then a_score an else max_score loc))
      (c_now c) (List.length (yawn_timestamps a')).
Proof.
  intros F E an a'. subst an a'. unfold frame, finish. rewrite F, E.
  cbv iota beta zeta. rewrite yawn_frequency_after. reflexivity.
Qed.

Lemma get_alert_level_le2 (s : AlertEngine) : (get_alert_level s <= 2)%nat.
Proof.
  unfold get_alert_level.
  destruct (level2_active s), (level1_active s); lia.
Qed.

Lemma log_level_change_spec (a : AlertEngine) (now : Q) (level : nat)
    (loc : Locals) :
  (level <= 2)%nat ->
  let r := log_level_change a now level loc in
  prev_alert_level (fst r) = level /\
  alert_count (fst r)
  = (alert_count loc + if (prev_alert_level loc <? level)%nat then 1 else 0)%nat /\
  micro_count (fst r) = micro_count loc /\
  recent_yawn_timestamps (fst r) = recent_yawn_timestamps loc /\
  snd r
  = (if (level =? prev_alert_level loc)%nat then []
     else if (level =? 1)%nat then
       if (prev_alert_level loc =? 0)%nat
       then [log_alert "LEVEL1" now (last_alert_reason a)
               (last_alert_details a)]
       else []
     else if (level =? 2)%nat then
       [log_alert "LEVEL2" now (last_alert_reason a) (last_alert_details a);
        send_emergency now]
     else []).
Proof.
  intros L. unfold log_level_change, get_last_alert_info. cbn [fst snd].
  destruct level as [|[|[|k]]]; [| | |lia];
    destruct (prev_alert_level loc) as [|[|[|q]]] eqn:P; cbn;
    rewrite ?Nat.add_0_r, ?Nat.add_1_r; repeat split; auto.
Qed.

(** X19. The level-change log of the frame loop.  Whenever an iteration
    completes, [prev_alert_level] ends as the level read from the engine,
    [alert_count] grows by one exactly when that level is above the
    previous one, "LEVEL1" is logged only on a change from 0 to 1, and
    "LEVEL2" is logged, followed by [send_emergency], on every change to
    level 2; a fall of the level is not logged.  The logged reason and
    details are the engine's last alert info. *)
Theorem level_changes_are_logged_once (alerter : AlertEngine) (loc : Locals)
    (c : Capture) (a' : AlertEngine) (loc' : Locals)
    (calls : list cloud_call) (ov : Overlay) :
  frame alerter loc c = Next a' loc' calls ov ->
  let level := get_alert_level a' in
  let prev := prev_alert_level loc in
  o_alert_level ov = level /\
  prev_alert_level loc' = level /\
  alert_count loc'
  = (alert_count loc + if (prev <? level)%nat then 1 else 0)%nat /\
  calls
  = (if (level =? prev)%nat then []
     else if (level =? 1)%nat then
       if (prev =? 0)%nat
       then [log_alert "LEVEL1" (c_now c) (last_alert_reason a')
               (last_alert_details a')]
       else []
     else if (level =? 2)%nat then
       [log_alert "LEVEL2" (c_now c) (last_alert_reason a')
          (last_alert_details a');
        send_emergency (c_now c)]
     else []).
Proof.
  intros H.
  assert (G : forall x l f,
             finish x l (c_now c) f = Next a' loc' calls ov ->
             prev_alert_level l = prev_alert_level loc ->
             alert_count l = alert_count loc ->
             let level := get_alert_level a' in
             let prev := prev_alert_level loc in
             o_alert_level ov = level /\
             prev_alert_level loc' = level /\
             alert_count loc'
             = (alert_count loc + if (prev <? level)%nat then 1 else 0)%nat /\
             calls
             = (if (level =? prev)%nat then []
                else if (level =? 1)%nat then
                  if (prev =? 0)%nat
                  then [log_alert "LEVEL1" (c_now c) (last_alert_reason a')
                          (last_alert_details a')]
                  else []
                else if (level =? 2)%nat then
                  [log_alert "LEVEL2" (c_now c) (last_alert_reason a')
                     (last_alert_details a');
                   send_emergency (c_now c)]
                else [])).
  { intros x l f E P C. unfold finish in E. injection E as <- <- <- <-.
    destruct (log_level_change_spec x (c_now c) (get_alert_level x) l
                (get_alert_level_le2 x)) as (A & B & _ & _ & D).
    cbv zeta. rewrite <- P, <- C. repeat split; auto. }
  destruct (face_landmarks c) eqn:F.
  - destruct (c_ear c) as [e|] eqn:E.
    + rewrite (frame_measured alerter loc c e F E) in H.
      cbv zeta in H. eapply G; [exact H | reflexivity | reflexivity].
    + destruct (micro_count loc) as [n|] eqn:M;
        [destruct (recent_yawn_timestamps loc) as [ys|] eqn:R|].
      * rewrite (frame_stale alerter loc c n ys F E M R) in H.
        cbv zeta in H. eapply G; [exact H | reflexivity | reflexivity].
      * unfold frame in H. rewrite F, E, M, R in H. discriminate H.
      * unfold frame in H. rewrite F, E, M in H.
        destruct (recent_yawn_timestamps loc); discriminate H.
  - rewrite (frame_no_face alerter loc c F) in H.
    eapply G; [exact H | reflexivity | reflexivity].
Qed.


Lemma level_changes_are_logged_once_witness :
  let alerter := run (init false) [plain "DROWSY" 0] in
  let a' := process no_thread alerter "DROWSY" 3 (Some []) (Some 45)
              (Some 12) (Some 0%Z) (Some (1 # 10)) in
  let loc' := mkLocals (Some 0%Z) (Some []) 1 1 [60] 60 in
  let calls := [log_alert "LEVEL1" 3 (Some "drowsiness symptoms"%string)
                  (Some DetailsMultiple)] in
  frame alerter initial_locals (drowsy_capture 3)
  = Next a' loc' calls (mkOverlay 1 0 0) /\
  get_alert_level a' = 1%nat /\
  alert_count loc' = 1%nat.
Proof.
  cbv zeta.
  assert (E : frame (run (init false) [plain "DROWSY" 0]) initial_locals
                (drowsy_capture 3)
              = Next (process no_thread (run (init false) [plain "DROWSY" 0])
                        "DROWSY" 3 (Some []) (Some 45) (Some 12) (Some 0%Z)
                        (Some (1 # 10)))
                  (mkLocals (Some 0%Z) (Some []) 1 1 [60] 60)
                  [log_alert "LEVEL1" 3 (Some "drowsiness symptoms"%string)
                     (Some DetailsMultiple)]
                  (mkOverlay 1 0 0)) by (vm_compute; reflexivity).
  split; [exact E|].
  destruct (level_changes_are_logged_once _ _ _ _ _ _ _ E) as (L & _ & C & _).
  split; [symmetry; exact L | reflexivity].
Defined.

(** X20. An iteration raises [UnboundLocalError] exactly when a face was
    found without an EAR while [micro_count] or [recent_yawn_timestamps]
    has never been assigned -- in particular on the first iteration of a
    session if it is such a frame.  An iteration with an EAR binds both,
    and once bound they stay bound, so later iterations cannot raise. *)
Theorem unbound_locals_raise (alerter : AlertEngine) (loc : Locals)
    (c : Capture) :
  (frame alerter loc c = UnboundLocalError <->
   face_landmarks c = true /\ c_ear c = None /\ ~ bound loc) /\
  (forall a' loc' calls ov,
     frame alerter loc c = Next a' loc' calls ov ->
     (bound loc -> bound loc') /\
     (face_landmarks c = true -> bound loc')).
Proof.
  unfold bound. split.
  - unfold frame. destruct (face_landmarks c); [|split; [discriminate|]].
    + destruct (c_ear c) as [e|]; [split; [discriminate|]|].
      * intros (_ & E & _). discriminate E.
      * destruct (micro_count loc), (recent_yawn_timestamps loc);
          cbv iota beta zeta; split; try discriminate;
          try (intros (_ & _ & N); exfalso; apply N; split; discriminate);
          intros _; repeat split; intros (A & B); congruence.
    + intros (F & _). discriminate F.
  - intros a' loc' calls ov H.
    assert (G : forall x l f,
               finish x l (c_now c) f = Next a' loc' calls ov ->
               micro_count loc' = micro_count l /\
               recent_yawn_timestamps loc' = recent_yawn_timestamps l).
    { intros x l f E. unfold finish in E. injection E as <- <- <- <-.
      destruct (log_level_change_spec x (c_now c) (get_alert_level x) l
                  (get_alert_level_le2 x)) as (_ & _ & A & B & _). auto. }
    destruct (face_landmarks c) eqn:F.
    + destruct (c_ear c) as [e|] eqn:E.
      * rewrite (frame_measured alerter loc c e F E) in H. cbv zeta in H.
        destruct (G _ _ _ H) as (-> & ->).
        split; intros _; split; discriminate.
      * destruct (micro_count loc) as [n|] eqn:M;
          [destruct (recent_yawn_timestamps loc) as [ys|] eqn:R|].
        -- rewrite (frame_stale alerter loc c n ys F E M R) in H.
           cbv zeta in H. destruct (G _ _ _ H) as (-> & ->).
           rewrite M, R. split; intros _; split; discriminate.
        -- unfold frame in H. rewrite F, E, M, R in H. discriminate H.
        -- unfold frame in H. rewrite F, E, M in H.
           destruct (recent_yawn_timestamps loc); discriminate H.
    + rewrite (frame_no_face alerter loc c F) in H.
      destruct (G _ _ _ H) as (-> & ->). split; [auto | discriminate].
Qed.

Lemma unbound_locals_raise_witness :
  frame (init false) initial_locals (eyeless_capture 0) = UnboundLocalError.
Proof.
  destruct (unbound_locals_raise (init false) initial_locals
              (eyeless_capture 0)) as (H & _).
  apply H. split; [reflexivity|]. split; [reflexivity|].
  intros (N & _). apply N. reflexivity.
Defined.

Lemma count_since_empty_args (s : AlertEngine) (t : Q) :
  (List.length (yawn_timestamps s) <= YAWN_ALERT_THRESHOLD)%nat ->
  yawn_trigger_of s (Some []) t = false.
Proof.
  intros L. unfold yawn_trigger_of. rewrite check_yawn_trigger_eq.
  cbn [snd update_yawns ingest_yawns]. apply Nat.ltb_ge.
  eapply Nat.le_trans; [apply keep_since_length | exact L].
Qed.

(** X21. A frame without a face.  The iteration calls [process] with state
    "NO_FACE", an empty yawn list, no PERCLOS, blink rate or EAR and a
    microsleep count of 0, and reports a yawn frequency of 0.  If the
    engine tracks at most YAWN_ALERT_THRESHOLD yawns, that call is a
    [reset()] after the yawn pruning: the level does not rise, and when it
    was not above [prev_alert_level] (itself a level, at most 2) nothing is
    logged. *)
Theorem frame_without_face (alerter : AlertEngine) (loc : Locals)
    (c : Capture) :
  face_landmarks c = false ->
  exists a' loc' calls,
    frame alerter loc c
    = Next a' loc' calls
        (mkOverlay (get_alert_level a') (get_level1_elapsed a' (c_now c)) 0) /\
    a' = process (c_env c) alerter "NO_FACE" (c_now c) (Some []) None None
           (Some 0%Z) None /\
    ((List.length (yawn_timestamps alerter) <= YAWN_ALERT_THRESHOLD)%nat ->
     a' = reset (after_yawns alerter (Some []) (c_now c)) /\
     (get_alert_level a' <= get_alert_level alerter)%nat /\
     ((get_alert_level alerter <= prev_alert_level loc <= 2)%nat ->
      calls = [])).
Proof.
  intros F. rewrite (frame_no_face alerter loc c F). unfold finish.
  do 3 eexists. split; [reflexivity|]. split; [reflexivity|].
  intros L.
  assert (S : should_trigger_level1 alerter "NO_FACE" (c_now c) (Some [])
                None None = false).
  { unfold should_trigger_level1.
    now rewrite (count_since_empty_args alerter (c_now c) L). }
  assert (M : microsleep_branch alerter (Some 0%Z) = false) by reflexivity.
  rewrite (process_quiet_branch (c_env c) alerter "NO_FACE" (c_now c)
             (Some []) None None (Some 0%Z) None M S).
  change (quiet_step (after_yawns alerter (Some []) (c_now c)) "NO_FACE")
    with (reset (after_yawns alerter (Some []) (c_now c))).
  split; [reflexivity|].
  assert (Le : (get_alert_level
                  (reset (after_yawns alerter (Some []) (c_now c)))
                <= get_alert_level alerter)%nat).
  { rewrite <- (after_yawns_level alerter (Some []) (c_now c)).
    apply reset_level_le. }
  split; [exact Le|]. intros P.
  destruct (log_level_change_spec
              (reset (after_yawns alerter (Some []) (c_now c))) (c_now c)
              (get_alert_level
                 (reset (after_yawns alerter (Some []) (c_now c)))) loc
              (get_alert_level_le2 _)) as (_ & _ & _ & _ & ->).
  set (lv := get_alert_level _) in *.
  destruct (lv =? prev_alert_level loc)%nat eqn:Q1; [reflexivity|].
  apply Nat.eqb_neq in Q1.
  destruct lv as [|[|k]]; cbn; [reflexivity | | ].
  - destruct (prev_alert_level loc =? 0)%nat eqn:Q0; [|reflexivity].
    apply Nat.eqb_eq in Q0. lia.
  - destruct k; [|reflexivity]. exfalso.
    pose proof (get_alert_level_le2 alerter). lia.
Qed.

Lemma frame_without_face_witness :
  let alerter := run (init false) [plain "DROWSY" 0; plain "DROWSY" 3] in
  let loc := mkLocals (Some 0%Z) (Some []) 1 1 [] 0 in
  exists a' loc' calls ov,
    frame alerter loc (empty_capture 4) = Next a' loc' calls ov /\
    get_alert_level alerter = 1%nat /\
    get_alert_level a' = 0%nat /\ calls = [].
Proof.
  cbv zeta.
  destruct (frame_without_face
              (run (init false) [plain "DROWSY" 0; plain "DROWSY" 3])
              (mkLocals (Some 0%Z) (Some []) 1 1 [] 0) (empty_capture 4))
    as (a' & loc' & calls & E & A & H); [reflexivity|].
  exists a', loc', calls. eexists. split; [exact E|].
  split; [reflexivity|].
  destruct H as (_ & _ & C).
  - cbn. lia.
  - split; [rewrite A; reflexivity | apply C; cbn; lia].
Defined.

(** X22. A frame with a face but without an EAR replays the locals of the
    last measured frame.  [process] is then called with state "NO_FACE",
    PERCLOS and blink rate 0.0, and the stale [micro_count] and
    [recent_yawn_timestamps]; with a stale microsleep count above 0 and
    Level 1 not active, Level 1 is raised on that frame with reason
    "microsleep event". *)
Theorem eyeless_frame_replays_microsleep (alerter : AlertEngine)
    (loc : Locals) (c : Capture) (n : Z) (ys : list Q) :
  face_landmarks c = true -> c_ear c = None ->
  micro_count loc = Some n -> recent_yawn_timestamps loc = Some ys ->
  exists a' loc' calls ov,
    frame alerter loc c = Next a' loc' calls ov /\
    a' = process (c_env c) alerter "NO_FACE" (c_now c) (Some ys) (Some 0)
           (Some 0) (Some n) None /\
    micro_count loc' = Some n /\ recent_yawn_timestamps loc' = Some ys /\
    ((0 < n)%Z -> level1_active alerter = false ->
     level1_active a' = true /\
     level1_triggered_at a' = Some (c_now c) /\
     last_alert_reason a' = Some "microsleep event"%string).
Proof.
  intros F E M R. rewrite (frame_stale alerter loc c n ys F E M R).
  cbv zeta. unfold finish. do 4 eexists.
  split; [reflexivity|]. split; [reflexivity|].
  destruct (log_level_change_spec
              (process (c_env c) alerter "NO_FACE" (c_now c) (Some ys)
                 (Some 0) (Some 0) (Some n) None) (c_now c)
              (get_alert_level
                 (process (c_env c) alerter "NO_FACE" (c_now c) (Some ys)
                    (Some 0) (Some 0) (Some n) None)) loc
              (get_alert_level_le2 _)) as (_ & _ & A & B & _).
  rewrite A, B. split; [exact M|]. split; [exact R|].
  intros N L.
  destruct (process_microsleep (c_env c) alerter "NO_FACE" (c_now c)
              (Some ys) (Some 0) (Some 0) n None N L) as (X & Y & Z0 & _).
  auto.
Qed.

Lemma eyeless_frame_replays_microsleep_witness :
  let loc := mkLocals (Some 1%Z) (Some []) 0 0 [20] 20 in
  exists a' loc' calls ov,
    frame (init false) loc (eyeless_capture 9) = Next a' loc' calls ov /\
    level1_active a' = true /\
    last_alert_reason a' = Some "microsleep event"%string.
Proof.
  cbv zeta.
  destruct (eyeless_frame_replays_microsleep (init false)
              (mkLocals (Some 1%Z) (Some []) 0 0 [20] 20) (eyeless_capture 9)
              1%Z [])
    as (a' & loc' & calls & ov & E & _ & _ & _ & H); try reflexivity.
  exists a', loc', calls, ov. split; [exact E|].
  destruct H as (A & _ & R); [lia | reflexivity |]. auto.
Defined.

End MainFacts.

(** * alerter._beep: the tone buffer *)

Lemma py_int_ratio (a b : Z) :
  (0 < b)%Z -> py_int (inject_Z a / inject_Z b) = Z.quot a b.
Proof.
  intros B. destruct b as [|p|p]; try lia.
  unfold py_int, Qdiv, Qinv, inject_Z, Qmult. cbn.
  now rewrite Z.mul_1_r.
Qed.

Lemma beep_period_eq (f : Z) :
  beep_period f = Z.max 1 (22050 / Z.max 1 f)%Z.
Proof.
  unfold beep_period. rewrite py_int_ratio by lia.
  rewrite Z.quot_div_nonneg by lia. reflexivity.
Qed.

Lemma beep_period_high (f : Z) : (11025 < f)%Z -> beep_period f = 1%Z.
Proof.
  intros H. rewrite beep_period_eq.
  assert (E : Z.max 1 f = f) by lia. rewrite E.
  assert (22050 / f < 2)%Z by (apply Z.div_lt_upper_bound; lia).
  assert (0 <= 22050 / f)%Z by (apply Z.div_pos; lia). lia.
Qed.

(** X23. The tone buffer of [_beep].  It holds [int(duration_s * 22050)]
    samples (none for a non-positive duration); every sample is 12000 or
    -12000, so each fits the signed 16-bit array; a frequency of 0 or less
    gives the buffer of 1 Hz; and above 11025 Hz the period is one sample,
    its first half is empty, and the buffer is constantly -12000: no tone
    is left. *)
Theorem beep_buffer_shape (frequency_hz : Z) (duration_s : Q) :
  let buf := beep_samples frequency_hz duration_s in
  List.length buf = Z.to_nat (py_int (duration_s * inject_Z 22050)) /\
  Forall (fun x => (x = 12000 \/ x = -12000) /\ (-32768 <= x <= 32767))%Z buf /\
  ((frequency_hz <= 0)%Z -> buf = beep_samples 1 duration_s) /\
  ((11025 < frequency_hz)%Z -> Forall (fun x => x = (-12000)%Z) buf).
Proof.
  cbv zeta. unfold beep_samples, py_range. repeat split.
  - now rewrite !length_map, length_seq.
  - apply Forall_forall. intros x I. apply in_map_iff in I.
    destruct I as (i & <- & _). destruct (_ <? _)%Z; lia.
  - intros H. unfold beep_period.
    assert (E : Z.max 1 frequency_hz = Z.max 1 1) by lia.
    now rewrite E.
  - intros H. rewrite (beep_period_high _ H).
    apply Forall_forall. intros x I. apply in_map_iff in I.
    destruct I as (i & <- & _). rewrite Z.mod_1_r. reflexivity.
Qed.

Lemma beep_buffer_shape_witness :
  beep_samples 800 (2 # 10) <> beep_samples 12000 (2 # 10) /\
  List.length (beep_samples 12000 (2 # 10)) = 4410%nat /\
  Forall (fun x => x = (-12000)%Z) (beep_samples 12000 (2 # 10)) /\
  beep_samples (-5) (1 # 1000) = beep_samples 1 (1 # 1000).
Proof.
  destruct (beep_buffer_shape 12000 (2 # 10)) as (L & _ & _ & H).
  destruct (beep_buffer_shape (-5) (1 # 1000)) as (_ & _ & Z0 & _).
  split; [vm_compute; discriminate|].
  split; [rewrite L; reflexivity|].
  split; [apply H; lia | apply Z0; lia].
Defined.
